(** * wqu-weather-app: the forecast transformation pipeline

    A shallow embedding of [weather_app/utils.py] and of the route in
    [weather_app/__init__.py].  Python values are modelled as the program
    handles them:

    - a [str] is a [string] holding its UTF-8 bytes (so the degree sign is
      the two bytes C2 B0);
    - a [float] is a binary64 number, Rocq's primitive [float];
    - an [int] is a [Z];
    - a [dict] decoded from JSON is an association list, looked up by key;
    - a raised exception is the [Raise] branch of [result]. *)

From Stdlib Require Import ZArith List String Ascii Bool Lia Floats.
Import ListNotations.

Set Warnings "-inexact-float,-register-all".
Local Open Scope string_scope.
Local Open Scope Z_scope.

(** ** The Python runtime: exceptions *)

Inductive exn : Type :=
| KeyError (key : string)
| IndexError
| TypeError (msg : string)
| ValueError (msg : string)
| OverflowError
| UnknownTimeZoneError (name : string).

Inductive result (A : Type) : Type :=
| Return (a : A)
| Raise (e : exn).
Arguments Return {A} a.
Arguments Raise {A} e.

Definition bind {A B : Type} (r : result A) (k : A -> result B) : result B :=
  match r with
  | Return a => k a
  | Raise e => Raise e
  end.

Notation "x <- r ;; k" := (bind r (fun x => k))
  (at level 61, r at next level, right associativity).

(** ** The Python runtime: decimal digits *)

Definition digit_char (d : Z) : ascii := ascii_of_N (Z.to_N (48 + d)).

(** The decimal digits of [n], least significant first; [fuel] bounds the
    number of digits produced. *)
Fixpoint digits_rev (fuel : nat) (n : Z) : list ascii :=
  match fuel with
  | O => []
  | S fuel' =>
      if n <? 10 then [digit_char n]
      else digit_char (n mod 10) :: digits_rev fuel' (n / 10)
  end.

(** A natural number has at most [Z.log2 n + 1] decimal digits. *)
Definition digits_of (n : Z) : list ascii :=
  rev (digits_rev (S (Z.to_nat (Z.log2 n))) n).

Definition digit_value (c : ascii) : option Z :=
  let n := Z.of_N (N_of_ascii c) in
  if (48 <=? n) && (n <=? 57) then Some (n - 48) else None.

(** The value of a digit string read left to right from [acc]; [None] when a
    character is not a digit. *)
Fixpoint digits_value (acc : Z) (l : list ascii) : option Z :=
  match l with
  | [] => Some acc
  | c :: l' =>
      match digit_value c with
      | Some d => digits_value (10 * acc + d) l'
      | None => None
      end
  end.

Definition str_of_chars (l : list ascii) : string := string_of_list_ascii l.
Definition chars_of_str (s : string) : list ascii := list_ascii_of_string s.

(** [str(n)] for an [int]. *)
Definition int_str (n : Z) : string :=
  if n <? 0 then "-" ++ str_of_chars (digits_of (- n))
  else str_of_chars (digits_of n).

(** ** The Python runtime: binary64 numbers *)

(** [p / q] rounded to the nearest integer, ties to the even one ([0 < q]). *)
Definition rne_div (p q : Z) : Z :=
  let d := p / q in
  let r := p mod q in
  match (2 * r) ?= q with
  | Lt => d
  | Gt => d + 1
  | Eq => if Z.even d then d else d + 1
  end.

Definition sign_str (s : bool) : string := if s then "-" else "".

(** [format(x, ".0f")]: the exact value of [x] rounded half to even to an
    integer, with the sign of [x] kept (so [-0.4] prints as [-0]). *)
Definition format_0f (x : float) : string :=
  match Prim2SF x with
  | S754_nan => "nan"
  | S754_infinity s => sign_str s ++ "inf"
  | S754_zero s => sign_str s ++ "0"
  | S754_finite s m e =>
      let n := if 0 <=? e then Z.pos m * 2 ^ e
               else rne_div (Z.pos m) (2 ^ (- e)) in
      sign_str s ++ str_of_chars (digits_of n)
  end.

(** [num / den], a positive fraction, rounded to the nearest binary64 number,
    ties to the even mantissa.  Every binary64 number is a multiple of
    [2 ^ -1074]: the fraction is scaled by [2 ^ 1074], the bits beyond the
    53rd are shifted out, and the quotient is rounded. *)
Definition round_pos (num den : Z) : spec_float :=
  let scaled := Z.shiftl num 1074 in
  let sh := Z.max 0 (Z.log2 (scaled / den) - 52) in
  let mant := rne_div scaled (Z.shiftl den sh) in
  let sh' := if mant =? 2 ^ 53 then sh + 1 else sh in
  let mant' := if mant =? 2 ^ 53 then 2 ^ 52 else mant in
  if 2045 <? sh' then S754_infinity false
  else match mant' with
       | Z.pos m => S754_finite false m (sh' - 1074)
       | _ => S754_zero false
       end.

Definition with_sign (s : bool) (x : spec_float) : spec_float :=
  match x with
  | S754_zero _ => S754_zero s
  | S754_infinity _ => S754_infinity s
  | S754_finite _ m e => S754_finite s m e
  | S754_nan => S754_nan
  end.

(** The fraction [d * 10 ^ t]. *)
Definition dec_num (d t : Z) : Z := d * 10 ^ Z.max t 0.
Definition dec_den (t : Z) : Z := 10 ^ Z.max (- t) 0.

(** The decimal number [d * 10 ^ t] ([0 <= d]) as a binary64 number. *)
Definition round_dec (d t : Z) : spec_float :=
  if d =? 0 then S754_zero false else round_pos (dec_num d t) (dec_den t).

(** [float(n)] for an [int]: [OverflowError] when [n] is too large. *)
Definition int_to_float (n : Z) : result float :=
  match with_sign (n <? 0) (round_dec (Z.abs n) 0) with
  | S754_infinity _ => Raise OverflowError
  | x => Return (SF2Prim x)
  end.

(** *** [float(s)] for a [str] *)

Definition is_digit (c : ascii) : bool :=
  match digit_value c with Some _ => true | None => false end.

Definition is_space (c : ascii) : bool :=
  let n := N_of_ascii c in
  ((9 <=? n) && (n <=? 13) || (n =? 32))%N.

Definition lower (c : ascii) : ascii :=
  let n := N_of_ascii c in
  if ((65 <=? n) && (n <=? 90))%N then ascii_of_N (n + 32) else c.

Fixpoint lstrip_space (l : list ascii) : list ascii :=
  match l with
  | c :: l' => if is_space c then lstrip_space l' else l
  | [] => []
  end.

Definition strip_space (l : list ascii) : list ascii :=
  rev (lstrip_space (rev (lstrip_space l))).

(** Underscores may separate digits: one underscore, a digit on each side.
    [prev] tells whether the previous character was a digit. *)
Fixpoint drop_underscores (prev : bool) (l : list ascii) : option (list ascii) :=
  match l with
  | [] => Some []
  | c :: l' =>
      if Ascii.eqb c "_" then
        match l' with
        | c' :: _ => if prev && is_digit c' then drop_underscores false l'
                     else None
        | [] => None
        end
      else option_map (cons c) (drop_underscores (is_digit c) l')
  end.

Fixpoint span_digits (l : list ascii) : list ascii * list ascii :=
  match l with
  | c :: l' =>
      if is_digit c then let (ds, r) := span_digits l' in (c :: ds, r)
      else ([], l)
  | [] => ([], [])
  end.

Definition split_sign (l : list ascii) : bool * list ascii :=
  match l with
  | c :: l' =>
      if Ascii.eqb c "-" then (true, l')
      else if Ascii.eqb c "+" then (false, l')
      else (false, l)
  | [] => (false, [])
  end.

(** The exponent part: empty, or [e], an optional sign and digits. *)
Definition parse_exponent (l : list ascii) : option Z :=
  match l with
  | [] => Some 0
  | c :: l' =>
      if Ascii.eqb (lower c) "e" then
        let (s, ds) := split_sign l' in
        match ds with
        | [] => None
        | _ => option_map (fun v => if s then - v else v) (digits_value 0 ds)
        end
      else None
  end.

(** A decimal literal without its sign, as a pair [(d, t)] standing for
    [d * 10 ^ t]: digits, an optional point and more digits, an optional
    exponent; at least one digit before the exponent. *)
Definition parse_decimal (l : list ascii) : option (Z * Z) :=
  let (ip, r1) := span_digits l in
  let (fp, r2) :=
    match r1 with
    | c :: r => if Ascii.eqb c "." then span_digits r else ([], r1)
    | [] => ([], [])
    end in
  match (ip ++ fp)%list with
  | [] => None
  | ds =>
      match digits_value 0 ds, parse_exponent r2 with
      | Some d, Some x => Some (d, x - Z.of_nat (List.length fp))
      | _, _ => None
      end
  end.

Definition float_of_chars (l : list ascii) : option spec_float :=
  let (s, body) := split_sign (strip_space l) in
  let word := str_of_chars (map lower body) in
  if String.eqb word "inf" || String.eqb word "infinity"
  then Some (S754_infinity s)
  else if String.eqb word "nan" then Some S754_nan
  else
    match drop_underscores false body with
    | Some body' =>
        match parse_decimal body' with
        | Some (d, t) => Some (with_sign s (round_dec d t))
        | None => None
        end
    | None => None
    end.

(** [float(s)]: [ValueError] when [s] is not a floating-point literal.  The
    literals are those written in ASCII, as [repr] and [str] write them. *)
Definition float_of_str (s : string) : result float :=
  match float_of_chars (chars_of_str s) with
  | Some x => Return (SF2Prim x)
  | None => Raise (ValueError "could not convert string to float")
  end.

(** *** [repr(x)] for a [float] *)

(** The positive binary64 number [m * 2 ^ e] as a fraction. *)
Definition bin_num (m : positive) (e : Z) : Z := Z.shiftl (Z.pos m) (Z.max e 0).
Definition bin_den (e : Z) : Z := Z.shiftl 1 (Z.max (- e) 0).

(** [num / den < 10 ^ E]. *)
Definition below_pow10 (num den E : Z) : bool :=
  num * 10 ^ Z.max (- E) 0 <? den * 10 ^ Z.max E 0.

(** The least [E] with [num / den < 10 ^ E], searched upwards from [E]
    and downwards from an [E] that has the property. *)
Fixpoint exponent_up (fuel : nat) (num den E : Z) : Z :=
  match fuel with
  | O => E
  | S fuel' =>
      if below_pow10 num den E then E
      else exponent_up fuel' num den (E + 1)
  end.

Fixpoint exponent_down (fuel : nat) (num den E : Z) : Z :=
  match fuel with
  | O => E
  | S fuel' =>
      if below_pow10 num den (E - 1) then exponent_down fuel' num den (E - 1)
      else E
  end.

(** The decimal exponent [E] of [m * 2 ^ e]:
    [10 ^ (E - 1) <= m * 2 ^ e < 10 ^ E].  The search starts at an estimate
    from the binary logarithm. *)
Definition decimal_exponent (m : positive) (e : Z) : Z :=
  let E0 := (Z.log2 (Z.pos m) + e) * 30103 / 100000 in
  if below_pow10 (bin_num m e) (bin_den e) E0
  then exponent_down 640 (bin_num m e) (bin_den e) E0
  else exponent_up 640 (bin_num m e) (bin_den e) (E0 + 1).

Definition reads_as (m : positive) (e : Z) (d t : Z) : bool :=
  match round_dec d t with
  | S754_finite _ m' e' => Pos.eqb m' m && (e' =? e)
  | _ => false
  end.

(** The candidates with digits down to [10 ^ t]: [m * 2 ^ e] cut at
    [10 ^ t], and the next decimal above.  The result is the one that reads
    back as [m * 2 ^ e]; the nearer one when both do. *)
Definition digits_at (m : positive) (e : Z) (t : Z) : option Z :=
  let n := bin_num m e * dec_den t in
  let q := bin_den e * 10 ^ Z.max t 0 in
  let lo := n / q in
  let hi := lo + 1 in
  match reads_as m e lo t, reads_as m e hi t with
  | true, true => Some (rne_div n q)
  | true, false => Some lo
  | false, true => Some hi
  | false, false => None
  end.

(** The shortest digits that read back as [m * 2 ^ e]: [k] digits are tried,
    then one more, up to the 17 that always suffice.  [E] is the decimal
    exponent: [10 ^ (E - 1) <= m * 2 ^ e < 10 ^ E]. *)
Fixpoint shortest_digits (fuel : nat) (m : positive) (e E k : Z) : Z * Z :=
  match fuel with
  | O => (rne_div (bin_num m e * dec_den (E - k))
                  (bin_den e * 10 ^ Z.max (E - k) 0), E - k)
  | S fuel' =>
      match digits_at m e (E - k) with
      | Some d => (d, E - k)
      | None => shortest_digits fuel' m e E (k + 1)
      end
  end.

Fixpoint strip_zeros (fuel : nat) (d t : Z) : Z * Z :=
  match fuel with
  | O => (d, t)
  | S fuel' => if d mod 10 =? 0 then strip_zeros fuel' (d / 10) (t + 1)
               else (d, t)
  end.

Definition zeros (n : Z) : list ascii := repeat "0"%char (Z.to_nat n).

(** The exponent part that [repr] writes for the exponent [x]: a sign and at
    least two digits. *)
Definition exponent_chars (x : Z) : list ascii :=
  ("e"%char :: (if x <? 0 then "-"%char else "+"%char)
   :: (if Z.abs x <? 10 then ["0"%char] else []) ++ digits_of (Z.abs x))%list.

(** The layout of [repr]: [ds] are the digits and the value is
    [0.ds * 10 ^ decpt].  Scientific notation is used when
    [decpt <= -4] or [16 < decpt]; a float always shows a point or an
    exponent. *)
Definition repr_layout (ds : list ascii) (decpt : Z) : list ascii :=
  let n := Z.of_nat (List.length ds) in
  (if (decpt <=? -4) || (16 <? decpt) then
     firstn 1 ds
     ++ (if 1 <? n then "."%char :: skipn 1 ds else [])
     ++ exponent_chars (decpt - 1)
   else if decpt <=? 0 then
     "0"%char :: "."%char :: zeros (- decpt) ++ ds
   else if n <=? decpt then
     ds ++ zeros (decpt - n) ++ ["."%char; "0"%char]
   else
     firstn (Z.to_nat decpt) ds ++ "."%char :: skipn (Z.to_nat decpt) ds)%list.

Definition float_repr (x : float) : string :=
  match Prim2SF x with
  | S754_nan => "nan"
  | S754_infinity s => sign_str s ++ "inf"
  | S754_zero s => sign_str s ++ "0.0"
  | S754_finite s m e =>
      let E := decimal_exponent m e in
      let (d0, t0) := shortest_digits 16 m e E 1 in
      let (d, t) := strip_zeros 17 d0 t0 in
      let ds := digits_of d in
      sign_str s ++ str_of_chars (repr_layout ds (t + Z.of_nat (List.length ds)))
  end.

(** *** Strings *)

(** A byte that continues a UTF-8 sequence ([10xxxxxx]). *)
Definition is_continuation (c : ascii) : bool :=
  let n := N_of_ascii c in ((128 <=? n) && (n <? 192))%N.

(** The characters (code points) of a [str], each as its UTF-8 bytes. *)
Fixpoint code_points (l : list ascii) : list (list ascii) :=
  match l with
  | [] => []
  | c :: l' =>
      match code_points l' with
      | (c' :: p) :: ps =>
          if is_continuation c' then (c :: c' :: p) :: ps
          else [c] :: (c' :: p) :: ps
      | ps => [c] :: ps
      end
  end.

Fixpoint drop_prefix (p l : list ascii) : option (list ascii) :=
  match p, l with
  | [], _ => Some l
  | a :: p', b :: l' => if Ascii.eqb a b then drop_prefix p' l' else None
  | _ :: _, [] => None
  end.

(** [l] without one leading item of [cs], when it starts with one. *)
Fixpoint drop_any (cs : list (list ascii)) (l : list ascii)
  : option (list ascii) :=
  match cs with
  | [] => None
  | c :: cs' =>
      match drop_prefix c l with
      | Some r => Some r
      | None => drop_any cs' l
      end
  end.

Fixpoint lstrip_any (fuel : nat) (cs : list (list ascii)) (l : list ascii)
  : list ascii :=
  match fuel with
  | O => l
  | S fuel' =>
      match drop_any cs l with
      | Some r => lstrip_any fuel' cs r
      | None => l
      end
  end.

(** [s.rstrip(chars)]: [s] without its trailing characters that occur in
    [chars].  The bytes are scanned from the end, so each character of
    [chars] is matched reversed. *)
Definition rstrip (s chars : string) : string :=
  let l := chars_of_str s in
  str_of_chars
    (rev (lstrip_any (List.length l)
            (map (@rev ascii) (code_points (chars_of_str chars))) (rev l))).

(** ** The Python runtime: values decoded from JSON *)

Inductive scalar : Type :=
| PyNone
| PyBool (b : bool)
| PyInt (n : Z)
| PyFloat (x : float)
| PyStr (s : string).

Definition dict (A : Type) : Type := list (string * A).

Inductive json : Type :=
| JLeaf (v : scalar)
| JList (l : list json)
| JDict (d : list (string * json)).

Fixpoint lookup {A : Type} (key : string) (d : dict A) : option A :=
  match d with
  | [] => None
  | (k, v) :: d' => if String.eqb k key then Some v else lookup key d'
  end.

(** [d[key]] on a [dict]. *)
Definition getitem {A : Type} (d : dict A) (key : string) : result A :=
  match lookup key d with
  | Some v => Return v
  | None => Raise (KeyError key)
  end.

(** [v[key]] on a decoded JSON value: only a [dict] takes a [str] key. *)
Definition subscript (v : json) (key : string) : result json :=
  match v with
  | JDict d => getitem d key
  | JList _ => Raise (TypeError "list indices must be integers or slices")
  | JLeaf (PyStr _) => Raise (TypeError "string indices must be integers")
  | JLeaf _ => Raise (TypeError "object is not subscriptable")
  end.

(** [format(v, "")], what an f-string field without a format gives. *)
Definition format_value (v : scalar) : string :=
  match v with
  | PyNone => "None"
  | PyBool true => "True"
  | PyBool false => "False"
  | PyInt n => int_str n
  | PyFloat x => float_repr x
  | PyStr s => s
  end.

(** [for x in l] with a body that may raise: the results in order, or the
    first exception. *)
Fixpoint traverse {A B : Type} (f : A -> result B) (l : list A)
  : result (list B) :=
  match l with
  | [] => Return []
  | a :: l' => b <- f a ;; bs <- traverse f l' ;; Return (b :: bs)
  end.

(** ** pandas: time stamps and time zones *)

(** What the date parser reads from one index label: the instant in
    nanoseconds since the epoch and, when the label carries one, its UTC
    offset.  The parser itself belongs to pandas and is a parameter. *)
Definition datetime_parser : Type := json -> option (Z * option Z).

(** The time zone database: a zone name gives the UTC offset, in
    nanoseconds, in force at an instant. *)
Definition tz_database : Type := string -> option (Z -> Z).

(** A [DatetimeIndex]: the instants and, when time-zone aware, the zone. *)
Record DatetimeIndex (Z0 : Type) : Type :=
  { stamps : list Z; zone : Z0 }.
Arguments stamps {Z0} _.
Arguments zone {Z0} _.

Definition same_offsets (l : list (Z * option Z)) : bool :=
  match l with
  | [] => true
  | (_, o) :: l' =>
      forallb (fun p => match o, snd p with
                        | None, None => true
                        | Some a, Some b => a =? b
                        | _, _ => false
                        end) l'
  end.

(** One label through the parser. *)
Definition parse_label (parse : datetime_parser) (l : json)
  : result (Z * option Z) :=
  match parse l with
  | Some p => Return p
  | None => Raise (ValueError "unknown datetime string format")
  end.

(** [pd.to_datetime(labels)]: every label is parsed; the index is
    time-zone aware when the labels carry an offset, naive when they do not,
    and the empty index is naive.  A label that cannot be parsed, or labels
    that disagree on the offset, raise; for labels that disagree, which
    error is raised, and where, depends on the version of pandas. *)
Definition to_datetime (parse : datetime_parser) (labels : list json)
  : result (DatetimeIndex (option Z)) :=
  ps <- traverse (parse_label parse) labels ;;
  if same_offsets ps
  then Return {| stamps := map fst ps;
                 zone := match ps with [] => None | (_, o) :: _ => o end |}
  else Raise (ValueError "mixed time zones").

(** [index.tz_convert(tz)]: the zone is looked up first; a naive index
    cannot be converted.  The instants do not change.  The database stands
    for the names that pandas looks up in its time zone database; what it
    does with the empty name, or with a name that is a fixed offset, is not
    modelled. *)
Definition tz_convert (db : tz_database) (idx : DatetimeIndex (option Z))
  (tz : string) : result (DatetimeIndex string) :=
  match db tz with
  | None => Raise (UnknownTimeZoneError tz)
  | Some _ =>
      match zone idx with
      | None => Raise (TypeError "Cannot convert tz-naive timestamps, use tz_localize to localize")
      | Some _ => Return {| stamps := stamps idx; zone := tz |}
      end
  end.

(** A [pandas.Series] with a time-zone-aware index. *)
Record Series (V : Type) : Type :=
  { index : DatetimeIndex string; values : list V }.
Arguments index {V} _.
Arguments values {V} _.

(** [pd.Series(readings, index=labels)] holds the readings in one dtype,
    which pandas infers from the whole list: beside a [float], an [int] is
    held as a [float] and a null as NaN, and a column of other values is
    held in ways that differ from one version of pandas to the next.  The
    inference belongs to pandas and is a parameter: [held readings v] is
    what the series holds for the reading [v] of the column [readings]. *)
Definition series_dtype : Type := list json -> json -> json.

(** *** An instance: ISO 8601 labels and the zone UTC *)

(** Days from the epoch to the civil date [y-m-d] (proleptic Gregorian). *)
Definition days_from_civil (y m d : Z) : Z :=
  let y' := if m <=? 2 then y - 1 else y in
  let era := y' / 400 in
  let yoe := y' - era * 400 in
  let doy := (153 * (if 2 <? m then m - 3 else m + 9) + 2) / 5 + d - 1 in
  era * 146097 + (yoe * 365 + yoe / 4 - yoe / 100 + doy) - 719468.

Definition is_leap (y : Z) : bool :=
  (y mod 4 =? 0) && (negb (y mod 100 =? 0) || (y mod 400 =? 0)).

Definition days_in_month (y m : Z) : Z :=
  if m =? 2 then (if is_leap y then 29 else 28)
  else if (m =? 4) || (m =? 6) || (m =? 9) || (m =? 11) then 30 else 31.

(** The number written by the [n] digits at the head of [l], and the rest. *)
Definition take_number (n : nat) (l : list ascii) : option (Z * list ascii) :=
  if Nat.eqb (List.length (firstn n l)) n then
    option_map (fun v => (v, skipn n l)) (digits_value 0 (firstn n l))
  else None.

Definition take_char (c : ascii) (l : list ascii) : option (list ascii) :=
  match l with
  | c' :: l' => if Ascii.eqb c c' then Some l' else None
  | [] => None
  end.

Definition obind {A B : Type} (o : option A) (k : A -> option B) : option B :=
  match o with Some a => k a | None => None end.

(** The offset suffix: nothing (a naive label), [Z], or [+hh:mm] / [-hh:mm];
    in nanoseconds. *)
Definition iso_offset (l : list ascii) : option (option Z) :=
  match l with
  | [] => Some None
  | c :: l' =>
      if Ascii.eqb c "Z" then
        match l' with [] => Some (Some 0) | _ => None end
      else if Ascii.eqb c "+" || Ascii.eqb c "-" then
        obind (take_number 2 l') (fun '(h, l1) =>
        obind (take_char ":" l1) (fun l2 =>
        obind (take_number 2 l2) (fun '(mi, l3) =>
        match l3 with
        | [] =>
            if (h <? 24) && (mi <? 60)
            then Some (Some ((if Ascii.eqb c "-" then -1 else 1)
                             * (h * 3600 + mi * 60) * 1000000000))
            else None
        | _ => None
        end)))
      else None
  end.

(** Labels of the form [YYYY-MM-DDThh:mm:ss] with an optional offset, as the
    forecast service writes them. *)
Definition iso8601 : datetime_parser := fun label =>
  match label with
  | JLeaf (PyStr s) =>
      obind (take_number 4 (chars_of_str s)) (fun '(y, l1) =>
      obind (take_char "-" l1) (fun l2 =>
      obind (take_number 2 l2) (fun '(m, l3) =>
      obind (take_char "-" l3) (fun l4 =>
      obind (take_number 2 l4) (fun '(d, l5) =>
      obind (take_char "T" l5) (fun l6 =>
      obind (take_number 2 l6) (fun '(h, l7) =>
      obind (take_char ":" l7) (fun l8 =>
      obind (take_number 2 l8) (fun '(mi, l9) =>
      obind (take_char ":" l9) (fun l10 =>
      obind (take_number 2 l10) (fun '(sec, l11) =>
      obind (iso_offset l11) (fun off =>
      if (1 <=? m) && (m <=? 12) && (1 <=? d) && (d <=? days_in_month y m)
         && (h <? 24) && (mi <? 60) && (sec <? 60)
      then
        let wall := ((days_from_civil y m d * 24 + h) * 60 + mi) * 60 + sec in
        Some (wall * 1000000000 - match off with Some o => o | None => 0 end,
              off)
      else None))))))))))))
  | _ => None
  end.

(** A database that knows the zone [UTC] only. *)
Definition utc_only : tz_database := fun name =>
  if String.eqb name "UTC" then Some (fun _ => 0) else None.

(** Every reading held as it is, which is how pandas holds a column in
    which every reading is a [float]. *)
Definition held_as_given : series_dtype := fun _ v => v.

(** *** Resampling by day *)

Definition day_ns : Z := 86400 * 1000000000.

(** The calendar day, counted from the epoch, of instant [t] in a zone with
    offset function [off]. *)
Definition local_day (off : Z -> Z) (t : Z) : Z := (t + off t) / day_ns.

Definition fmax (a b : float) : float := if PrimFloat.ltb a b then b else a.
Definition fmin (a b : float) : float := if PrimFloat.ltb b a then b else a.

(** [max] and [min] of a column: missing values (NaN) are skipped, and the
    result is NaN when nothing is left. *)
Definition skipna (l : list float) : list float :=
  filter (fun x => negb (PrimFloat.is_nan x)) l.

Definition nanmax (l : list float) : float :=
  match skipna l with
  | [] => PrimFloat.nan
  | x :: r => fold_left fmax r x
  end.

Definition nanmin (l : list float) : float :=
  match skipna l with
  | [] => PrimFloat.nan
  | x :: r => fold_left fmin r x
  end.

Definition on_day (off : Z -> Z) (d : Z) (points : list (Z * float))
  : list float :=
  map snd (filter (fun p => local_day off (fst p) =? d) points).

Definition days_between (d0 d1 : Z) : list Z :=
  map (fun i => d0 + Z.of_nat i) (seq 0 (Z.to_nat (d1 - d0 + 1))).

(** [series.resample("1D").agg(["max", "min"])]: one row per calendar day
    from the first day with an entry to the last, each with the maximum and
    the minimum of the entries of that day. *)
Definition resample_1D_max_min (off : Z -> Z) (points : list (Z * float))
  : list (Z * (float * float)) :=
  match map (fun p => local_day off (fst p)) points with
  | [] => []
  | d :: ds =>
      map (fun day => (day, (nanmax (on_day off day points),
                             nanmin (on_day off day points))))
          (days_between (fold_left Z.min ds d) (fold_left Z.max ds d))
  end.

(** ** weather_app/utils.py *)

(** [get_location]: the five fields kept from the geolocation response
    [location_info]. *)
Definition get_location (location_info : dict scalar) : result (dict scalar) :=
  traverse (fun key => v <- getitem location_info key ;; Return (key, v))
           ["city"; "country"; "lat"; "lon"; "timezone"].

(** [get_current_weather] *)
Definition get_current_weather (current_weather : dict scalar)
  : result (dict string) :=
  pressure <- getitem current_weather "air_pressure_at_sea_level" ;;
  temperature <- getitem current_weather "air_temperature" ;;
  cloud <- getitem current_weather "cloud_area_fraction" ;;
  humidity <- getitem current_weather "relative_humidity" ;;
  direction <- getitem current_weather "wind_from_direction" ;;
  speed <- getitem current_weather "wind_speed" ;;
  Return [("Air pressure", format_value pressure ++ "hPa");
          ("Air temperature", format_value temperature ++ "°C");
          ("Cloud area fraction", format_value cloud ++ "%");
          ("Relative humidity", format_value humidity ++ "%");
          ("Wind direction (from)", format_value direction ++ "°");
          ("Wind speed", format_value speed ++ "m/s")].

(** [get_weather_icons] *)
Definition get_weather_icons (icon_info : json) : result (dict json) :=
  traverse (fun time =>
              window <- subscript icon_info ("next_" ++ int_str time ++ "_hours") ;;
              summary <- subscript window "summary" ;;
              code <- subscript summary "symbol_code" ;;
              Return (int_str time ++ "h", code))
           [1; 6; 12].

(** [entry["data"]["instant"]["details"]["air_temperature"]] *)
Definition instant_air_temperature (entry : json) : result json :=
  data <- subscript entry "data" ;;
  instant <- subscript data "instant" ;;
  details <- subscript instant "details" ;;
  subscript details "air_temperature".

(** [get_temperature_time_series]: the series holds the readings as
    [pd.Series] takes them up. *)
Definition get_temperature_time_series (held : series_dtype)
  (parse : datetime_parser) (db : tz_database) (weather_info : list json)
  (timezone : string) : result (Series json) :=
  time_info <- traverse (fun entry => subscript entry "time") weather_info ;;
  temp_info <- traverse instant_air_temperature weather_info ;;
  idx <- to_datetime parse time_info ;;
  idx' <- tz_convert db idx timezone ;;
  Return {| index := idx'; values := map (held temp_info) temp_info |}.

(** [plot_forecast]: the data behind the two charts, the first 24 entries and
    the daily maxima and minima.  The charts drawn from them are markup of
    the plotting library. *)
Definition temp24H {V : Type} (temp_data : Series V) : list (Z * V) :=
  firstn 24 (combine (stamps (index temp_data)) (values temp_data)).


(** A Python number: [int] or [float]. *)
Inductive number : Type :=
| Int (n : Z)
| Float (x : float).

(** The operand of a [float] operation: an [int] is converted. *)
Definition as_float (v : number) : result float :=
  match v with
  | Int n => int_to_float n
  | Float x => Return x
  end.

Local Open Scope float_scope.

(** [convert_to_fahr]: [return 9 / 5 * temp_C + 32]. *)
Definition convert_to_fahr (temp_C : number) : result float :=
  c <- as_float temp_C ;; Return (9 / 5 * c + 32).

Local Close Scope float_scope.

(** [process_weather_forecast], lines 30 to 33: the current temperature read
    back from the formatted conditions. *)
Definition current_temp_C (current_weather : dict string) : result float :=
  text <- getitem current_weather "Air temperature" ;;
  float_of_str (rstrip text "°C").

(** The [headline] entry of the dictionary built by
    [process_weather_forecast]. *)
Definition headline (temp_C temp_F : float) (city country : scalar) : string :=
  "It's " ++ format_0f temp_C ++ "°C (" ++ format_0f temp_F ++ "°F) in "
  ++ format_value city ++ ", " ++ format_value country ++ " right now.".

(** [process_weather_forecast], lines 26 and 30 to 40: from the geolocation
    response and the current conditions that [get_weather_info] has returned
    to the headline.  The calls of [get_weather_info] and of [plot_forecast]
    are not part of it. *)
Definition process_weather_forecast (location_info : dict scalar)
  (current_weather : dict string) : result string :=
  location <- get_location location_info ;;
  temp_C <- current_temp_C current_weather ;;
  temp_F <- convert_to_fahr (Float temp_C) ;;
  city <- getitem location "city" ;;
  country <- getitem location "country" ;;
  Return (headline temp_C temp_F city country).

(** *** [get_weather_info] *)

(** [format(v, "")] for any decoded value.  How a list or a dict is written
    is the runtime's affair and is the parameter [container_str]. *)
Definition format_json (container_str : json -> string) (v : json) : string :=
  match v with
  | JLeaf s => format_value s
  | _ => container_str v
  end.

(** [get_current_weather] applied to the decoded details block itself, as
    [get_weather_info] applies it. *)
Definition get_current_weather_json (container_str : json -> string)
  (current_weather : json) : result (dict string) :=
  pressure <- subscript current_weather "air_pressure_at_sea_level" ;;
  temperature <- subscript current_weather "air_temperature" ;;
  cloud <- subscript current_weather "cloud_area_fraction" ;;
  humidity <- subscript current_weather "relative_humidity" ;;
  direction <- subscript current_weather "wind_from_direction" ;;
  speed <- subscript current_weather "wind_speed" ;;
  Return [("Air pressure", format_json container_str pressure ++ "hPa");
          ("Air temperature", format_json container_str temperature ++ "°C");
          ("Cloud area fraction", format_json container_str cloud ++ "%");
          ("Relative humidity", format_json container_str humidity ++ "%");
          ("Wind direction (from)",
           format_json container_str direction ++ "°");
          ("Wind speed", format_json container_str speed ++ "m/s")].

(** [raw_data[0]] *)
Definition first_entry (raw_data : list json) : result json :=
  match raw_data with
  | first :: _ => Return first
  | [] => Raise IndexError
  end.

(** The dictionary that [get_weather_info] returns. *)
Record weather_info : Type :=
  { current_weather : dict string;
    weather_icons : dict json;
    temp_time_series : Series json }.

(** [get_weather_info], from the time series [raw_data] of the forecast
    response on. *)
Definition get_weather_info (held : series_dtype)
  (container_str : json -> string) (parse : datetime_parser)
  (db : tz_database) (raw_data : list json) (timezone : string)
  : result weather_info :=
  first <- first_entry raw_data ;;
  data <- subscript first "data" ;;
  instant <- subscript data "instant" ;;
  details <- subscript instant "details" ;;
  current <- get_current_weather_json container_str details ;;
  first' <- first_entry raw_data ;;
  data' <- subscript first' "data" ;;
  icons <- get_weather_icons data' ;;
  series <- get_temperature_time_series held parse db raw_data timezone ;;
  Return {| current_weather := current;
            weather_icons := icons;
            temp_time_series := series |}.

(** The fields that [get_location] keeps. *)
Definition location_keys : list string :=
  ["city"; "country"; "lat"; "lon"; "timezone"].

(** The fields that [get_current_weather] reads. *)
Definition details_keys : list string :=
  ["air_pressure_at_sea_level"; "air_temperature"; "cloud_area_fraction";
   "relative_humidity"; "wind_from_direction"; "wind_speed"].

(** ** weather_app/__init__.py *)

Definition lower_str (s : string) : string :=
  str_of_chars (map lower (chars_of_str s)).

(** [request.headers[name]]: header names are matched without regard to
    case.  The request is one in which a header occurs once at most, as the
    server hands the headers on. *)
Fixpoint header_get (headers : dict string) (name : string) : result string :=
  match headers with
  | [] => Raise (KeyError name)
  | (k, v) :: headers' =>
      if String.eqb (lower_str k) (lower_str name) then Return v
      else header_get headers' name
  end.

(** [main], the address handed to [process_weather_forecast].  [DEPLOY] is
    the environment variable, [headers] the request headers and
    [external_ip] the outcome of [get_external_IP_address]. *)
Definition main_ip_address (DEPLOY : option string) (headers : dict string)
  (external_ip : result string) : result string :=
  match DEPLOY with
  | Some mode =>
      if String.eqb mode "heroku" then header_get headers "X-Forwarded-For"
      else external_ip
  | None => external_ip
  end.

(** ** Sample data *)

(** An entry of the forecast service: a time label and the air temperature
    among the instantaneous details. *)
Definition forecast_entry (time : string) (temperature : scalar) : json :=
  JDict [("time", JLeaf (PyStr time));
         ("data",
          JDict [("instant",
                  JDict [("details",
                          JDict [("air_temperature", JLeaf temperature)])])])].

Definition hour_ns : Z := 3600 * 1000000000.


(** An entry as the forecast service sends it at the head of the series,
    with the six details and the three icon windows. *)
Definition forecast_hour (time : string) (temperature : scalar) : json :=
  JDict
    [("time", JLeaf (PyStr time));
     ("data",
      JDict
        [("instant",
          JDict
            [("details",
              JDict [("air_pressure_at_sea_level", JLeaf (PyFloat 1013.2));
                     ("air_temperature", JLeaf temperature);
                     ("cloud_area_fraction", JLeaf (PyInt 50));
                     ("relative_humidity", JLeaf (PyFloat 80.1));
                     ("wind_from_direction", JLeaf (PyFloat 270));
                     ("wind_speed", JLeaf (PyFloat 3.5))])]);
         ("next_1_hours",
          JDict [("summary",
                  JDict [("symbol_code", JLeaf (PyStr "cloudy"))])]);
         ("next_6_hours",
          JDict [("summary",
                  JDict [("symbol_code", JLeaf (PyStr "rain"))])]);
         ("next_12_hours",
          JDict [("summary",
                  JDict [("symbol_code", JLeaf (PyStr "fair_day"))])])])].

(** ** Notions used in the statements *)

(** [sub in s] for two [str]. *)
Fixpoint starts_with (p l : list ascii) : bool :=
  match p, l with
  | [], _ => true
  | a :: p', b :: l' => Ascii.eqb a b && starts_with p' l'
  | _ :: _, [] => false
  end.

Fixpoint contains_chars (sub l : list ascii) : bool :=
  starts_with sub l ||
  match l with
  | [] => false
  | _ :: l' => contains_chars sub l'
  end.

Definition contains (sub s : string) : bool :=
  contains_chars (chars_of_str sub) (chars_of_str s).

(** The errors a missing or misshapen field of a decoded response raises;
    the specification calls them [MalformedResponse]. *)
Definition MalformedResponse (e : exn) : Prop :=
  match e with
  | KeyError _ | TypeError _ | IndexError => True
  | _ => False
  end.

(** The first address of a comma-separated list of addresses. *)
Fixpoint until_comma (l : list ascii) : list ascii :=
  match l with
  | [] => []
  | c :: l' => if Ascii.eqb c "," then [] else c :: until_comma l'
  end.

Definition first_address (header : string) : string :=
  str_of_chars (strip_space (until_comma (chars_of_str header))).

(** A number that is neither an infinity nor NaN. *)
Definition is_finite (x : float) : bool :=
  match Prim2SF x with
  | S754_zero _ | S754_finite _ _ _ => true
  | S754_infinity _ | S754_nan => false
  end.

Definition float_sign (x : float) : bool :=
  match Prim2SF x with
  | S754_zero s | S754_infinity s | S754_finite s _ _ => s
  | S754_nan => false
  end.

(** [n] is the integer nearest to the magnitude of [x], the even one when
    two integers are as near: with [|x| = m * 2 ^ e], either [e] is not
    negative and [n] is [|x|], or [|m - n * 2 ^ -e| <= 2 ^ -e / 2]. *)
Definition nearest_integer (x : float) (n : Z) : Prop :=
  match Prim2SF x with
  | S754_zero _ => n = 0
  | S754_finite _ m e =>
      if 0 <=? e then n = Z.pos m * 2 ^ e
      else Z.abs (2 * Z.pos m - 2 * n * 2 ^ (- e)) <= 2 ^ (- e)
           /\ (Z.abs (2 * Z.pos m - 2 * n * 2 ^ (- e)) = 2 ^ (- e) ->
               Z.even n = true)
  | _ => False
  end.

(** The mantissa [m] and the exponent [s], counted from [-1074], of a
    binary64 number: 53 bits, or fewer at the lowest exponent. *)
Definition canonical (m s : Z) : Prop :=
  (2 ^ 52 <= m < 2 ^ 53 /\ 0 <= s <= 2045) \/ (0 < m < 2 ^ 52 /\ s = 0).

(** The characters of a printed finite number: digits, the point, and the
    letter and signs of an exponent. *)
Definition plain (c : ascii) : bool :=
  is_digit c || Ascii.eqb c "." || Ascii.eqb c "e" || Ascii.eqb c "+"
  || Ascii.eqb c "-".

(** A run of digits ends at [r]. *)
Definition stops (r : list ascii) : Prop :=
  match r with
  | [] => True
  | c :: _ => is_digit c = false
  end.

(** [y == n] for a [float] and an [int]. *)
Definition float_equals_int (y : float) (n : Z) : Prop :=
  match Prim2SF y with
  | S754_zero _ => n = 0
  | S754_finite s m e =>
      (if s then -1 else 1) * bin_num m e = n * bin_den e
  | _ => False
  end.


(** A field of [keys] that [d] lacks, with the fields before it present. *)
Definition first_missing {A : Type} (keys : list string) (d : dict A)
  (key : string) : Prop :=
  exists before after,
    keys = (before ++ key :: after)%list
    /\ Forall (fun k => lookup k d <> None) before
    /\ lookup key d = None.

(** [icon_info[window]["summary"]["symbol_code"]] *)
Definition window_code (icon_info : json) (window : string) : result json :=
  v <- subscript icon_info window ;;
  summary <- subscript v "summary" ;;
  subscript summary "symbol_code".

(** A lookup error: the [KeyError] of a missing key or the [TypeError] of a
    value that takes no key. *)
Definition lookup_error (e : exn) : Prop :=
  (exists key, e = KeyError key) \/ (exists msg, e = TypeError msg).

(** An entry with a time label and an air temperature. *)
Definition has_time (entry : json) : Prop :=
  exists label, subscript entry "time" = Return label.

Definition has_temperature (entry : json) : Prop :=
  exists temp, instant_air_temperature entry = Return temp.

(** A run of the characters [°] and [C] ([true] for [°]). *)
Fixpoint unit_run (u : list bool) : string :=
  match u with
  | [] => ""
  | b :: u' => (if b then "°" else "C") ++ unit_run u'
  end.

(** The characters of [°C] as [rstrip] matches them, from the end. *)
Definition unit_chars : list (list ascii) :=
  [["176"%char; "194"%char]; ["C"%char]].

(** A dict of scalars as the decoded JSON object it is. *)
Definition leaves (d : dict scalar) : json :=
  JDict (map (fun kv => (fst kv, JLeaf (snd kv))) d).

(** A reading that is a [float] is held as it is, whatever the dtype of its
    column: this is so of every dtype that pandas infers. *)
Definition keeps_floats (held : series_dtype) : Prop :=
  forall (readings : list json) (x : float),
    held readings (JLeaf (PyFloat x)) = JLeaf (PyFloat x).

(** * Properties *)

(** ** Lookups *)

Lemma getitem_lookup {A : Type} (d : dict A) (key : string) (v : A) :
  lookup key d = Some v -> getitem d key = Return v.
Proof. unfold getitem; intros ->; reflexivity. Qed.

Lemma getitem_missing {A : Type} (d : dict A) (key : string) :
  lookup key d = None -> getitem d key = Raise (KeyError key).
Proof. unfold getitem; intros ->; reflexivity. Qed.

Lemma subscript_raises (v : json) (key : string) (e : exn) :
  subscript v key = Raise e -> MalformedResponse e.
Proof.
  destruct v as [[ | | | | ] | | d]; simpl; try (intros [= <-]; exact I).
  unfold getitem; destruct (lookup key d); intros [= <-]; exact I.
Qed.

Lemma subscript_missing (d : dict json) (key : string) :
  lookup key d = None -> subscript (JDict d) key = Raise (KeyError key).
Proof. apply getitem_missing. Qed.

(** ** Unit conversion *)

(** C3. The conversion evaluates [9 / 5 * temp_C + 32] in binary64
    arithmetic, where [9 / 5] is the number [1.8], and returns that value as
    it is, not rounded to an integer: an [int] operand is converted to
    [float] first, 0 gives 32, 100 gives 212, -40 gives -40 and 14.6 gives
    58.28. *)
Theorem convert_to_fahr_formula :
  (forall c : float,
      convert_to_fahr (Float c) = Return (1.8 * c + 32)%float)
  /\ (forall n : Z,
         convert_to_fahr (Int n)
         = (c <- int_to_float n ;; Return (1.8 * c + 32)%float))
  /\ convert_to_fahr (Int 0) = Return 32%float
  /\ convert_to_fahr (Int 100) = Return 212%float
  /\ convert_to_fahr (Int (-40)) = Return (-40)%float
  /\ convert_to_fahr (Float 0) = Return 32%float
  /\ convert_to_fahr (Float 100) = Return 212%float
  /\ convert_to_fahr (Float (-40)) = Return (-40)%float
  /\ convert_to_fahr (Float 14.6) = Return 58.28%float.
Proof.
  repeat split; try (intros; reflexivity); vm_compute; reflexivity.
Qed.

(** ** The caller's address *)

Lemma header_get_first (name value : string) (headers : dict string) :
  header_get ((name, value) :: headers) name = Return value.
Proof. simpl. rewrite String.eqb_refl. reflexivity. Qed.

(** C5. In the deployment mode [heroku] the route hands on the whole value
    of the forwarded header: for the header [203.0.113.7, 10.1.2.3], which
    lists two addresses, the address is that whole list and not its first
    address [203.0.113.7]. *)
Theorem main_ip_address_forwarded_list :
  main_ip_address (Some "heroku")
    [("X-Forwarded-For", "203.0.113.7, 10.1.2.3")] (Return "198.51.100.1")
  = Return "203.0.113.7, 10.1.2.3"
  /\ first_address "203.0.113.7, 10.1.2.3" = "203.0.113.7"
  /\ main_ip_address (Some "heroku")
       [("X-Forwarded-For", "203.0.113.7, 10.1.2.3")] (Return "198.51.100.1")
     <> Return (first_address "203.0.113.7, 10.1.2.3").
Proof.
  repeat split; try reflexivity.
  vm_compute. discriminate.
Qed.

(** ** Current conditions *)

(** C6. Each of the six fields of the details block is formatted and given
    its unit: hPa, °C, %, %, ° and m/s; the block of the fixture gives the
    mapping of the specification. *)
Theorem get_current_weather_units
  (current_weather : dict scalar) (p t c h d w : scalar) :
  lookup "air_pressure_at_sea_level" current_weather = Some p ->
  lookup "air_temperature" current_weather = Some t ->
  lookup "cloud_area_fraction" current_weather = Some c ->
  lookup "relative_humidity" current_weather = Some h ->
  lookup "wind_from_direction" current_weather = Some d ->
  lookup "wind_speed" current_weather = Some w ->
  get_current_weather current_weather
  = Return [("Air pressure", format_value p ++ "hPa");
            ("Air temperature", format_value t ++ "°C");
            ("Cloud area fraction", format_value c ++ "%");
            ("Relative humidity", format_value h ++ "%");
            ("Wind direction (from)", format_value d ++ "°");
            ("Wind speed", format_value w ++ "m/s")]
  /\ get_current_weather
       [("air_pressure_at_sea_level", PyInt 1013); ("air_temperature", PyInt 15);
        ("cloud_area_fraction", PyInt 50); ("relative_humidity", PyInt 80);
        ("wind_from_direction", PyInt 270); ("wind_speed", PyInt 3)]
     = Return [("Air pressure", "1013hPa"); ("Air temperature", "15°C");
               ("Cloud area fraction", "50%"); ("Relative humidity", "80%");
               ("Wind direction (from)", "270°"); ("Wind speed", "3m/s")].
Proof.
  intros Hp Ht Hc Hh Hd Hw. split; [ | vm_compute; reflexivity ].
  unfold get_current_weather.
  rewrite (getitem_lookup _ _ _ Hp), (getitem_lookup _ _ _ Ht),
    (getitem_lookup _ _ _ Hc), (getitem_lookup _ _ _ Hh),
    (getitem_lookup _ _ _ Hd), (getitem_lookup _ _ _ Hw).
  reflexivity.
Qed.

Lemma get_current_weather_units_witness :
  get_current_weather
    [("wind_speed", PyFloat 3.5); ("air_temperature", PyFloat 14.6);
     ("air_pressure_at_sea_level", PyFloat 1013.2);
     ("cloud_area_fraction", PyInt 50); ("relative_humidity", PyFloat 80.1);
     ("wind_from_direction", PyStr "270")]
  = Return [("Air pressure", "1013.2hPa"); ("Air temperature", "14.6°C");
            ("Cloud area fraction", "50%"); ("Relative humidity", "80.1%");
            ("Wind direction (from)", "270°"); ("Wind speed", "3.5m/s")].
Proof.
  refine (eq_trans (proj1 (get_current_weather_units _
            (PyFloat 1013.2) (PyFloat 14.6) (PyInt 50) (PyFloat 80.1)
            (PyStr "270") (PyFloat 3.5) _ _ _ _ _ _)) _);
    vm_compute; reflexivity.
Defined.

(** ** Icons *)

Lemma get_weather_icons_steps (icon_info : json) :
  get_weather_icons icon_info
  = (b1 <- (window <- subscript icon_info "next_1_hours" ;;
            summary <- subscript window "summary" ;;
            code <- subscript summary "symbol_code" ;;
            Return ("1h", code)) ;;
     bs <- (b6 <- (window <- subscript icon_info "next_6_hours" ;;
                   summary <- subscript window "summary" ;;
                   code <- subscript summary "symbol_code" ;;
                   Return ("6h", code)) ;;
            bs' <- (b12 <- (window <- subscript icon_info "next_12_hours" ;;
                            summary <- subscript window "summary" ;;
                            code <- subscript summary "symbol_code" ;;
                            Return ("12h", code)) ;;
                    bs'' <- Return [] ;; Return (b12 :: bs'')) ;;
            Return (b6 :: bs')) ;;
     Return (b1 :: bs)).
Proof. reflexivity. Qed.

Ltac step_subscript :=
  match goal with
  | |- context [subscript ?v ?k] =>
      let E := fresh "E" in
      destruct (subscript v k) eqn:E; cbn [bind];
      [ | eexists; split; [ reflexivity | eapply subscript_raises; eassumption ] ]
  end.

(** C7. When one of the windows of 1, 6 and 12 hours is absent from the
    entry, [get_weather_icons] raises a lookup error and returns no icons;
    when the three windows hold their summary codes, it returns the codes
    under the keys 1h, 6h and 12h and nothing else.  An entry without the key
    [next_12_hours] raises the [KeyError] of that key. *)
Theorem get_weather_icons_windows (icon_info : dict json) :
  (forall time, In time [1; 6; 12] ->
     lookup ("next_" ++ int_str time ++ "_hours") icon_info = None ->
     exists e, get_weather_icons (JDict icon_info) = Raise e
               /\ MalformedResponse e)
  /\ (forall w1 w6 w12 s1 s6 s12 c1 c6 c12,
        lookup "next_1_hours" icon_info = Some w1 ->
        lookup "next_6_hours" icon_info = Some w6 ->
        lookup "next_12_hours" icon_info = Some w12 ->
        subscript w1 "summary" = Return s1 ->
        subscript w6 "summary" = Return s6 ->
        subscript w12 "summary" = Return s12 ->
        subscript s1 "symbol_code" = Return c1 ->
        subscript s6 "symbol_code" = Return c6 ->
        subscript s12 "symbol_code" = Return c12 ->
        get_weather_icons (JDict icon_info)
        = Return [("1h", c1); ("6h", c6); ("12h", c12)])
  /\ get_weather_icons
       (JDict [("next_1_hours",
                JDict [("summary", JDict [("symbol_code", JLeaf (PyStr "cloudy"))])]);
               ("next_6_hours",
                JDict [("summary", JDict [("symbol_code", JLeaf (PyStr "rain"))])])])
     = Raise (KeyError "next_12_hours").
Proof.
  split; [ | split; [ | reflexivity ] ].
  - intros time Hin Hnone. rewrite get_weather_icons_steps.
    simpl in Hin.
    destruct Hin as [<- | [<- | [<- | []]]];
      change ("next_" ++ int_str 1 ++ "_hours") with "next_1_hours" in Hnone;
      change ("next_" ++ int_str 6 ++ "_hours") with "next_6_hours" in Hnone;
      change ("next_" ++ int_str 12 ++ "_hours") with "next_12_hours" in Hnone.
    + rewrite (subscript_missing _ _ Hnone). cbn [bind].
      eexists; split; [ reflexivity | exact I ].
    + do 3 step_subscript.
      rewrite (subscript_missing _ _ Hnone). cbn [bind].
      eexists; split; [ reflexivity | exact I ].
    + do 6 step_subscript.
      rewrite (subscript_missing _ _ Hnone). cbn [bind].
      eexists; split; [ reflexivity | exact I ].
  - intros w1 w6 w12 s1 s6 s12 c1 c6 c12 H1 H6 H12 S1 S6 S12 C1 C6 C12.
    rewrite get_weather_icons_steps.
    cbn [subscript].
    rewrite (getitem_lookup _ _ _ H1), (getitem_lookup _ _ _ H6),
      (getitem_lookup _ _ _ H12).
    cbn [bind]. rewrite S1, S6, S12. cbn [bind]. rewrite C1, C6, C12.
    reflexivity.
Qed.

Lemma get_weather_icons_windows_witness :
  (exists e,
      get_weather_icons
        (JDict [("next_1_hours",
                 JDict [("summary", JDict [("symbol_code", JLeaf (PyStr "cloudy"))])]);
                ("next_12_hours",
                 JDict [("summary", JDict [("symbol_code", JLeaf (PyStr "fog"))])])])
      = Raise e /\ MalformedResponse e)
  /\ get_weather_icons
       (JDict [("next_1_hours",
                JDict [("summary", JDict [("symbol_code", JLeaf (PyStr "cloudy"))])]);
               ("next_6_hours",
                JDict [("summary", JDict [("symbol_code", JLeaf (PyStr "rain"))])]);
               ("next_12_hours",
                JDict [("summary", JDict [("symbol_code", JLeaf (PyStr "fog"))])])])
     = Return [("1h", JLeaf (PyStr "cloudy")); ("6h", JLeaf (PyStr "rain"));
               ("12h", JLeaf (PyStr "fog"))].
Proof.
  split.
  - apply (proj1 (get_weather_icons_windows _) 6).
    + simpl; auto.
    + reflexivity.
  - eapply (proj1 (proj2 (get_weather_icons_windows _))); reflexivity.
Defined.

(** ** The temperature series *)

Lemma traverse_length {A B : Type} (f : A -> result B) (l : list A)
  (bs : list B) :
  traverse f l = Return bs -> List.length bs = List.length l.
Proof.
  revert bs; induction l as [ | a l IH]; intros bs; simpl.
  - intros [= <-]; reflexivity.
  - destruct (f a); simpl; [ | discriminate ].
    destruct (traverse f l); simpl; [ | discriminate ].
    intros [= <-]; simpl; f_equal; apply IH; reflexivity.
Qed.

Lemma traverse_nth {A B : Type} (f : A -> result B) (l : list A)
  (bs : list B) (i : nat) (a : A) :
  traverse f l = Return bs -> nth_error l i = Some a ->
  exists b, f a = Return b /\ nth_error bs i = Some b.
Proof.
  revert bs i; induction l as [ | a' l IH]; intros bs i; simpl.
  - intros _; destruct i; discriminate.
  - destruct (f a') eqn:Ea; simpl; [ | discriminate ].
    destruct (traverse f l); simpl; [ | discriminate ].
    intros [= <-]. destruct i; simpl.
    + intros [= <-]. eauto.
    + intros Hi. apply (IH _ _ eq_refl Hi).
Qed.

Lemma traverse_total {A B : Type} (f : A -> result B) (l : list A) :
  Forall (fun a => exists b, f a = Return b) l ->
  exists bs, traverse f l = Return bs.
Proof.
  induction 1 as [ | a l [b Hb] _ [bs Hbs]]; simpl.
  - eauto.
  - rewrite Hb, Hbs; simpl; eauto.
Qed.




Lemma traverse_Forall {A B : Type} (f : A -> result B) (P : B -> Prop)
  (l : list A) (bs : list B) :
  Forall (fun a => forall b, f a = Return b -> P b) l ->
  traverse f l = Return bs -> Forall P bs.
Proof.
  intros H; revert bs; induction H as [ | a l Ha _ IH]; intros bs; simpl.
  - intros [= <-]; constructor.
  - destruct (f a) eqn:Ea; simpl; [ | discriminate ].
    destruct (traverse f l); simpl; [ | discriminate ].
    intros [= <-]. constructor; auto.
Qed.




(** C10. For the empty list of entries no series is returned: the index
    parsed from no label is naive, and its conversion to a zone raises
    [TypeError] (or the zone is unknown and its lookup raises first). *)
Theorem get_temperature_time_series_empty (held : series_dtype)
  (parse : datetime_parser) (db : tz_database) (timezone : string) :
  get_temperature_time_series held parse db [] timezone
  = match db timezone with
    | Some _ => Raise (TypeError "Cannot convert tz-naive timestamps, use tz_localize to localize")
    | None => Raise (UnknownTimeZoneError timezone)
    end.
Proof.
  unfold get_temperature_time_series, to_datetime, tz_convert; simpl.
  destruct (db timezone); reflexivity.
Qed.

Lemma get_temperature_time_series_empty_fails :
  ~ exists series,
      get_temperature_time_series held_as_given iso8601 utc_only [] "UTC"
      = Return series
      /\ List.length (values series) = 0%nat.
Proof. intros [series [H _]]. vm_compute in H. discriminate. Qed.

(** ** The headline *)

Lemma str_app_assoc (a b c : string) : (a ++ b) ++ c = a ++ b ++ c.
Proof. induction a as [ | x a IH]; simpl; congruence. Qed.

Lemma chars_of_str_app (a b : string) :
  chars_of_str (a ++ b) = (chars_of_str a ++ chars_of_str b)%list.
Proof.
  unfold chars_of_str; induction a as [ | c a IH]; simpl; congruence.
Qed.

Lemma starts_with_app (p l : list ascii) : starts_with p (p ++ l) = true.
Proof.
  induction p as [ | c p IH]; simpl; [ reflexivity | ].
  rewrite Ascii.eqb_refl; exact IH.
Qed.

Lemma contains_chars_app (sub pre post : list ascii) :
  contains_chars sub (pre ++ sub ++ post) = true.
Proof.
  induction pre as [ | c pre IH]; simpl.
  - pose proof (starts_with_app sub post) as H.
    destruct (sub ++ post)%list; simpl; rewrite H; reflexivity.
  - rewrite IH. apply orb_true_r.
Qed.

Lemma contains_app (sub pre post : string) :
  contains sub (pre ++ sub ++ post) = true.
Proof.
  unfold contains. rewrite !chars_of_str_app. apply contains_chars_app.
Qed.

Lemma get_location_fields (location_info : dict scalar)
  (city country lat lon timezone : scalar) :
  lookup "city" location_info = Some city ->
  lookup "country" location_info = Some country ->
  lookup "lat" location_info = Some lat ->
  lookup "lon" location_info = Some lon ->
  lookup "timezone" location_info = Some timezone ->
  get_location location_info
  = Return [("city", city); ("country", country); ("lat", lat);
            ("lon", lon); ("timezone", timezone)].
Proof.
  intros H1 H2 H3 H4 H5. unfold get_location; simpl.
  rewrite (getitem_lookup _ _ _ H1), (getitem_lookup _ _ _ H2),
    (getitem_lookup _ _ _ H3), (getitem_lookup _ _ _ H4),
    (getitem_lookup _ _ _ H5).
  reflexivity.
Qed.

Lemma get_current_weather_temperature (details : dict scalar)
  (current_weather : dict string) :
  get_current_weather details = Return current_weather ->
  exists t,
    lookup "air_temperature" details = Some t
    /\ getitem current_weather "Air temperature"
       = Return (format_value t ++ "°C").
Proof.
  unfold get_current_weather, getitem.
  destruct (lookup "air_pressure_at_sea_level" details); [ | discriminate ].
  destruct (lookup "air_temperature" details) as [t | ]; [ | discriminate ].
  destruct (lookup "cloud_area_fraction" details); [ | discriminate ].
  destruct (lookup "relative_humidity" details); [ | discriminate ].
  destruct (lookup "wind_from_direction" details); [ | discriminate ].
  destruct (lookup "wind_speed" details); [ | discriminate ].
  simpl. intros [= <-]. exists t. split; reflexivity.
Qed.

(** C1 (amended). When the current air temperature is 14.6, the headline is
    [It's 15°C (58°F) in <city>, <country> right now.]: it contains 15°C
    and 58°F, because 14.6 goes to 58.28 degrees Fahrenheit and that rounds
    to 58. *)
Theorem headline_at_14_6 (location_info details : dict scalar)
  (current_weather : dict string) (city country lat lon timezone : scalar) :
  lookup "air_temperature" details = Some (PyFloat 14.6) ->
  get_current_weather details = Return current_weather ->
  lookup "city" location_info = Some city ->
  lookup "country" location_info = Some country ->
  lookup "lat" location_info = Some lat ->
  lookup "lon" location_info = Some lon ->
  lookup "timezone" location_info = Some timezone ->
  exists text,
    process_weather_forecast location_info current_weather = Return text
    /\ text = "It's 15°C (58°F) in " ++ format_value city ++ ", "
              ++ format_value country ++ " right now."
    /\ contains "15°C" text = true
    /\ contains "58°F" text = true.
Proof.
  intros Ht Hcw H1 H2 H3 H4 H5.
  destruct (get_current_weather_temperature _ _ Hcw) as (t & Ht' & Hget).
  rewrite Ht in Ht'. injection Ht' as <-.
  eexists. split; [ | split; [ reflexivity | ] ].
  - unfold process_weather_forecast.
    rewrite (get_location_fields _ _ _ _ _ _ H1 H2 H3 H4 H5).
    unfold current_temp_C. rewrite Hget.
    change (format_value (PyFloat 14.6) ++ "°C")
      with (float_repr 14.6 ++ "°C").
    replace (float_repr 14.6) with "14.6" by (vm_compute; reflexivity).
    replace (float_of_str (rstrip ("14.6" ++ "°C") "°C"))
      with (Return (A := float) 14.6%float) by (vm_compute; reflexivity).
    cbn [bind]. unfold convert_to_fahr, as_float. cbn [bind].
    replace (9 / 5 * 14.6 + 32)%float with 58.28%float
      by (vm_compute; reflexivity).
    unfold getitem. cbn [bind lookup].
    change (String.eqb "city" "city") with true.
    change (String.eqb "city" "country") with false.
    change (String.eqb "country" "country") with true.
    cbn iota beta. unfold headline.
    replace (format_0f 14.6) with "15" by (vm_compute; reflexivity).
    replace (format_0f 58.28) with "58" by (vm_compute; reflexivity).
    reflexivity.
  - split.
    + apply (contains_app "15°C" "It's ").
    + apply (contains_app "58°F" "It's 15°C (").
Qed.

Lemma headline_at_14_6_witness :
  exists text,
    process_weather_forecast
      [("city", PyStr "Nairobi"); ("country", PyStr "Kenya");
       ("lat", PyFloat (-1.28)); ("lon", PyFloat 36.82);
       ("timezone", PyStr "Africa/Nairobi")]
      [("Air pressure", "1013hPa"); ("Air temperature", "14.6°C");
       ("Cloud area fraction", "50%"); ("Relative humidity", "80%");
       ("Wind direction (from)", "270°"); ("Wind speed", "3m/s")]
    = Return text
    /\ text = "It's 15°C (58°F) in Nairobi, Kenya right now.".
Proof.
  destruct (headline_at_14_6
              [("city", PyStr "Nairobi"); ("country", PyStr "Kenya");
               ("lat", PyFloat (-1.28)); ("lon", PyFloat 36.82);
               ("timezone", PyStr "Africa/Nairobi")]
              [("air_pressure_at_sea_level", PyInt 1013);
               ("air_temperature", PyFloat 14.6);
               ("cloud_area_fraction", PyInt 50);
               ("relative_humidity", PyInt 80);
               ("wind_from_direction", PyInt 270); ("wind_speed", PyInt 3)]
              [("Air pressure", "1013hPa"); ("Air temperature", "14.6°C");
               ("Cloud area fraction", "50%"); ("Relative humidity", "80%");
               ("Wind direction (from)", "270°"); ("Wind speed", "3m/s")]
              (PyStr "Nairobi") (PyStr "Kenya") (PyFloat (-1.28))
              (PyFloat 36.82) (PyStr "Africa/Nairobi"))
    as (text & Hrun & Htext & _); try (vm_compute; reflexivity).
  exists text. split; [ exact Hrun | exact Htext ].
Defined.

Lemma headline_at_14_6_has_no_59 :
  ~ exists text,
      process_weather_forecast
        [("city", PyStr "Nairobi"); ("country", PyStr "Kenya");
         ("lat", PyFloat (-1.28)); ("lon", PyFloat 36.82);
         ("timezone", PyStr "Africa/Nairobi")]
        [("Air pressure", "1013hPa"); ("Air temperature", "14.6°C");
         ("Cloud area fraction", "50%"); ("Relative humidity", "80%");
         ("Wind direction (from)", "270°"); ("Wind speed", "3m/s")]
      = Return text
      /\ contains "15°C" text = true
      /\ contains "59°F" text = true.
Proof.
  intros (text & Hrun & _ & H59).
  vm_compute in Hrun. injection Hrun as <-.
  vm_compute in H59. discriminate.
Qed.

(** ** Daily maxima and minima *)

Lemma fold_min_init (ds : list Z) (d : Z) : fold_left Z.min ds d <= d.
Proof.
  revert d; induction ds as [ | a ds IH]; intros d; simpl; [ lia | ].
  specialize (IH (Z.min d a)); lia.
Qed.

Lemma fold_max_init (ds : list Z) (d : Z) : d <= fold_left Z.max ds d.
Proof.
  revert d; induction ds as [ | a ds IH]; intros d; simpl; [ lia | ].
  specialize (IH (Z.max d a)); lia.
Qed.



Lemma in_days_between (a b x : Z) :
  In x (days_between a b) <-> a <= x <= b.
Proof.
  unfold days_between. rewrite in_map_iff. split.
  - intros (i & <- & Hi). apply in_seq in Hi. lia.
  - intros H. exists (Z.to_nat (x - a)). split; [ lia | ].
    apply in_seq. lia.
Qed.



Lemma on_day_out (off : Z -> Z) (d : Z) (p : Z * float)
  (points : list (Z * float)) :
  local_day off (fst p) <> d ->
  on_day off d (p :: points) = on_day off d points.
Proof.
  unfold on_day; simpl. intros H.
  apply Z.eqb_neq in H. rewrite H. reflexivity.
Qed.

Lemma eqb_succ_l (d : Z) : (d + 1 =? d) = false.
Proof. apply Z.eqb_neq; lia. Qed.

Lemma eqb_succ_r (d : Z) : (d =? d + 1) = false.
Proof. apply Z.eqb_neq; lia. Qed.





(** ** Rounding for display *)

Lemma rne_div_nearest (p q : Z) :
  0 < q ->
  Z.abs (2 * p - 2 * rne_div p q * q) <= q
  /\ (Z.abs (2 * p - 2 * rne_div p q * q) = q -> Z.even (rne_div p q) = true).
Proof.
  intros Hq. unfold rne_div.
  pose proof (Z.div_mod p q ltac:(lia)) as Hdm.
  pose proof (Z.mod_pos_bound p q Hq) as Hr.
  set (d := p / q) in *. set (r := p mod q) in *.
  assert (Hp : 2 * p = 2 * (q * d) + 2 * r) by lia.
  destruct (Z.compare_spec (2 * r) q) as [He | Hl | Hg].
  - destruct (Z.even d) eqn:Ev.
    + split; [ | intros _; exact Ev ].
      replace (2 * p - 2 * d * q) with (2 * r) by lia. lia.
    + assert (Ev' : Z.even (d + 1) = true).
      { rewrite Z.even_add, Ev. reflexivity. }
      split; [ | intros _; exact Ev' ].
      replace (2 * p - 2 * (d + 1) * q) with (2 * r - 2 * q) by lia. lia.
  - replace (2 * p - 2 * d * q) with (2 * r) by lia. split; lia.
  - replace (2 * p - 2 * (d + 1) * q) with (2 * r - 2 * q) by lia.
    split; lia.
Qed.

Lemma rne_div_nonneg (p q : Z) : 0 <= p -> 0 < q -> 0 <= rne_div p q.
Proof.
  intros Hp Hq. unfold rne_div.
  pose proof (Z.div_pos p q Hp Hq).
  destruct (2 * (p mod q) ?= q); [ destruct (Z.even (p / q)) | | ]; lia.
Qed.

Lemma int_str_nonneg (n : Z) :
  0 <= n -> int_str n = str_of_chars (digits_of n).
Proof.
  intros H. unfold int_str.
  destruct (Z.ltb_spec n 0); [ lia | reflexivity ].
Qed.

Lemma format_0f_rounds (x : float) :
  is_finite x = true ->
  exists n, nearest_integer x n
            /\ format_0f x = sign_str (float_sign x) ++ int_str n.
Proof.
  unfold is_finite, nearest_integer, format_0f, float_sign.
  destruct (Prim2SF x) as [s | s | | s m e]; try discriminate; intros _.
  - exists 0. split; reflexivity.
  - destruct (Z.leb_spec 0 e) as [He | He].
    + exists (Z.pos m * 2 ^ e). split; [ reflexivity | ].
      rewrite int_str_nonneg; [ reflexivity | ].
      apply Z.mul_nonneg_nonneg; [ lia | apply Z.pow_nonneg; lia ].
    + assert (Hq : 0 < 2 ^ (- e)) by (apply Z.pow_pos_nonneg; lia).
      exists (rne_div (Z.pos m) (2 ^ (- e))). split.
      * apply rne_div_nearest; exact Hq.
      * rewrite int_str_nonneg; [ reflexivity | ].
        apply rne_div_nonneg; lia.
Qed.

(** C2. For every current temperature [c] the headline is
    [It's C°C (F°F) in <city>, <country> right now.], where [C] is [c]
    and [F] is [1.8 * c + 32], each formatted with no decimals from its own
    raw value.  For a finite number that format gives the integer nearest to
    it, with the sign of the number.  At 14.6, [F] is 58, while the rounded
    15 would give 59. *)
Theorem headline_rounds_independently (location_info : dict scalar)
  (current_weather : dict string) (c : float)
  (city country lat lon timezone : scalar) :
  lookup "city" location_info = Some city ->
  lookup "country" location_info = Some country ->
  lookup "lat" location_info = Some lat ->
  lookup "lon" location_info = Some lon ->
  lookup "timezone" location_info = Some timezone ->
  current_temp_C current_weather = Return c ->
  process_weather_forecast location_info current_weather
  = Return ("It's " ++ format_0f c ++ "°C ("
            ++ format_0f (1.8 * c + 32)%float
            ++ "°F) in " ++ format_value city ++ ", "
            ++ format_value country ++ " right now.")
  /\ (is_finite c = true ->
      exists C, nearest_integer c C
                /\ format_0f c = sign_str (float_sign c) ++ int_str C)
  /\ (is_finite (1.8 * c + 32)%float = true ->
      exists F, nearest_integer (1.8 * c + 32)%float F
                /\ format_0f (1.8 * c + 32)%float
                   = sign_str (float_sign (1.8 * c + 32)%float) ++ int_str F)
  /\ nearest_integer 14.6%float 15
  /\ nearest_integer (1.8 * 14.6 + 32)%float 58
  /\ convert_to_fahr (Float 15) = Return 59%float.
Proof.
  intros H1 H2 H3 H4 H5 Hc.
  split; [ | split; [ | split; [ | split; [ | split ] ] ] ].
  - unfold process_weather_forecast.
    rewrite (get_location_fields _ _ _ _ _ _ H1 H2 H3 H4 H5), Hc.
    cbn [bind]. unfold convert_to_fahr, as_float. cbn [bind].
    change (9 / 5)%float with 1.8%float.
    unfold getitem. cbn [bind lookup].
    change (String.eqb "city" "city") with true.
    change (String.eqb "city" "country") with false.
    change (String.eqb "country" "country") with true.
    cbn iota beta. cbn [bind]. reflexivity.
  - apply format_0f_rounds.
  - apply format_0f_rounds.
  - vm_compute. split; [ discriminate | discriminate ].
  - vm_compute. split; [ discriminate | discriminate ].
  - vm_compute. reflexivity.
Qed.

Lemma headline_rounds_independently_witness :
  process_weather_forecast
    [("city", PyStr "Nairobi"); ("country", PyStr "Kenya");
     ("lat", PyFloat (-1.28)); ("lon", PyFloat 36.82);
     ("timezone", PyStr "Africa/Nairobi")]
    [("Air temperature", "-0.4°C")]
  = Return "It's -0°C (31°F) in Nairobi, Kenya right now."
  /\ exists C, nearest_integer (-0.4)%float C
               /\ format_0f (-0.4)%float = "-" ++ int_str C.
Proof.
  pose proof (headline_rounds_independently
                [("city", PyStr "Nairobi"); ("country", PyStr "Kenya");
                 ("lat", PyFloat (-1.28)); ("lon", PyFloat 36.82);
                 ("timezone", PyStr "Africa/Nairobi")]
                [("Air temperature", "-0.4°C")] (-0.4)%float
                (PyStr "Nairobi") (PyStr "Kenya") (PyFloat (-1.28))
                (PyFloat 36.82) (PyStr "Africa/Nairobi")
                eq_refl eq_refl eq_refl eq_refl eq_refl)
    as H.
  assert (Hc : current_temp_C [("Air temperature", "-0.4°C")]
               = Return (-0.4)%float) by (vm_compute; reflexivity).
  destruct (H Hc) as (Hrun & HC & _).
  split.
  - rewrite Hrun. vm_compute. reflexivity.
  - apply HC. vm_compute. reflexivity.
Defined.

(** ** Reading a decimal as a binary64 number *)

(** The quotient rounds to [k] when it is nearer to [k] than half a unit. *)
Lemma rne_div_unique (p q k : Z) :
  0 < q -> Z.abs (2 * p - 2 * k * q) < q -> rne_div p q = k.
Proof.
  intros Hq Hk.
  destruct (rne_div_nearest p q Hq) as [Hn _].
  set (n := rne_div p q) in *.
  assert (H : Z.abs (2 * (n - k) * q) < 2 * q).
  { replace (2 * (n - k) * q)
      with ((2 * p - 2 * k * q) - (2 * p - 2 * n * q)) by ring.
    lia. }
  assert (Hlt : Z.abs (n - k) < 1).
  { rewrite Z.abs_mul, Z.abs_mul in H.
    replace (Z.abs 2) with 2 in H by reflexivity.
    rewrite (Z.abs_eq q) in H by lia. nia. }
  lia.
Qed.

Lemma log2_between (n k : Z) :
  0 <= k -> 2 ^ k <= n < 2 ^ (k + 1) -> Z.log2 n = k.
Proof. intros Hk H. apply Z.log2_unique; [ exact Hk | ]. rewrite <- Z.add_1_r. exact H. Qed.

Lemma round_pos_interval (num den m s : Z) :
  0 < den -> canonical m s ->
  2 * (Z.shiftl num 1074 - m * 2 ^ s * den) < 2 ^ s * den ->
  (if (m =? 2 ^ 52) && (0 <? s)
   then 4 * (m * 2 ^ s * den - Z.shiftl num 1074) < 2 ^ s * den
   else 2 * (m * 2 ^ s * den - Z.shiftl num 1074) < 2 ^ s * den) ->
  round_pos num den
  = match m with
    | Z.pos p => S754_finite false p (s - 1074)
    | _ => S754_zero false
    end.
Proof.
  intros Hden Hcan Hup Hlow. unfold round_pos.
  set (P := Z.shiftl num 1074) in *.
  assert (Hs : 0 <= s <= 2045) by (destruct Hcan; lia).
  assert (Hm : 0 < m < 2 ^ 53) by (destruct Hcan; lia).
  assert (HT : 0 < 2 ^ s) by (apply Z.pow_pos_nonneg; lia).
  set (T := 2 ^ s) in *.
  assert (HW : 0 < T * den) by (apply Z.mul_pos_pos; lia).
  replace (m * T * den) with (m * (T * den)) in Hup, Hlow by ring.
  set (W := T * den) in *.
  change (2 ^ 53) with 9007199254740992 in *.
  change (2 ^ 52) with 4503599627370496 in *.
  destruct (Z.eq_dec s 0) as [Hs0 | Hs0].
  - (* the lowest exponent: no shift *)
    subst s. change (0 <? 0) with false in Hlow.
    rewrite andb_false_r in Hlow.
    assert (HWd : W = den) by (unfold W, T; rewrite Z.pow_0_r; lia).
    rewrite HWd in *.
    assert (Hn0 : 0 <= P / den < 9007199254740992).
    { split.
      - apply Z.div_le_lower_bound; [ lia | nia ].
      - apply Z.div_lt_upper_bound; [ lia | nia ]. }
    assert (Hlog : Z.log2 (P / den) <= 52).
    { destruct (Z.eq_dec (P / den) 0) as [-> | Hnz]; [ simpl; lia | ].
      assert (Z.log2 (P / den) < 53); [ | lia ].
      apply Z.log2_lt_pow2; [ lia | ].
      change (2 ^ 53) with 9007199254740992. lia. }
    rewrite Z.max_l by lia.
    rewrite Z.shiftl_0_r.
    rewrite (rne_div_unique P den m) by (try lia; nia).
    destruct (Z.eqb_spec m 9007199254740992) as [He | _]; [ lia | ].
    change (2045 <? 0) with false. cbn iota.
    destruct m; try lia. reflexivity.
  - (* a normal number *)
    assert (Hm52 : 4503599627370496 <= m) by (destruct Hcan; lia).
    assert (HT2 : T = 2 * 2 ^ (s - 1)).
    { unfold T. replace s with (1 + (s - 1)) at 1 by lia.
      rewrite Z.pow_add_r by lia. reflexivity. }
    assert (HT1 : 0 < 2 ^ (s - 1)) by (apply Z.pow_pos_nonneg; lia).
    destruct (Z.ltb_spec 0 s) as [_ | ]; [ | lia ].
    destruct (Z_lt_le_dec P (m * W)) as [Hbelow | Habove];
      [ destruct (Z.eq_dec m 4503599627370496) as [Hmin | Hmin] | ].
    + (* just below a power of two: the mantissa rounds up to [2 ^ 53] *)
      subst m. change (4503599627370496 =? 4503599627370496) with true in Hlow.
      cbn [andb] in Hlow.
      assert (Hlog : Z.log2 (P / den) = 51 + s).
      { apply log2_between; [ lia | ].
        rewrite !Z.pow_add_r by lia. fold T.
        change (2 ^ 51) with 2251799813685248.
        change (2 ^ 1) with 2.
        split.
        - apply Z.div_le_lower_bound; [ lia | ]. unfold W in *. nia.
        - apply Z.div_lt_upper_bound; [ lia | ]. unfold W in *. nia. }
      rewrite Hlog. rewrite Z.max_r by lia.
      replace (51 + s - 52) with (s - 1) by lia.
      rewrite Z.shiftl_mul_pow2 by lia.
      rewrite (rne_div_unique P (den * 2 ^ (s - 1)) 9007199254740992).
      * change (9007199254740992 =? 9007199254740992) with true. cbn iota.
        replace (s - 1 + 1) with s by lia.
        destruct (Z.ltb_spec 2045 s); [ lia | ]. reflexivity.
      * nia.
      * unfold W in *. rewrite HT2 in *. nia.
    + (* below the number, inside its binade *)
      pose proof (proj2 (Z.eqb_neq _ _) Hmin) as Hmin'. rewrite Hmin' in Hlow.
      cbn [andb] in Hlow.
      assert (Hlog : Z.log2 (P / den) = 52 + s).
      { apply log2_between; [ lia | ].
        rewrite !Z.pow_add_r by lia. fold T.
        change (2 ^ 52) with 4503599627370496.
        change (2 ^ 1) with 2.
        split.
        - apply Z.div_le_lower_bound; [ lia | ]. unfold W in *. nia.
        - apply Z.div_lt_upper_bound; [ lia | ]. unfold W in *. nia. }
      rewrite Hlog. rewrite Z.max_r by lia.
      replace (52 + s - 52) with s by lia.
      rewrite Z.shiftl_mul_pow2 by lia. fold T.
      rewrite (rne_div_unique P (den * T) m).
      * destruct (Z.eqb_spec m 9007199254740992) as [He | _]; [ lia | ].
        destruct (Z.ltb_spec 2045 s); [ lia | ].
        destruct m; try lia. reflexivity.
      * nia.
      * unfold W in *. replace (den * T) with (T * den) by ring. lia.
    + (* at or above the number *)
      assert (Hlow' : True) by exact I. clear Hlow.
      assert (Hlog : Z.log2 (P / den) = 52 + s).
      { apply log2_between; [ lia | ].
        rewrite !Z.pow_add_r by lia. fold T.
        change (2 ^ 52) with 4503599627370496.
        change (2 ^ 1) with 2.
        split.
        - apply Z.div_le_lower_bound; [ lia | ]. unfold W in *. nia.
        - apply Z.div_lt_upper_bound; [ lia | ]. unfold W in *. nia. }
      rewrite Hlog. rewrite Z.max_r by lia.
      replace (52 + s - 52) with s by lia.
      rewrite Z.shiftl_mul_pow2 by lia. fold T.
      rewrite (rne_div_unique P (den * T) m).
      * destruct (Z.eqb_spec m 9007199254740992) as [He | _]; [ lia | ].
        destruct (Z.ltb_spec 2045 s); [ lia | ].
        destruct m; try lia. reflexivity.
      * nia.
      * unfold W in *. replace (den * T) with (T * den) by ring. lia.
Qed.

(** ** Valid binary64 numbers *)

Lemma digits2_pos_bounds (m : positive) :
  2 ^ (Z.pos (digits2_pos m) - 1) <= Z.pos m < 2 ^ Z.pos (digits2_pos m).
Proof.
  induction m as [m IH | m IH | ]; cbn [digits2_pos].
  - rewrite Pos2Z.inj_succ, Z.pow_succ_r by lia.
    replace (Z.succ (Z.pos (digits2_pos m)) - 1)
      with (Z.succ (Z.pos (digits2_pos m) - 1)) by lia.
    rewrite Z.pow_succ_r by lia. lia.
  - rewrite Pos2Z.inj_succ, Z.pow_succ_r by lia.
    replace (Z.succ (Z.pos (digits2_pos m)) - 1)
      with (Z.succ (Z.pos (digits2_pos m) - 1)) by lia.
    rewrite Z.pow_succ_r by lia. lia.
  - simpl. lia.
Qed.

Lemma bounded_canonical (m : positive) (e : Z) :
  bounded prec emax m e = true -> canonical (Z.pos m) (e + 1074).
Proof.
  unfold bounded, canonical_mantissa, fexp, SpecFloat.emin, prec, emax.
  intros H. apply andb_true_iff in H. destruct H as [Hc He].
  apply Z.eqb_eq in Hc. apply Z.leb_le in He.
  pose proof (digits2_pos_bounds m) as Hd.
  set (dg := Z.pos (digits2_pos m)) in *.
  assert (Hdg : 0 < dg) by (unfold dg; lia).
  unfold canonical.
  destruct (Z.max_spec (dg + e - 53) (3 - 1024 - 53)) as [[Hlt Hmax] | [Hge Hmax]];
    rewrite Hmax in Hc.
  - (* subnormal *)
    assert (e = -1074) by lia. subst e.
    destruct (Z.eq_dec dg 53) as [E53 | N53].
    + left. rewrite E53 in Hd. split; [ | lia ].
      change (53 - 1) with 52 in Hd. exact Hd.
    + right. split; [ | lia ]. split; [ lia | ].
      assert (dg <= 52) by lia.
      assert (2 ^ dg <= 2 ^ 52) by (apply Z.pow_le_mono_r; lia).
      lia.
  - assert (dg = 53) by lia.
    left. rewrite H in Hd. change (53 - 1) with 52 in Hd. split; [ exact Hd | lia ].
Qed.

(** ** Scaling a fraction *)

Lemma rne_div_scale (k p q : Z) :
  0 < k -> 0 < q -> rne_div (k * p) (k * q) = rne_div p q.
Proof.
  intros Hk Hq. unfold rne_div.
  rewrite Z.div_mul_cancel_l by lia.
  rewrite Z.mul_mod_distr_l by lia.
  replace (2 * (k * (p mod q))) with (k * (2 * (p mod q))) by ring.
  rewrite <- (Zmult_compare_compat_l (2 * (p mod q)) q k) by lia.
  reflexivity.
Qed.

Lemma round_pos_scale (k num den : Z) :
  0 < k -> 0 < den -> round_pos (k * num) (k * den) = round_pos num den.
Proof.
  intros Hk Hden. unfold round_pos.
  rewrite !Z.shiftl_mul_pow2 by lia.
  replace (k * num * 2 ^ 1074) with (k * (num * 2 ^ 1074)) by ring.
  rewrite Z.div_mul_cancel_l by lia.
  set (sh := Z.max 0 (Z.log2 (num * 2 ^ 1074 / den) - 52)).
  replace (k * den * 2 ^ sh) with (k * (den * 2 ^ sh)) by ring.
  rewrite rne_div_scale; [ reflexivity | lia | ].
  apply Z.mul_pos_pos; [ lia | apply Z.pow_pos_nonneg; lia ].
Qed.

(** ** The decimal exponent *)

Lemma exponent_up_spec (num den : Z) (fuel : nat) (E0 Emax : Z) :
  below_pow10 num den (E0 - 1) = false ->
  below_pow10 num den Emax = true ->
  E0 <= Emax -> Emax - E0 < Z.of_nat fuel ->
  below_pow10 num den (exponent_up fuel num den E0) = true
  /\ below_pow10 num den (exponent_up fuel num den E0 - 1) = false.
Proof.
  revert E0; induction fuel as [ | fuel IH]; intros E0 Hinv Hmax Hle Hfuel.
  - simpl in Hfuel. lia.
  - cbn [exponent_up]. destruct (below_pow10 num den E0) eqn:Hb.
    + split; assumption.
    + assert (E0 <> Emax) by (intros ->; congruence).
      apply IH; [ | exact Hmax | lia | lia ].
      replace (E0 + 1 - 1) with E0 by lia. exact Hb.
Qed.

Lemma exponent_down_spec (num den : Z) (fuel : nat) (E0 Emin : Z) :
  below_pow10 num den E0 = true ->
  below_pow10 num den Emin = false ->
  Emin < E0 -> E0 - Emin <= Z.of_nat fuel ->
  below_pow10 num den (exponent_down fuel num den E0) = true
  /\ below_pow10 num den (exponent_down fuel num den E0 - 1) = false.
Proof.
  revert E0; induction fuel as [ | fuel IH]; intros E0 Hinv Hmin Hlt Hfuel.
  - simpl in Hfuel. lia.
  - cbn [exponent_down]. destruct (below_pow10 num den (E0 - 1)) eqn:Hb.
    + assert (E0 - 1 <> Emin) by (intros Heq; rewrite Heq in Hb; congruence).
      apply IH; [ exact Hb | exact Hmin | lia | lia ].
    + split; assumption.
Qed.

Lemma bin_num_eq (m : positive) (e : Z) :
  bin_num m e = Z.pos m * 2 ^ Z.max e 0.
Proof. unfold bin_num. apply Z.shiftl_mul_pow2. lia. Qed.

Lemma bin_den_eq (e : Z) : bin_den e = 2 ^ Z.max (- e) 0.
Proof. unfold bin_den. rewrite Z.shiftl_mul_pow2 by lia. lia. Qed.

Lemma bin_den_pos (e : Z) : 0 < bin_den e.
Proof. rewrite bin_den_eq. apply Z.pow_pos_nonneg; lia. Qed.

Lemma bin_num_pos (m : positive) (e : Z) : 0 < bin_num m e.
Proof.
  rewrite bin_num_eq. apply Z.mul_pos_pos; [ lia | ].
  apply Z.pow_pos_nonneg; lia.
Qed.

(** [m * 2 ^ e], as the fraction [bin_num / bin_den], counted in units of
    [2 ^ -1074]. *)
Lemma bin_identity (m : positive) (e : Z) :
  -1074 <= e ->
  bin_num m e * 2 ^ 1074 = Z.pos m * 2 ^ (e + 1074) * bin_den e.
Proof.
  intros He. rewrite bin_num_eq, bin_den_eq.
  destruct (Z_le_gt_dec 0 e) as [Hpos | Hneg].
  - rewrite (Z.max_l e 0), (Z.max_r (- e) 0) by lia.
    rewrite Z.pow_0_r, Z.mul_1_r, Z.pow_add_r by lia. ring.
  - rewrite (Z.max_r e 0), (Z.max_l (- e) 0) by lia.
    rewrite Z.pow_0_r, Z.mul_1_r.
    rewrite <- Z.mul_assoc, <- Z.pow_add_r by lia.
    replace (e + 1074 + - e) with 1074 by lia. reflexivity.
Qed.

Lemma pow10_pos (k : Z) : 0 < 10 ^ Z.max k 0.
Proof. apply Z.pow_pos_nonneg; lia. Qed.

Lemma canonical_bounds (m : positive) (e : Z) :
  canonical (Z.pos m) (e + 1074) ->
  -1074 <= e <= 971 /\ Z.pos m < 2 ^ 53.
Proof. intros [[H1 H2] | [H1 H2]]; lia. Qed.

Lemma mul_lt_le_mono (a b c d : Z) :
  0 <= a < b -> 0 < c <= d -> a * c < b * d.
Proof. intros H1 H2. nia. Qed.

Lemma lt_scaled (a b P Q : Z) :
  0 <= a < P -> P < Q -> 0 < b -> a < b * Q.
Proof. intros H1 H2 H3. nia. Qed.

Lemma le_scaled (a b P Q : Z) :
  0 <= b <= P -> P <= Q -> 0 < a -> b <= a * Q.
Proof. intros H1 H2 H3. nia. Qed.

Lemma below_309 (m : positive) (e : Z) :
  canonical (Z.pos m) (e + 1074) ->
  below_pow10 (bin_num m e) (bin_den e) 309 = true.
Proof.
  intros Hc. destruct (canonical_bounds m e Hc) as [He Hm].
  unfold below_pow10. apply Z.ltb_lt.
  change (Z.max (- 309) 0) with 0. change (Z.max 309 0) with 309.
  rewrite Z.pow_0_r, Z.mul_1_r.
  apply (lt_scaled _ _ (2 ^ 53 * 2 ^ 971)).
  - split; [ pose proof (bin_num_pos m e); lia | ].
    rewrite bin_num_eq. apply mul_lt_le_mono; [ lia | ].
    split; [ apply Z.pow_pos_nonneg; lia | apply Z.pow_le_mono_r; lia ].
  - vm_compute. reflexivity.
  - apply bin_den_pos.
Qed.

Lemma below_m324 (m : positive) (e : Z) :
  canonical (Z.pos m) (e + 1074) ->
  below_pow10 (bin_num m e) (bin_den e) (-324) = false.
Proof.
  intros Hc. destruct (canonical_bounds m e Hc) as [He Hm].
  unfold below_pow10. apply Z.ltb_ge.
  change (Z.max (- -324) 0) with 324. change (Z.max (-324) 0) with 0.
  rewrite Z.pow_0_r, Z.mul_1_r.
  apply (le_scaled _ _ (2 ^ 1074)).
  - split; [ pose proof (bin_den_pos e); lia | ].
    rewrite bin_den_eq. apply Z.pow_le_mono_r; lia.
  - vm_compute. discriminate.
  - apply bin_num_pos.
Qed.

Lemma decimal_exponent_spec (m : positive) (e : Z) :
  canonical (Z.pos m) (e + 1074) ->
  below_pow10 (bin_num m e) (bin_den e) (decimal_exponent m e) = true
  /\ below_pow10 (bin_num m e) (bin_den e) (decimal_exponent m e - 1) = false.
Proof.
  intros Hc. destruct (canonical_bounds m e Hc) as [He Hm].
  unfold decimal_exponent.
  set (E0 := (Z.log2 (Z.pos m) + e) * 30103 / 100000).
  assert (Hlog : 0 <= Z.log2 (Z.pos m) <= 52).
  { split; [ apply Z.log2_nonneg | ].
    assert (Z.log2 (Z.pos m) < 53); [ | lia ].
    apply Z.log2_lt_pow2; lia. }
  assert (HE0 : -324 <= E0 <= 307).
  { unfold E0. split.
    - apply Z.div_le_lower_bound; lia.
    - assert ((Z.log2 (Z.pos m) + e) * 30103 / 100000 < 308); [ | lia ].
      apply Z.div_lt_upper_bound; lia. }
  destruct (below_pow10 (bin_num m e) (bin_den e) E0) eqn:Hb.
  - apply (exponent_down_spec _ _ _ _ (-324)); auto using below_m324.
    + assert (E0 <> -324); [ | lia ].
      intros Heq. rewrite Heq, below_m324 in Hb by assumption. discriminate.
    + change (Z.of_nat 640) with 640. lia.
  - apply (exponent_up_spec _ _ _ _ 309); auto using below_309.
    + replace (E0 + 1 - 1) with E0 by lia. exact Hb.
    + lia.
    + change (Z.of_nat 640) with 640. lia.
Qed.

(** ** Seventeen digits are enough *)

(** With seventeen digits the unit of the last digit is at most
    [10 ^ -16] of the number. *)
Lemma seventeen_digits_unit (a b E : Z) :
  0 < a -> 0 < b ->
  below_pow10 a b (E - 1) = false ->
  10 ^ 16 * (b * 10 ^ Z.max (E - 17) 0) <= a * dec_den (E - 17).
Proof.
  intros Ha Hb Hbelow. unfold below_pow10 in Hbelow.
  apply Z.ltb_ge in Hbelow. unfold dec_den.
  change (10 ^ 16) with 10000000000000000.
  destruct (Z_le_gt_dec 17 E) as [H17 | H17].
  - rewrite (Z.max_l (E - 17) 0), (Z.max_r (- (E - 17)) 0) by lia.
    rewrite (Z.max_l (E - 1) 0), (Z.max_r (- (E - 1)) 0) in Hbelow by lia.
    replace (E - 1) with (16 + (E - 17)) in Hbelow by lia.
    rewrite Z.pow_add_r in Hbelow by lia.
    change (10 ^ 16) with 10000000000000000 in Hbelow.
    rewrite Z.pow_0_r in *. lia.
  - destruct (Z_le_gt_dec 1 E) as [H1 | H1].
    + rewrite (Z.max_r (E - 17) 0), (Z.max_l (- (E - 17)) 0) by lia.
      rewrite (Z.max_l (E - 1) 0), (Z.max_r (- (E - 1)) 0) in Hbelow by lia.
      rewrite Z.pow_0_r in *.
      assert (H16 : 10 ^ (E - 1) * 10 ^ (- (E - 17)) = 10000000000000000).
      { rewrite <- Z.pow_add_r by lia.
        replace (E - 1 + - (E - 17)) with 16 by lia. reflexivity. }
      assert (0 < 10 ^ (- (E - 17))) by (apply Z.pow_pos_nonneg; lia).
      nia.
    + rewrite (Z.max_r (E - 17) 0), (Z.max_l (- (E - 17)) 0) by lia.
      rewrite (Z.max_r (E - 1) 0), (Z.max_l (- (E - 1)) 0) in Hbelow by lia.
      rewrite Z.pow_0_r in *.
      replace (- (E - 17)) with (- (E - 1) + 16) by lia.
      rewrite Z.pow_add_r by lia.
      change (10 ^ 16) with 10000000000000000.
      nia.
Qed.

(** A decimal nearer to [m * 2 ^ e] than half a unit [10 ^ t], where the
    unit is at most [10 ^ -16] of the number, reads back as [m * 2 ^ e]. *)
Lemma near_decimal_reads (m : positive) (e t c : Z) :
  canonical (Z.pos m) (e + 1074) ->
  10 ^ 16 * (bin_den e * 10 ^ Z.max t 0) <= bin_num m e * dec_den t ->
  Z.abs (2 * (bin_num m e * dec_den t)
         - 2 * c * (bin_den e * 10 ^ Z.max t 0))
  <= bin_den e * 10 ^ Z.max t 0 ->
  reads_as m e c t = true.
Proof.
  intros Hc Hunit Hnear.
  destruct (canonical_bounds m e Hc) as [He Hm].
  pose proof (bin_identity m e ltac:(lia)) as Hid.
  pose proof (bin_num_pos m e) as Ha. pose proof (bin_den_pos e) as Hb.
  pose proof (pow10_pos t) as HA10.
  assert (HB10 : 0 < dec_den t) by apply pow10_pos.
  set (a := bin_num m e) in *. set (b := bin_den e) in *.
  set (A10 := 10 ^ Z.max t 0) in *. set (B10 := dec_den t) in *.
  assert (HK : 0 < 2 ^ 1074) by (apply Z.pow_pos_nonneg; lia).
  set (K := 2 ^ 1074) in *.
  assert (HT : 0 < 2 ^ (e + 1074)) by (apply Z.pow_pos_nonneg; lia).
  set (T := 2 ^ (e + 1074)) in *.
  set (n := a * B10) in *. set (q := b * A10) in *.
  assert (Hq : 0 < q) by (unfold q; nia).
  change (10 ^ 16) with 10000000000000000 in Hunit.
  change (2 ^ 53) with 9007199254740992 in Hm.
  assert (Hcpos : 0 < c) by nia.
  unfold reads_as, round_dec.
  destruct (Z.eqb_spec c 0) as [Hc0 | _]; [ lia | ].
  fold B10. unfold dec_num. fold A10.
  assert (HmT : Z.pos m * (b * B10 * T) = n * K).
  { unfold n. replace (a * B10 * K) with (a * K * B10) by ring.
    rewrite Hid. ring. }
  rewrite (round_pos_interval (c * A10) B10 (Z.pos m) (e + 1074) HB10 Hc).
  - replace (e + 1074 - 1074) with e by lia.
    rewrite Pos.eqb_refl, Z.eqb_refl. reflexivity.
  - rewrite Z.shiftl_mul_pow2 by lia. fold K. fold T.
    apply (Z.mul_lt_mono_pos_l (Z.pos m * b)); [ nia | ].
    replace (Z.pos m * b * (2 * (c * A10 * K - Z.pos m * T * B10)))
      with (2 * Z.pos m * (c * q * K) - 2 * Z.pos m * (Z.pos m * (b * B10 * T)))
      by (unfold q; ring).
    replace (Z.pos m * b * (T * B10)) with (Z.pos m * (b * B10 * T)) by ring.
    rewrite HmT.
    assert (2 * Z.pos m * (c * q - n) < n) by nia.
    nia.
  - rewrite Z.shiftl_mul_pow2 by lia. fold K. fold T.
    change (2 ^ 52) with 4503599627370496.
    destruct ((Z.pos m =? 4503599627370496) && (0 <? e + 1074)) eqn:Hbd.
    + apply andb_true_iff in Hbd. destruct Hbd as [Hm52 _].
      apply Z.eqb_eq in Hm52.
      apply (Z.mul_lt_mono_pos_l (Z.pos m * b)); [ nia | ].
      replace (Z.pos m * b * (4 * (Z.pos m * T * B10 - c * A10 * K)))
        with (4 * Z.pos m * (Z.pos m * (b * B10 * T)) - 4 * Z.pos m * (c * q * K))
        by (unfold q; ring).
      replace (Z.pos m * b * (T * B10)) with (Z.pos m * (b * B10 * T)) by ring.
      rewrite HmT.
      assert (4 * Z.pos m * (n - c * q) < n) by nia.
      nia.
    + apply (Z.mul_lt_mono_pos_l (Z.pos m * b)); [ nia | ].
      replace (Z.pos m * b * (2 * (Z.pos m * T * B10 - c * A10 * K)))
        with (2 * Z.pos m * (Z.pos m * (b * B10 * T)) - 2 * Z.pos m * (c * q * K))
        by (unfold q; ring).
      replace (Z.pos m * b * (T * B10)) with (Z.pos m * (b * B10 * T)) by ring.
      rewrite HmT.
      assert (2 * Z.pos m * (n - c * q) < n) by nia.
      nia.
Qed.

(** ** The shortest digits read back *)

Lemma reads_as_nonzero (m : positive) (e d t : Z) :
  reads_as m e d t = true -> d <> 0.
Proof.
  unfold reads_as, round_dec. intros H ->. discriminate H.
Qed.

Lemma digits_at_reads (m : positive) (e t d : Z) :
  digits_at m e t = Some d -> reads_as m e d t = true /\ 0 < d.
Proof.
  unfold digits_at.
  pose proof (bin_num_pos m e) as Ha. pose proof (bin_den_pos e) as Hb.
  pose proof (pow10_pos t) as HA. pose proof (pow10_pos (- t)) as HB.
  fold (dec_den t) in HB.
  set (n := bin_num m e * dec_den t). set (q := bin_den e * 10 ^ Z.max t 0).
  assert (Hn : 0 <= n) by (unfold n; nia).
  assert (Hq : 0 < q) by (unfold q; nia).
  assert (Hlo : 0 <= n / q) by (apply Z.div_pos; lia).
  assert (Hr : rne_div n q = n / q \/ rne_div n q = n / q + 1).
  { unfold rne_div. destruct (2 * (n mod q) ?= q); auto.
    destruct (Z.even (n / q)); auto. }
  destruct (reads_as m e (n / q) t) eqn:R1;
    destruct (reads_as m e (n / q + 1) t) eqn:R2; intros [= <-].
  - split.
    + destruct Hr as [-> | ->]; assumption.
    + pose proof (reads_as_nonzero _ _ _ _ R1). destruct Hr; lia.
  - split; [ assumption | ].
    pose proof (reads_as_nonzero _ _ _ _ R1). lia.
  - split; [ assumption | lia ].
Qed.

Lemma shortest_digits_reads (m : positive) (e E : Z) (fuel : nat) (k : Z) :
  canonical (Z.pos m) (e + 1074) ->
  below_pow10 (bin_num m e) (bin_den e) (E - 1) = false ->
  k + Z.of_nat fuel = 17 ->
  reads_as m e (fst (shortest_digits fuel m e E k))
               (snd (shortest_digits fuel m e E k)) = true
  /\ 0 < fst (shortest_digits fuel m e E k).
Proof.
  intros Hc HE. revert k. induction fuel as [ | fuel IH]; intros k Hk.
  - cbn [shortest_digits fst snd].
    replace k with 17 by (simpl in Hk; lia).
    pose proof (bin_num_pos m e) as Ha. pose proof (bin_den_pos e) as Hb.
    pose proof (pow10_pos (E - 17)) as HA.
    assert (HR : reads_as m e
                   (rne_div (bin_num m e * dec_den (E - 17))
                            (bin_den e * 10 ^ Z.max (E - 17) 0)) (E - 17)
                 = true).
    { apply near_decimal_reads; [ exact Hc | | ].
      - apply seventeen_digits_unit; assumption.
      - apply rne_div_nearest. nia. }
    split; [ exact HR | ].
    pose proof (reads_as_nonzero _ _ _ _ HR).
    assert (0 <= rne_div (bin_num m e * dec_den (E - 17))
                         (bin_den e * 10 ^ Z.max (E - 17) 0)); [ | lia ].
    apply rne_div_nonneg; [ | nia ].
    pose proof (pow10_pos (- (E - 17))) as HB. fold (dec_den (E - 17)) in HB.
    nia.
  - cbn [shortest_digits].
    destruct (digits_at m e (E - k)) as [d | ] eqn:Hd.
    + cbn [fst snd]. apply digits_at_reads. exact Hd.
    + apply IH. lia.
Qed.

Lemma round_dec_strip (d t : Z) :
  d mod 10 = 0 -> round_dec (d / 10) (t + 1) = round_dec d t.
Proof.
  intros Hmod.
  assert (Hd : d = 10 * (d / 10)).
  { pose proof (Z.div_mod d 10 ltac:(lia)). lia. }
  set (d' := d / 10) in *. rewrite Hd.
  unfold round_dec.
  destruct (Z.eqb_spec d' 0) as [-> | Hnz]; [ reflexivity | ].
  destruct (Z.eqb_spec (10 * d') 0) as [H0 | _]; [ lia | ].
  unfold dec_num, dec_den.
  destruct (Z_le_gt_dec 0 t) as [Ht | Ht].
  - rewrite (Z.max_l (t + 1) 0), (Z.max_r (- (t + 1)) 0) by lia.
    rewrite (Z.max_l t 0), (Z.max_r (- t) 0) by lia.
    rewrite Z.pow_add_r by lia. change (10 ^ 1) with 10.
    f_equal. ring.
  - rewrite (Z.max_r (t + 1) 0), (Z.max_l (- (t + 1)) 0) by lia.
    rewrite (Z.max_r t 0), (Z.max_l (- t) 0) by lia.
    rewrite Z.pow_0_r, !Z.mul_1_r.
    replace (- t) with (1 + - (t + 1)) by lia.
    rewrite Z.pow_add_r by lia. change (10 ^ 1) with 10.
    symmetry. apply round_pos_scale; [ lia | ].
    apply Z.pow_pos_nonneg; lia.
Qed.

Lemma strip_zeros_reads (m : positive) (e : Z) (fuel : nat) (d t : Z) :
  reads_as m e d t = true -> 0 < d ->
  reads_as m e (fst (strip_zeros fuel d t)) (snd (strip_zeros fuel d t)) = true
  /\ 0 < fst (strip_zeros fuel d t).
Proof.
  revert d t; induction fuel as [ | fuel IH]; intros d t HR Hd.
  - split; assumption.
  - cbn [strip_zeros]. destruct (Z.eqb_spec (d mod 10) 0) as [Hmod | _].
    + apply IH.
      * unfold reads_as in *. rewrite round_dec_strip by exact Hmod. exact HR.
      * pose proof (Z.div_mod d 10 ltac:(lia)). lia.
    + split; assumption.
Qed.

(** ** Decimal digits *)

Lemma digit_value_char (d : Z) :
  0 <= d <= 9 -> digit_value (digit_char d) = Some d.
Proof.
  intros H.
  assert (Hd : d = 0 \/ d = 1 \/ d = 2 \/ d = 3 \/ d = 4 \/ d = 5 \/ d = 6
               \/ d = 7 \/ d = 8 \/ d = 9) by lia.
  repeat (destruct Hd as [-> | Hd]; [ reflexivity | ]). subst; reflexivity.
Qed.

Lemma digits_value_app (acc : Z) (l1 l2 : list ascii) :
  digits_value acc (l1 ++ l2)
  = match digits_value acc l1 with
    | Some v => digits_value v l2
    | None => None
    end.
Proof.
  revert acc; induction l1 as [ | c l1 IH]; intros acc; simpl;
    [ reflexivity | ].
  destruct (digit_value c); [ apply IH | reflexivity ].
Qed.

Lemma is_digit_char (d : Z) : 0 <= d <= 9 -> is_digit (digit_char d) = true.
Proof. intros H. unfold is_digit. rewrite digit_value_char by exact H. reflexivity. Qed.

Lemma digits_rev_spec (fuel : nat) (n : Z) :
  0 <= n < 2 ^ Z.of_nat fuel -> (0 < fuel)%nat ->
  digits_value 0 (rev (digits_rev fuel n)) = Some n
  /\ Forall (fun c => is_digit c = true) (digits_rev fuel n)
  /\ digits_rev fuel n <> [].
Proof.
  revert n; induction fuel as [ | fuel IH]; intros n Hn Hf; [ lia | ].
  cbn [digits_rev]. destruct (Z.ltb_spec n 10) as [Hlt | Hge].
  - simpl. rewrite digit_value_char by lia. repeat split.
    + repeat constructor. apply is_digit_char; lia.
    + discriminate.
  - assert (Hdiv : 0 <= n / 10 < 2 ^ Z.of_nat fuel).
    { rewrite Nat2Z.inj_succ, Z.pow_succ_r in Hn by lia.
      split; [ apply Z.div_pos; lia | ].
      apply Z.div_lt_upper_bound; lia. }
    assert (Hfuel : (0 < fuel)%nat).
    { destruct fuel; [ | lia ]. change (2 ^ Z.of_nat 0) with 1 in Hdiv.
      assert (1 <= n / 10) by (apply Z.div_le_lower_bound; lia). lia. }
    destruct (IH (n / 10) Hdiv Hfuel) as (Hv & Hall & Hne).
    pose proof (Z.mod_pos_bound n 10 ltac:(lia)) as Hmod.
    repeat split.
    + cbn [rev]. rewrite digits_value_app, Hv. cbn [digits_value].
      rewrite digit_value_char by lia. cbn [digits_value].
      f_equal. pose proof (Z.div_mod n 10 ltac:(lia)). lia.
    + constructor; [ apply is_digit_char; lia | exact Hall ].
    + discriminate.
Qed.

Lemma digits_of_spec (n : Z) :
  0 <= n ->
  digits_value 0 (digits_of n) = Some n
  /\ Forall (fun c => is_digit c = true) (digits_of n)
  /\ digits_of n <> [].
Proof.
  intros Hn. unfold digits_of.
  destruct (digits_rev_spec (S (Z.to_nat (Z.log2 n))) n) as (Hv & Hall & Hne).
  - split; [ exact Hn | ].
    destruct (Z.eq_dec n 0) as [-> | Hnz]; [ simpl; lia | ].
    rewrite Nat2Z.inj_succ, Z2Nat.id by apply Z.log2_nonneg.
    apply Z.log2_spec. lia.
  - lia.
  - repeat split.
    + exact Hv.
    + apply Forall_rev. exact Hall.
    + intros H. apply Hne. apply (f_equal (@rev ascii)) in H.
      rewrite rev_involutive in H. exact H.
Qed.

(** ** Characters of a printed number *)

Ltac all_ascii c :=
  destruct c as [[ | ] [ | ] [ | ] [ | ] [ | ] [ | ] [ | ] [ | ]].

Lemma plain_facts (c : ascii) :
  plain c = true ->
  is_space c = false /\ Ascii.eqb c "_" = false
  /\ Ascii.eqb "C" c = false /\ Ascii.eqb "176" c = false.
Proof.
  all_ascii c; vm_compute; intros H; try discriminate H;
    repeat split; reflexivity.
Qed.

Lemma digit_facts (c : ascii) :
  is_digit c = true ->
  plain c = true /\ lower c = c
  /\ Ascii.eqb c "i" = false /\ Ascii.eqb c "n" = false
  /\ Ascii.eqb c "-" = false /\ Ascii.eqb c "+" = false
  /\ Ascii.eqb c "." = false /\ Ascii.eqb (lower c) "e" = false
  /\ Ascii.eqb c "_" = false.
Proof.
  all_ascii c; vm_compute; intros H; try discriminate H;
    repeat split; reflexivity.
Qed.

Lemma digits_plain (l : list ascii) :
  Forall (fun c => is_digit c = true) l -> Forall (fun c => plain c = true) l.
Proof.
  apply Forall_impl. intros c H. apply (digit_facts c H).
Qed.

Lemma lstrip_space_plain (l : list ascii) :
  Forall (fun c => plain c = true) l -> lstrip_space l = l.
Proof.
  destruct 1 as [ | c l Hc _]; [ reflexivity | ].
  simpl. destruct (plain_facts c Hc) as [-> _]. reflexivity.
Qed.

Lemma strip_space_plain (l : list ascii) :
  Forall (fun c => plain c = true) l -> strip_space l = l.
Proof.
  intros H. unfold strip_space.
  rewrite (lstrip_space_plain l H).
  rewrite lstrip_space_plain by (apply Forall_rev; exact H).
  apply rev_involutive.
Qed.

Lemma drop_underscores_plain (l : list ascii) (prev : bool) :
  Forall (fun c => plain c = true) l -> drop_underscores prev l = Some l.
Proof.
  intros H; revert prev; induction H as [ | c l Hc _ IH]; intros prev;
    [ reflexivity | ].
  cbn [drop_underscores].
  destruct (plain_facts c Hc) as (_ & -> & _).
  rewrite IH. reflexivity.
Qed.

(** ** Reading the digits back *)

Lemma span_digits_app (ds r : list ascii) :
  Forall (fun c => is_digit c = true) ds -> stops r ->
  span_digits (ds ++ r) = (ds, r).
Proof.
  intros H Hr; induction H as [ | c ds Hc _ IH]; simpl.
  - destruct r as [ | c r]; [ reflexivity | ].
    simpl in Hr. simpl. rewrite Hr. reflexivity.
  - rewrite Hc, IH. reflexivity.
Qed.

Lemma digits_value_zeros (acc k : Z) (l : list ascii) :
  0 <= k ->
  digits_value acc (zeros k ++ l) = digits_value (acc * 10 ^ k) l.
Proof.
  intros Hk. unfold zeros.
  rewrite <- (Z2Nat.id k Hk) at 2. generalize (Z.to_nat k) as n. clear.
  intros n; revert acc; induction n as [ | n IH]; intros acc.
  - simpl. rewrite Z.mul_1_r. reflexivity.
  - cbn [repeat app digits_value].
    change (digit_value "0") with (Some 0). cbn iota.
    rewrite IH. rewrite Nat2Z.inj_succ, Z.pow_succ_r by lia.
    f_equal. ring.
Qed.

Lemma zeros_digits (k : Z) : Forall (fun c => is_digit c = true) (zeros k).
Proof.
  unfold zeros. induction (Z.to_nat k) as [ | n IH]; constructor;
    [ reflexivity | exact IH ].
Qed.

Lemma zeros_length (k : Z) : 0 <= k -> Z.of_nat (List.length (zeros k)) = k.
Proof.
  intros Hk. unfold zeros. rewrite repeat_length. apply Z2Nat.id. exact Hk.
Qed.

Lemma parse_exponent_chars (x : Z) :
  parse_exponent (exponent_chars x) = Some x.
Proof.
  unfold exponent_chars, parse_exponent.
  change (Ascii.eqb (lower "e") "e") with true. cbn iota.
  destruct (digits_of_spec (Z.abs x) (Z.abs_nonneg x)) as (Hv & _ & Hne).
  set (rest := ((if Z.abs x <? 10 then ["0"%char] else [])
                ++ digits_of (Z.abs x))%list).
  assert (Hrest : digits_value 0 rest = Some (Z.abs x)).
  { unfold rest. destruct (Z.abs x <? 10); [ | exact Hv ].
    cbn [app digits_value]. change (digit_value "0") with (Some 0).
    exact Hv. }
  assert (Hnil : rest <> []).
  { unfold rest. destruct (Z.abs x <? 10); [ discriminate | exact Hne ]. }
  destruct (Z.ltb_spec x 0) as [Hneg | Hpos].
  - change (split_sign ("-"%char :: rest)) with (true, rest).
    destruct rest; [ congruence | ]. rewrite Hrest. simpl. f_equal. lia.
  - change (split_sign ("+"%char :: rest)) with (false, rest).
    destruct rest; [ congruence | ]. rewrite Hrest. simpl. f_equal. lia.
Qed.

Lemma exponent_chars_plain (x : Z) :
  Forall (fun c => plain c = true) (exponent_chars x).
Proof.
  unfold exponent_chars.
  destruct (digits_of_spec (Z.abs x) (Z.abs_nonneg x)) as (_ & Hall & _).
  constructor; [ reflexivity | ].
  constructor; [ destruct (x <? 0); reflexivity | ].
  apply Forall_app. split.
  - destruct (Z.abs x <? 10); repeat constructor.
  - apply digits_plain. exact Hall.
Qed.

(** A literal with a point: digits, the point, digits, and an exponent part
    or nothing. *)
Lemma parse_decimal_point (ip fp r : list ascii) (d x : Z) :
  Forall (fun c => is_digit c = true) ip ->
  Forall (fun c => is_digit c = true) fp ->
  (ip ++ fp)%list <> [] ->
  stops r ->
  digits_value 0 (ip ++ fp) = Some d ->
  parse_exponent r = Some x ->
  parse_decimal (ip ++ "."%char :: fp ++ r)
  = Some (d, x - Z.of_nat (List.length fp)).
Proof.
  intros Hip Hfp Hne Hr Hd Hx. unfold parse_decimal.
  rewrite (span_digits_app ip ("."%char :: fp ++ r) Hip) by reflexivity.
  change (Ascii.eqb "." ".") with true. cbn iota.
  rewrite (span_digits_app fp r Hfp Hr).
  destruct (ip ++ fp)%list eqn:E; [ congruence | ].
  rewrite Hd, Hx. reflexivity.
Qed.

(** A literal without a point: digits and an exponent part. *)
Lemma parse_decimal_exponent (ip : list ascii) (d x : Z) :
  Forall (fun c => is_digit c = true) ip ->
  ip <> [] ->
  digits_value 0 ip = Some d ->
  parse_decimal (ip ++ exponent_chars x) = Some (d, x).
Proof.
  intros Hip Hne Hd. unfold parse_decimal.
  rewrite (span_digits_app ip (exponent_chars x) Hip) by reflexivity.
  unfold exponent_chars at 1. change (Ascii.eqb "e" ".") with false.
  cbn iota. fold (exponent_chars x).
  rewrite app_nil_r.
  destruct ip eqn:E; [ congruence | ].
  rewrite Hd, parse_exponent_chars. f_equal. f_equal. simpl. lia.
Qed.

(** ** The layouts of [repr] *)

Lemma round_dec_scaled (d t : Z) (j : nat) :
  0 < d -> round_dec (d * 10 ^ Z.of_nat j) (t - Z.of_nat j) = round_dec d t.
Proof.
  intros Hd. induction j as [ | j IH].
  - simpl. rewrite Z.mul_1_r, Z.sub_0_r. reflexivity.
  - rewrite <- IH, Nat2Z.inj_succ, Z.pow_succ_r by lia.
    rewrite <- (round_dec_strip (d * (10 * 10 ^ Z.of_nat j))).
    + f_equal; [ | lia ].
      replace (d * (10 * 10 ^ Z.of_nat j)) with (d * 10 ^ Z.of_nat j * 10)
        by ring.
      apply Z.div_mul. lia.
    + replace (d * (10 * 10 ^ Z.of_nat j)) with (d * 10 ^ Z.of_nat j * 10)
        by ring.
      apply Z.mod_mul. lia.
Qed.

Lemma Forall_firstn_skipn {A : Type} (P : A -> Prop) (k : nat) (l : list A) :
  Forall P l -> Forall P (firstn k l) /\ Forall P (skipn k l).
Proof.
  intros H. rewrite <- (firstn_skipn k l) in H.
  apply Forall_app in H. exact H.
Qed.

Lemma repr_layout_reads (ds : list ascii) (d decpt : Z) :
  Forall (fun c => is_digit c = true) ds -> ds <> [] ->
  digits_value 0 ds = Some d -> 0 < d ->
  exists d' t',
    parse_decimal (repr_layout ds decpt) = Some (d', t')
    /\ round_dec d' t' = round_dec d (decpt - Z.of_nat (List.length ds)).
Proof.
  intros Hds Hne Hd Hpos. unfold repr_layout.
  set (n := Z.of_nat (List.length ds)).
  assert (Hn : 1 <= n).
  { unfold n. destruct ds; [ congruence | simpl; lia ]. }
  destruct ((decpt <=? -4) || (16 <? decpt)) eqn:Hexp.
  - (* scientific notation *)
    exists d, (decpt - n). split; [ | reflexivity ].
    destruct (Z.ltb_spec 1 n) as [Hlong | Hone].
    + change (firstn 1 ds ++ ("."%char :: skipn 1 ds)
              ++ exponent_chars (decpt - 1))%list
        with (firstn 1 ds ++ "."%char :: skipn 1 ds
              ++ exponent_chars (decpt - 1))%list.
      rewrite (parse_decimal_point (firstn 1 ds) (skipn 1 ds) _ d (decpt - 1)).
      * f_equal. f_equal. rewrite length_skipn. unfold n. lia.
      * apply Forall_firstn_skipn; exact Hds.
      * apply Forall_firstn_skipn; exact Hds.
      * rewrite firstn_skipn. exact Hne.
      * reflexivity.
      * rewrite firstn_skipn. exact Hd.
      * apply parse_exponent_chars.
    + assert (Hlen : List.length ds = 1%nat) by (unfold n in *; lia).
      rewrite firstn_all2 by lia. cbn [app].
      rewrite (parse_decimal_exponent ds d (decpt - 1) Hds Hne Hd).
      f_equal. f_equal. lia.
  - destruct (Z.leb_spec decpt 0) as [Hsmall | Hbig].
    + (* 0.000ds *)
      exists d, (decpt - n). split; [ | reflexivity ].
      change ("0"%char :: "."%char :: zeros (- decpt) ++ ds)%list
        with (["0"%char] ++ "."%char :: zeros (- decpt) ++ ds)%list.
      rewrite <- (app_nil_r (zeros (- decpt) ++ ds)).
      rewrite (parse_decimal_point ["0"%char] (zeros (- decpt) ++ ds) [] d 0).
      * f_equal. f_equal. rewrite length_app.
        rewrite Nat2Z.inj_add, zeros_length by lia. unfold n. lia.
      * repeat constructor.
      * apply Forall_app. split; [ apply zeros_digits | exact Hds ].
      * discriminate.
      * exact I.
      * cbn [app digits_value]. change (digit_value "0") with (Some 0).
        cbn iota. rewrite digits_value_zeros by lia. exact Hd.
      * reflexivity.
    + destruct (Z.leb_spec n decpt) as [Hint | Hfrac].
      * (* ds000.0 *)
        exists (d * 10 ^ Z.of_nat (S (Z.to_nat (decpt - n)))), (-1).
        split.
        -- replace (ds ++ zeros (decpt - n) ++ ["."%char; "0"%char])%list
             with ((ds ++ zeros (decpt - n)) ++ "."%char :: ["0"%char] ++ [])%list
             by (rewrite <- app_assoc; reflexivity).
           rewrite (parse_decimal_point (ds ++ zeros (decpt - n)) ["0"%char] []
                      (d * 10 ^ Z.of_nat (S (Z.to_nat (decpt - n)))) 0).
           ++ reflexivity.
           ++ apply Forall_app. split; [ exact Hds | apply zeros_digits ].
           ++ repeat constructor.
           ++ destruct ds; [ congruence | discriminate ].
           ++ exact I.
           ++ rewrite <- app_assoc, digits_value_app, Hd.
              rewrite digits_value_zeros by lia.
              cbn [digits_value]. change (digit_value "0") with (Some 0).
              cbn iota. f_equal.
              rewrite Nat2Z.inj_succ, Z.pow_succ_r, Z2Nat.id by lia. ring.
           ++ reflexivity.
        -- rewrite <- (round_dec_scaled d (decpt - n)
                         (S (Z.to_nat (decpt - n)))) by exact Hpos.
           f_equal. rewrite Nat2Z.inj_succ, Z2Nat.id by lia. lia.
      * (* d.s *)
        exists d, (decpt - n). split; [ | reflexivity ].
        rewrite <- (app_nil_r (skipn (Z.to_nat decpt) ds)).
        rewrite (parse_decimal_point (firstn (Z.to_nat decpt) ds)
                   (skipn (Z.to_nat decpt) ds) [] d 0).
        -- f_equal. f_equal. rewrite length_skipn. unfold n. lia.
        -- apply Forall_firstn_skipn; exact Hds.
        -- apply Forall_firstn_skipn; exact Hds.
        -- rewrite firstn_skipn. exact Hne.
        -- exact I.
        -- rewrite firstn_skipn. exact Hd.
        -- reflexivity.
Qed.

(** A layout is made of plain characters and starts with a digit. *)
Lemma repr_layout_plain (ds : list ascii) (decpt : Z) :
  Forall (fun c => is_digit c = true) ds -> ds <> [] ->
  Forall (fun c => plain c = true) (repr_layout ds decpt)
  /\ exists c l, repr_layout ds decpt = c :: l /\ is_digit c = true.
Proof.
  intros Hds Hne.
  pose proof (digits_plain ds Hds) as Hpl.
  destruct ds as [ | c0 ds0] eqn:Eds; [ congruence | ]. rewrite <- Eds in *.
  assert (Hc0 : is_digit c0 = true).
  { rewrite Eds in Hds. inversion Hds; assumption. }
  unfold repr_layout.
  destruct ((decpt <=? -4) || (16 <? decpt)).
  - split.
    + apply Forall_app. split; [ apply Forall_firstn_skipn; exact Hpl | ].
      apply Forall_app. split; [ | apply exponent_chars_plain ].
      destruct (1 <? Z.of_nat (List.length ds)); [ | constructor ].
      constructor; [ reflexivity | apply Forall_firstn_skipn; exact Hpl ].
    + rewrite Eds. cbn [firstn app]. eauto.
  - destruct (Z.leb_spec decpt 0) as [Hle | Hgt].
    + split.
      * constructor; [ reflexivity | ]. constructor; [ reflexivity | ].
        apply Forall_app. split; [ | exact Hpl ].
        apply digits_plain, zeros_digits.
      * eexists _, _. split; reflexivity.
    + destruct (Z.of_nat (List.length ds) <=? decpt).
      * split.
        -- apply Forall_app. split; [ exact Hpl | ].
           apply Forall_app. split; [ apply digits_plain, zeros_digits | ].
           repeat constructor.
        -- rewrite Eds. cbn [app]. eauto.
      * split.
        -- apply Forall_app. split; [ apply Forall_firstn_skipn; exact Hpl | ].
           constructor; [ reflexivity | apply Forall_firstn_skipn; exact Hpl ].
        -- rewrite Eds.
           destruct (Z.to_nat decpt) as [ | k] eqn:Ek; [ lia | ].
           cbn [firstn app]. eauto.
Qed.

(** ** [float] after [repr] *)

Lemma chars_of_str_of_chars (l : list ascii) :
  chars_of_str (str_of_chars l) = l.
Proof. apply list_ascii_of_string_of_list_ascii. Qed.

Lemma str_of_chars_of_str (s : string) : str_of_chars (chars_of_str s) = s.
Proof. apply string_of_list_ascii_of_string. Qed.

Lemma word_of_digit (c : ascii) (l : list ascii) (w : string) :
  is_digit c = true ->
  (w = "inf" \/ w = "infinity" \/ w = "nan") ->
  String.eqb (str_of_chars (map lower (c :: l))) w = false.
Proof.
  intros Hc Hw. destruct (digit_facts c Hc) as (_ & Hl & Hi & Hn & _).
  cbn [map str_of_chars string_of_list_ascii]. rewrite Hl.
  destruct Hw as [-> | [-> | ->]]; cbn [String.eqb];
    rewrite ?Hi, ?Hn; reflexivity.
Qed.

(** A printed finite number, with its sign, reads back as the decimal it
    shows. *)
Lemma float_of_chars_layout (s : bool) (ds : list ascii) (d decpt : Z) :
  Forall (fun c => is_digit c = true) ds -> ds <> [] ->
  digits_value 0 ds = Some d -> 0 < d ->
  float_of_chars
    (chars_of_str (sign_str s ++ str_of_chars (repr_layout ds decpt)))
  = Some (with_sign s
            (round_dec d (decpt - Z.of_nat (List.length ds)))).
Proof.
  intros Hds Hne Hd Hpos.
  destruct (repr_layout_plain ds decpt Hds Hne) as (Hpl & c & l & Hcl & Hc).
  destruct (repr_layout_reads ds d decpt Hds Hne Hd Hpos)
    as (d' & t' & Hparse & Hround).
  rewrite chars_of_str_app, chars_of_str_of_chars.
  set (L := repr_layout ds decpt) in *.
  destruct (digit_facts c Hc) as (_ & _ & _ & _ & Hminus & Hplus & _).
  unfold float_of_chars.
  assert (Hall : Forall (fun c => plain c = true)
                   (chars_of_str (sign_str s) ++ L)%list).
  { apply Forall_app. split; [ | exact Hpl ].
    destruct s; repeat constructor. }
  rewrite (strip_space_plain _ Hall).
  assert (Hsplit : split_sign (chars_of_str (sign_str s) ++ L)%list = (s, L)).
  { destruct s; [ reflexivity | ].
    cbn [sign_str chars_of_str list_ascii_of_string app].
    rewrite Hcl. cbn [split_sign]. rewrite Hminus, Hplus. reflexivity. }
  rewrite Hsplit. cbv beta iota zeta.
  assert (Hw : forall w, w = "inf" \/ w = "infinity" \/ w = "nan" ->
                 String.eqb (str_of_chars (map lower L)) w = false).
  { intros w Hw. rewrite Hcl. apply word_of_digit; assumption. }
  rewrite !Hw by auto.
  cbn [orb]. cbv iota.
  rewrite (drop_underscores_plain L false Hpl), Hparse, Hround.
  reflexivity.
Qed.

Lemma float_of_chars_repr_finite (x : float) (s : bool) (m : positive)
  (e : Z) :
  Prim2SF x = S754_finite s m e ->
  Forall (fun c => plain c = true)
    (chars_of_str (float_repr x))
  /\ float_of_chars (chars_of_str (float_repr x)) = Some (S754_finite s m e).
Proof.
  intros Hx.
  pose proof (Prim2SF_valid x) as Hvalid. rewrite Hx in Hvalid.
  cbn [valid_binary] in Hvalid.
  pose proof (bounded_canonical m e Hvalid) as Hcan.
  destruct (decimal_exponent_spec m e Hcan) as [_ HE].
  unfold float_repr. rewrite Hx.
  set (E := decimal_exponent m e) in *.
  destruct (shortest_digits_reads m e E 16 1 Hcan HE eq_refl) as [HR0 Hpos0].
  destruct (shortest_digits 16 m e E 1) as [d0 t0]. cbn [fst snd] in *.
  destruct (strip_zeros_reads m e 17 d0 t0 HR0 Hpos0) as [HR Hpos].
  destruct (strip_zeros 17 d0 t0) as [d t]. cbn [fst snd] in *.
  destruct (digits_of_spec d ltac:(lia)) as (Hv & Hds & Hne).
  split.
  - rewrite chars_of_str_app, chars_of_str_of_chars.
    apply Forall_app. split; [ destruct s; repeat constructor | ].
    apply repr_layout_plain; assumption.
  - rewrite (float_of_chars_layout s (digits_of d) d _ Hds Hne Hv Hpos).
    replace (t + Z.of_nat (List.length (digits_of d))
             - Z.of_nat (List.length (digits_of d))) with t by lia.
    unfold reads_as in HR.
    destruct (round_dec d t) as [ | | | s' m' e']; try discriminate.
    apply andb_true_iff in HR. destruct HR as [Hm He].
    apply Pos.eqb_eq in Hm. apply Z.eqb_eq in He. subst. reflexivity.
Qed.

(** ** Stripping the unit *)

Lemma lstrip_any_stops (fuel : nat) (l : list ascii) :
  Forall (fun c => plain c = true) l ->
  lstrip_any fuel [["176"%char; "194"%char]; ["C"%char]] l = l.
Proof.
  intros H. destruct fuel as [ | fuel]; [ reflexivity | ].
  destruct H as [ | c l Hc _]; [ reflexivity | ].
  destruct (plain_facts c Hc) as (_ & _ & HC & HB).
  cbn [lstrip_any drop_any drop_prefix]. rewrite HC, HB. reflexivity.
Qed.

Lemma lstrip_any_step (fuel : nat) (cs : list (list ascii))
  (l r : list ascii) :
  drop_any cs l = Some r ->
  lstrip_any (S fuel) cs l = lstrip_any fuel cs r.
Proof. intros H. cbn [lstrip_any]. rewrite H. reflexivity. Qed.

Lemma rstrip_unit (s : string) :
  Forall (fun c => plain c = true) (chars_of_str s) ->
  rstrip (s ++ "°C") "°C" = s.
Proof.
  intros H. unfold rstrip.
  rewrite chars_of_str_app.
  change (chars_of_str "°C") with ["194"%char; "176"%char; "C"%char].
  change (map (@rev ascii) (code_points ["194"%char; "176"%char; "C"%char]))
    with [["176"%char; "194"%char]; ["C"%char]].
  rewrite rev_app_distr, length_app, Nat.add_comm.
  cbn [rev app List.length Nat.add].
  rewrite (lstrip_any_step _ _ _
             ("176"%char :: "194"%char :: rev (chars_of_str s)))
    by reflexivity.
  rewrite (lstrip_any_step _ _ _ (rev (chars_of_str s))) by reflexivity.
  rewrite lstrip_any_stops by (apply Forall_rev; exact H).
  rewrite rev_involutive. apply str_of_chars_of_str.
Qed.

(** ** A [float] temperature goes through the text unchanged *)

Lemma float_round_trip (x : float) :
  float_of_str (rstrip (format_value (PyFloat x) ++ "°C") "°C") = Return x.
Proof.
  cbn [format_value].
  destruct (Prim2SF x) as [s | s | | s m e] eqn:Hx.
  - assert (Hr : float_repr x = sign_str s ++ "0.0")
      by (unfold float_repr; rewrite Hx; reflexivity).
    rewrite Hr. rewrite <- (SF2Prim_Prim2SF x), Hx.
    destruct s; vm_compute; reflexivity.
  - assert (Hr : float_repr x = sign_str s ++ "inf")
      by (unfold float_repr; rewrite Hx; reflexivity).
    rewrite Hr. rewrite <- (SF2Prim_Prim2SF x), Hx.
    destruct s; vm_compute; reflexivity.
  - assert (Hr : float_repr x = "nan")
      by (unfold float_repr; rewrite Hx; reflexivity).
    rewrite Hr. rewrite <- (SF2Prim_Prim2SF x), Hx.
    vm_compute; reflexivity.
  - destruct (float_of_chars_repr_finite x s m e Hx) as [Hpl Hread].
    rewrite (rstrip_unit _ Hpl).
    unfold float_of_str. rewrite Hread, <- Hx, SF2Prim_Prim2SF.
    reflexivity.
Qed.

(** ** An [int] temperature *)

Lemma canonical_bounded (m : positive) (e : Z) :
  canonical (Z.pos m) (e + 1074) -> e <= 971 ->
  bounded prec emax m e = true.
Proof.
  intros Hc He.
  unfold bounded, canonical_mantissa, fexp, SpecFloat.emin, prec, emax.
  pose proof (digits2_pos_bounds m) as Hd.
  set (dg := Z.pos (digits2_pos m)) in *.
  assert (Hdg : 0 < dg) by (unfold dg; lia).
  apply andb_true_iff. split; [ | apply Z.leb_le; lia ].
  apply Z.eqb_eq.
  destruct Hc as [[Hm Hs] | [Hm Hs]].
  - assert (dg = 53).
    { destruct (Z_lt_le_dec dg 53) as [Hlt | Hge].
      - assert (2 ^ dg <= 2 ^ 52) by (apply Z.pow_le_mono_r; lia). lia.
      - destruct (Z.eq_dec dg 53) as [ | Hne]; [ assumption | ].
        assert (2 ^ 53 <= 2 ^ (dg - 1)) by (apply Z.pow_le_mono_r; lia). lia. }
    lia.
  - assert (dg <= 52).
    { destruct (Z_le_gt_dec dg 52) as [ | Hgt]; [ assumption | ].
      assert (2 ^ 52 <= 2 ^ (dg - 1)) by (apply Z.pow_le_mono_r; lia). lia. }
    lia.
Qed.

Lemma parse_decimal_digits (ds : list ascii) (d : Z) :
  Forall (fun c => is_digit c = true) ds -> ds <> [] ->
  digits_value 0 ds = Some d ->
  parse_decimal ds = Some (d, 0).
Proof.
  intros Hds Hne Hd. unfold parse_decimal.
  rewrite <- (app_nil_r ds) at 1.
  rewrite (span_digits_app ds [] Hds I).
  rewrite app_nil_r. destruct ds; [ congruence | ].
  rewrite Hd. reflexivity.
Qed.

Lemma int_str_sign (n : Z) :
  int_str n = sign_str (n <? 0) ++ str_of_chars (digits_of (Z.abs n)).
Proof.
  unfold int_str. destruct (Z.ltb_spec n 0).
  - rewrite Z.abs_neq by lia. reflexivity.
  - rewrite Z.abs_eq by lia. reflexivity.
Qed.

Lemma int_round_trip (n : Z) :
  float_of_str (rstrip (format_value (PyInt n) ++ "°C") "°C")
  = Return (SF2Prim (with_sign (n <? 0) (round_dec (Z.abs n) 0))).
Proof.
  cbn [format_value]. rewrite int_str_sign.
  destruct (digits_of_spec (Z.abs n) (Z.abs_nonneg n)) as (Hv & Hds & Hne).
  set (ds := digits_of (Z.abs n)) in *.
  pose proof (digits_plain ds Hds) as Hpl.
  assert (Hall : Forall (fun c => plain c = true)
                   (chars_of_str (sign_str (n <? 0) ++ str_of_chars ds))).
  { rewrite chars_of_str_app, chars_of_str_of_chars.
    apply Forall_app. split; [ destruct (n <? 0); repeat constructor | exact Hpl ]. }
  rewrite (rstrip_unit _ Hall).
  unfold float_of_str, float_of_chars.
  rewrite (strip_space_plain _ Hall).
  rewrite chars_of_str_app, chars_of_str_of_chars.
  destruct ds as [ | c l] eqn:Eds; [ congruence | ]. rewrite <- Eds in *.
  assert (Hc : is_digit c = true).
  { rewrite Eds in Hds. inversion Hds; assumption. }
  destruct (digit_facts c Hc) as (_ & _ & _ & _ & Hminus & Hplus & _).
  assert (Hsplit : split_sign (chars_of_str (sign_str (n <? 0)) ++ ds)%list
                   = (n <? 0, ds)).
  { destruct (n <? 0); [ reflexivity | ].
    cbn [sign_str chars_of_str list_ascii_of_string app].
    rewrite Eds. cbn [split_sign]. rewrite Hminus, Hplus. reflexivity. }
  rewrite Hsplit. cbv beta iota zeta.
  assert (Hw : forall w, w = "inf" \/ w = "infinity" \/ w = "nan" ->
                 String.eqb (str_of_chars (map lower ds)) w = false).
  { intros w Hw. rewrite Eds. apply word_of_digit; assumption. }
  rewrite !Hw by auto. cbn [orb]. cbv iota.
  rewrite (drop_underscores_plain ds false Hpl).
  rewrite (parse_decimal_digits ds (Z.abs n) Hds Hne Hv).
  reflexivity.
Qed.

(** An integer of at most 53 bits is a binary64 number. *)
Lemma round_dec_exact (a : Z) :
  0 < a <= 2 ^ 53 ->
  exists m e,
    round_dec a 0 = S754_finite false m e
    /\ bounded prec emax m e = true
    /\ bin_num m e = a * bin_den e.
Proof.
  intros Ha.
  unfold round_dec. destruct (Z.eqb_spec a 0) as [ | _]; [ lia | ].
  unfold dec_num, dec_den. cbn [Z.max Z.opp Z.compare].
  change (Z.max 0 0) with 0. change (Z.max (- 0) 0) with 0.
  rewrite Z.pow_0_r, Z.mul_1_r.
  destruct (Z.eq_dec a (2 ^ 53)) as [-> | Hne].
  - exists (Pos.pow 2 52), 1. vm_compute. repeat split.
  - set (L := Z.log2 a).
    assert (HL : 2 ^ L <= a < 2 ^ (L + 1)).
    { pose proof (Z.log2_spec a ltac:(lia)) as H.
      rewrite <- Z.add_1_r in H. exact H. }
    assert (HL0 : 0 <= L) by apply Z.log2_nonneg.
    assert (HL52 : L <= 52).
    { destruct (Z_le_gt_dec L 52) as [ | Hgt]; [ assumption | ].
      assert (2 ^ 53 <= 2 ^ L) by (apply Z.pow_le_mono_r; lia). lia. }
    assert (Hp : 0 < 2 ^ (52 - L)) by (apply Z.pow_pos_nonneg; lia).
    assert (Hm : 2 ^ 52 <= a * 2 ^ (52 - L) < 2 ^ 53).
    { assert (H52 : 2 ^ 52 = 2 ^ L * 2 ^ (52 - L)).
      { rewrite <- Z.pow_add_r by lia. f_equal. lia. }
      assert (H53 : 2 ^ 53 = 2 ^ (L + 1) * 2 ^ (52 - L)).
      { rewrite <- Z.pow_add_r by lia. f_equal. lia. }
      rewrite H52, H53. nia. }
    destruct (a * 2 ^ (52 - L)) as [ | m | ] eqn:Em; try lia.
    exists m, (L - 52).
    assert (Hcan : canonical (Z.pos m) (L - 52 + 1074)) by (left; lia).
    assert (Hval : Z.pos m * 2 ^ (L - 52 + 1074) = a * 2 ^ 1074).
    { rewrite <- Em, <- Z.mul_assoc, <- Z.pow_add_r by lia.
      f_equal. f_equal. lia. }
    assert (HT : 0 < 2 ^ (L - 52 + 1074)) by (apply Z.pow_pos_nonneg; lia).
    repeat split.
    + rewrite (round_pos_interval a 1 (Z.pos m) (L - 52 + 1074)).
      * f_equal. lia.
      * lia.
      * exact Hcan.
      * rewrite Z.shiftl_mul_pow2, Z.mul_1_r, Hval by lia. lia.
      * rewrite Z.shiftl_mul_pow2, Z.mul_1_r, Hval by lia.
        destruct ((Z.pos m =? 2 ^ 52) && (0 <? L - 52 + 1074)); lia.
    + apply canonical_bounded; [ exact Hcan | lia ].
    + rewrite bin_num_eq, bin_den_eq.
      rewrite (Z.max_r (L - 52) 0), (Z.max_l (- (L - 52)) 0) by lia.
      rewrite Z.pow_0_r, Z.mul_1_r, <- Em.
      replace (- (L - 52)) with (52 - L) by lia. reflexivity.
Qed.

Lemma int_round_trip_exact (n : Z) :
  Z.abs n <= 2 ^ 53 ->
  exists y,
    float_of_str (rstrip (format_value (PyInt n) ++ "°C") "°C") = Return y
    /\ float_equals_int y n.
Proof.
  intros Hn. rewrite int_round_trip. eexists. split; [ reflexivity | ].
  unfold float_equals_int.
  destruct (Z.eq_dec n 0) as [-> | Hnz]; [ vm_compute; reflexivity | ].
  destruct (round_dec_exact (Z.abs n) ltac:(lia)) as (m & e & Hr & Hb & Hv).
  rewrite Hr. cbn [with_sign].
  rewrite Prim2SF_SF2Prim by exact Hb.
  rewrite Hv. destruct (Z.ltb_spec n 0).
  - rewrite Z.abs_neq by lia. ring.
  - rewrite Z.abs_eq by lia. ring.
Qed.

(** C9 (amended). A temperature that is a [float] is formatted with its
    unit, stripped of the unit and read back as the same [float] (NaN as NaN,
    the infinities as themselves); one that is an [int] of magnitude at most
    [2 ^ 53] is read back as the [float] equal to it.  Hence the Celsius
    value of the headline is the [air_temperature] of the details block that
    [get_current_weather] formatted. *)
Theorem air_temperature_round_trip :
  (forall x : float,
      float_of_str (rstrip (format_value (PyFloat x) ++ "°C") "°C")
      = Return x)
  /\ (forall n : Z,
         Z.abs n <= 2 ^ 53 ->
         exists y,
           float_of_str (rstrip (format_value (PyInt n) ++ "°C") "°C")
           = Return y
           /\ float_equals_int y n)
  /\ (forall (details : dict scalar) (current_weather : dict string)
             (x : float),
         get_current_weather details = Return current_weather ->
         lookup "air_temperature" details = Some (PyFloat x) ->
         current_temp_C current_weather = Return x)
  /\ (forall (details : dict scalar) (current_weather : dict string)
             (n : Z),
         get_current_weather details = Return current_weather ->
         lookup "air_temperature" details = Some (PyInt n) ->
         Z.abs n <= 2 ^ 53 ->
         exists y,
           current_temp_C current_weather = Return y
           /\ float_equals_int y n).
Proof.
  split; [ exact float_round_trip | ].
  split; [ exact int_round_trip_exact | ].
  split.
  - intros details cw x Hcw Hx.
    destruct (get_current_weather_temperature _ _ Hcw) as (t & Ht & Hget).
    rewrite Hx in Ht. injection Ht as <-.
    unfold current_temp_C. rewrite Hget. cbn [bind].
    apply float_round_trip.
  - intros details cw n Hcw Hx Hn.
    destruct (get_current_weather_temperature _ _ Hcw) as (t & Ht & Hget).
    rewrite Hx in Ht. injection Ht as <-.
    unfold current_temp_C. rewrite Hget. cbn [bind].
    apply int_round_trip_exact. exact Hn.
Qed.

Lemma air_temperature_round_trip_witness :
  (exists y,
      float_of_str (rstrip (format_value (PyInt (-15)) ++ "°C") "°C")
      = Return y
      /\ float_equals_int y (-15))
  /\ current_temp_C
       [("Air pressure", "1013.2hPa"); ("Air temperature", "14.6°C");
        ("Cloud area fraction", "50%"); ("Relative humidity", "80.1%");
        ("Wind direction (from)", "270°"); ("Wind speed", "3.5m/s")]
     = Return 14.6%float.
Proof.
  split.
  - apply (proj1 (proj2 air_temperature_round_trip) (-15)).
    vm_compute. discriminate.
  - apply (proj1 (proj2 (proj2 air_temperature_round_trip))
             [("wind_speed", PyFloat 3.5); ("air_temperature", PyFloat 14.6);
              ("air_pressure_at_sea_level", PyFloat 1013.2);
              ("cloud_area_fraction", PyInt 50);
              ("relative_humidity", PyFloat 80.1);
              ("wind_from_direction", PyStr "270")]);
      vm_compute; reflexivity.
Defined.

Lemma air_temperature_int_beyond_2_53 :
  ~ exists y,
      float_of_str
        (rstrip (format_value (PyInt 9007199254740993) ++ "°C") "°C")
      = Return y
      /\ float_equals_int y 9007199254740993.
Proof.
  intros (y & Hy & Heq). vm_compute in Hy. injection Hy as <-.
  vm_compute in Heq. discriminate Heq.
Qed.

(** * Further properties *)

(** ** Loops that may raise *)

Lemma traverse_first_error {A B : Type} (f : A -> result B)
  (l1 l2 : list A) (a : A) (e : exn) :
  Forall (fun x => exists b, f x = Return b) l1 ->
  f a = Raise e ->
  traverse f (l1 ++ a :: l2) = Raise e.
Proof.
  intros H Ha. induction H as [ | x l1 [b Hb] _ IH]; simpl.
  - rewrite Ha. reflexivity.
  - rewrite Hb, IH. reflexivity.
Qed.

Lemma traverse_raise_inv {A B : Type} (f : A -> result B) (l : list A)
  (e : exn) :
  traverse f l = Raise e ->
  exists l1 a l2,
    l = (l1 ++ a :: l2)%list
    /\ Forall (fun x => exists b, f x = Return b) l1
    /\ f a = Raise e.
Proof.
  induction l as [ | x l IH]; simpl; [ discriminate | ].
  destruct (f x) as [b | e'] eqn:Hx; simpl.
  - destruct (traverse f l) as [bs | e'']; simpl; [ discriminate | ].
    intros [= <-]. destruct (IH eq_refl) as (l1 & a & l2 & -> & Hl1 & Ha).
    exists (x :: l1), a, l2. repeat split; eauto.
  - intros [= <-]. exists [], x, l. repeat split; auto.
Qed.

(** ** The location *)

Lemma getitem_raise_inv {A : Type} (d : dict A) (key : string) (e : exn) :
  getitem d key = Raise e -> lookup key d = None /\ e = KeyError key.
Proof.
  unfold getitem. destruct (lookup key d); [ discriminate | ].
  intros [= <-]. split; reflexivity.
Qed.





Lemma first_missing_exists {A : Type} (keys : list string) (d : dict A)
  (key : string) :
  In key keys -> lookup key d = None ->
  exists key', first_missing keys d key'.
Proof.
  induction keys as [ | k keys IH]; intros Hin Hnone; [ destruct Hin | ].
  destruct (lookup k d) as [v | ] eqn:Hk.
  - destruct Hin as [-> | Hin]; [ congruence | ].
    destruct (IH Hin Hnone) as (key' & before & after & -> & Hb & Hm).
    exists key', (k :: before), after. repeat split; auto.
    constructor; [ congruence | exact Hb ].
  - exists k, [], keys. repeat split; auto.
Qed.

Lemma traverse_getitem_missing {A : Type} (keys : list string) (d : dict A)
  (key : string) :
  first_missing keys d key ->
  traverse (fun k => v <- getitem d k ;; Return (k, v)) keys
  = Raise (KeyError key).
Proof.
  intros (before & after & -> & Hb & Hm).
  apply traverse_first_error.
  - eapply Forall_impl; [ | exact Hb ].
    intros k Hk. unfold getitem. destruct (lookup k d) eqn:E; [ | congruence ].
    simpl. eauto.
  - rewrite (getitem_missing _ _ Hm). reflexivity.
Qed.

(** X2. When the response lacks one of the five fields, [get_location]
    raises the [KeyError] of the first one missing, in the order city,
    country, lat, lon, timezone; it raises nothing else. *)
Theorem get_location_missing_field (location_info : dict scalar) :
  (forall key, In key location_keys -> lookup key location_info = None ->
     exists key', first_missing location_keys location_info key'
                  /\ get_location location_info = Raise (KeyError key'))
  /\ (forall e, get_location location_info = Raise e ->
        exists key, In key location_keys
                    /\ lookup key location_info = None
                    /\ e = KeyError key).
Proof.
  split.
  - intros key Hin Hnone.
    destruct (first_missing_exists _ _ _ Hin Hnone) as [key' Hfirst].
    exists key'. split; [ exact Hfirst | ].
    apply (traverse_getitem_missing location_keys). exact Hfirst.
  - intros e He. unfold get_location in He.
    destruct (traverse_raise_inv _ _ _ He) as (l1 & k & l2 & Hl & _ & Hk).
    exists k. destruct (getitem location_info k) as [v | e'] eqn:Hg;
      [ discriminate | ].
    simpl in Hk. injection Hk as <-.
    destruct (getitem_raise_inv _ _ _ Hg) as [Hnone ->].
    repeat split; [ | exact Hnone ].
    unfold location_keys. rewrite Hl. apply in_elt.
Qed.

Lemma get_location_missing_field_witness :
  get_location
    [("status", PyStr "fail"); ("message", PyStr "invalid query");
     ("query", PyStr "203.0.113.7, 10.1.2.3")]
  = Raise (KeyError "city").
Proof.
  destruct (proj1 (get_location_missing_field
                     [("status", PyStr "fail");
                      ("message", PyStr "invalid query");
                      ("query", PyStr "203.0.113.7, 10.1.2.3")])
              "lat") as (key' & Hfirst & Hraise).
  - simpl; auto.
  - reflexivity.
  - rewrite Hraise. destruct Hfirst as (before & after & Hkeys & Hb & _).
    destruct before as [ | k before].
    + injection Hkeys as <- _. reflexivity.
    + injection Hkeys as <- _. inversion Hb as [ | ? ? Hk _].
      exfalso. apply Hk. reflexivity.
Defined.

(** ** Current conditions: missing fields *)

Ltac first_missing_here before :=
  eexists; split;
  [ exists before; eexists; split; [ reflexivity | split;
      [ repeat constructor; congruence | assumption ] ]
  | reflexivity ].

(** X3. [get_current_weather] returns exactly when the block has the six
    fields it reads.  When one is missing it raises the [KeyError] of the
    first one missing, in the order in which it reads them, and it raises
    nothing else; fields other than the six do not matter. *)
Theorem get_current_weather_missing_field (details : dict scalar) :
  (forall key, In key details_keys -> lookup key details = None ->
     exists key', first_missing details_keys details key'
                  /\ get_current_weather details = Raise (KeyError key'))
  /\ (forall e, get_current_weather details = Raise e ->
        exists key, In key details_keys /\ lookup key details = None
                    /\ e = KeyError key)
  /\ (forall details' : dict scalar,
        (forall key, In key details_keys ->
           lookup key details' = lookup key details) ->
        get_current_weather details' = get_current_weather details).
Proof.
  split; [ | split ].
  - intros key Hin Hnone. unfold get_current_weather, getitem.
    destruct (lookup "air_pressure_at_sea_level" details) eqn:H1;
      [ | cbn [bind]; first_missing_here (@nil string) ].
    destruct (lookup "air_temperature" details) eqn:H2;
      [ | cbn [bind]; first_missing_here ["air_pressure_at_sea_level"] ].
    destruct (lookup "cloud_area_fraction" details) eqn:H3;
      [ | cbn [bind];
          first_missing_here ["air_pressure_at_sea_level"; "air_temperature"] ].
    destruct (lookup "relative_humidity" details) eqn:H4;
      [ | cbn [bind];
          first_missing_here ["air_pressure_at_sea_level"; "air_temperature";
                              "cloud_area_fraction"] ].
    destruct (lookup "wind_from_direction" details) eqn:H5;
      [ | cbn [bind];
          first_missing_here ["air_pressure_at_sea_level"; "air_temperature";
                              "cloud_area_fraction"; "relative_humidity"] ].
    destruct (lookup "wind_speed" details) eqn:H6;
      [ | cbn [bind];
          first_missing_here ["air_pressure_at_sea_level"; "air_temperature";
                              "cloud_area_fraction"; "relative_humidity";
                              "wind_from_direction"] ].
    exfalso. simpl in Hin.
    destruct Hin as [<- | [<- | [<- | [<- | [<- | [<- | []]]]]]]; congruence.
  - intros e. unfold get_current_weather, getitem.
    destruct (lookup "air_pressure_at_sea_level" details) eqn:H1; cbn [bind];
      [ | intros [= <-]; eexists; repeat split; [ | eassumption ];
          simpl; auto ].
    destruct (lookup "air_temperature" details) eqn:H2; cbn [bind];
      [ | intros [= <-]; eexists; repeat split; [ | eassumption ];
          simpl; auto ].
    destruct (lookup "cloud_area_fraction" details) eqn:H3; cbn [bind];
      [ | intros [= <-]; eexists; repeat split; [ | eassumption ];
          simpl; auto ].
    destruct (lookup "relative_humidity" details) eqn:H4; cbn [bind];
      [ | intros [= <-]; eexists; repeat split; [ | eassumption ];
          simpl; auto ].
    destruct (lookup "wind_from_direction" details) eqn:H5; cbn [bind];
      [ | intros [= <-]; eexists; repeat split; [ | eassumption ];
          simpl; auto 10 ].
    destruct (lookup "wind_speed" details) eqn:H6; cbn [bind];
      [ | intros [= <-]; eexists; repeat split; [ | eassumption ];
          simpl; auto 10 ].
    discriminate.
  - intros details' Hsame. unfold get_current_weather, getitem.
    rewrite !Hsame by (simpl; auto 10). reflexivity.
Qed.

Lemma get_current_weather_missing_field_witness :
  exists key',
    first_missing details_keys
      [("air_temperature", PyFloat 14.6); ("wind_speed", PyFloat 3.5);
       ("air_pressure_at_sea_level", PyFloat 1013.2)] key'
    /\ get_current_weather
         [("air_temperature", PyFloat 14.6); ("wind_speed", PyFloat 3.5);
          ("air_pressure_at_sea_level", PyFloat 1013.2)]
       = Raise (KeyError key').
Proof.
  apply (proj1 (get_current_weather_missing_field
                  [("air_temperature", PyFloat 14.6);
                   ("wind_speed", PyFloat 3.5);
                   ("air_pressure_at_sea_level", PyFloat 1013.2)])
           "relative_humidity").
  - simpl; auto.
  - reflexivity.
Defined.

(** ** Icons: what is returned and what is raised *)

Lemma subscript_lookup_error (v : json) (key : string) (e : exn) :
  subscript v key = Raise e -> lookup_error e.
Proof.
  unfold lookup_error.
  destruct v as [[ | | | | ] | | d]; simpl; try (intros [= <-]; eauto).
  unfold getitem. destruct (lookup key d); intros [= <-]; eauto.
Qed.

Lemma window_code_lookup_error (icon_info : json) (window : string)
  (e : exn) :
  window_code icon_info window = Raise e -> lookup_error e.
Proof.
  unfold window_code.
  destruct (subscript icon_info window) as [v | ] eqn:H1; cbn [bind];
    [ | intros [= <-]; eapply subscript_lookup_error; eassumption ].
  destruct (subscript v "summary") as [s | ] eqn:H2; cbn [bind];
    [ | intros [= <-]; eapply subscript_lookup_error; eassumption ].
  apply subscript_lookup_error.
Qed.

Lemma get_weather_icons_codes (icon_info : json) :
  get_weather_icons icon_info
  = (c1 <- window_code icon_info "next_1_hours" ;;
     c6 <- window_code icon_info "next_6_hours" ;;
     c12 <- window_code icon_info "next_12_hours" ;;
     Return [("1h", c1); ("6h", c6); ("12h", c12)]).
Proof.
  rewrite get_weather_icons_steps. unfold window_code.
  destruct (subscript icon_info "next_1_hours") as [w1 | ]; cbn [bind];
    [ | reflexivity ].
  destruct (subscript w1 "summary") as [s1 | ]; cbn [bind]; [ | reflexivity ].
  destruct (subscript s1 "symbol_code") as [c1 | ]; cbn [bind];
    [ | reflexivity ].
  destruct (subscript icon_info "next_6_hours") as [w6 | ]; cbn [bind];
    [ | reflexivity ].
  destruct (subscript w6 "summary") as [s6 | ]; cbn [bind]; [ | reflexivity ].
  destruct (subscript s6 "symbol_code") as [c6 | ]; cbn [bind];
    [ | reflexivity ].
  destruct (subscript icon_info "next_12_hours") as [w12 | ]; cbn [bind];
    [ | reflexivity ].
  destruct (subscript w12 "summary") as [s12 | ]; cbn [bind];
    [ | reflexivity ].
  destruct (subscript s12 "symbol_code") as [c12 | ]; reflexivity.
Qed.

Lemma get_weather_icons_lookup_error (icon_info : json) (e : exn) :
  get_weather_icons icon_info = Raise e -> lookup_error e.
Proof.
  rewrite get_weather_icons_codes. intros He.
  destruct (window_code icon_info "next_1_hours") as [c1 | ] eqn:H1;
    cbn [bind] in He;
    [ | injection He as <-; eapply window_code_lookup_error; eassumption ].
  destruct (window_code icon_info "next_6_hours") as [c6 | ] eqn:H6;
    cbn [bind] in He;
    [ | injection He as <-; eapply window_code_lookup_error; eassumption ].
  destruct (window_code icon_info "next_12_hours") as [c12 | ] eqn:H12;
    cbn [bind] in He;
    [ discriminate
    | injection He as <-; eapply window_code_lookup_error; eassumption ].
Qed.

(** X4. Whatever [get_weather_icons] returns has the three keys 1h, 6h and
    12h, in that order, each with the symbol code of its window.  Whatever it
    raises is a [KeyError] or a [TypeError]; the windows are read in the
    order 1, 6, 12, so the error of an earlier window hides those of the
    later ones, and a value that is not a dict raises [TypeError]. *)
Theorem get_weather_icons_result (icon_info : json) :
  (forall icons, get_weather_icons icon_info = Return icons ->
     exists c1 c6 c12,
       icons = [("1h", c1); ("6h", c6); ("12h", c12)]
       /\ window_code icon_info "next_1_hours" = Return c1
       /\ window_code icon_info "next_6_hours" = Return c6
       /\ window_code icon_info "next_12_hours" = Return c12)
  /\ (forall e, get_weather_icons icon_info = Raise e -> lookup_error e)
  /\ (forall e, window_code icon_info "next_1_hours" = Raise e ->
        get_weather_icons icon_info = Raise e)
  /\ (forall c1 e, window_code icon_info "next_1_hours" = Return c1 ->
        window_code icon_info "next_6_hours" = Raise e ->
        get_weather_icons icon_info = Raise e)
  /\ (match icon_info with
      | JDict _ => True
      | _ => exists msg, get_weather_icons icon_info = Raise (TypeError msg)
      end).
Proof.
  rewrite get_weather_icons_codes.
  split; [ | split; [ | split; [ | split ] ] ].
  - intros icons.
    destruct (window_code icon_info "next_1_hours") as [c1 | ]; cbn [bind];
      [ | discriminate ].
    destruct (window_code icon_info "next_6_hours") as [c6 | ]; cbn [bind];
      [ | discriminate ].
    destruct (window_code icon_info "next_12_hours") as [c12 | ]; cbn [bind];
      [ | discriminate ].
    intros [= <-]. exists c1, c6, c12. repeat split.
  - intros e He. rewrite <- get_weather_icons_codes in He.
    eapply get_weather_icons_lookup_error; eassumption.
  - intros e ->. reflexivity.
  - intros c1 e -> ->. reflexivity.
  - destruct icon_info as [[ | | | | ] | | d]; try exact I; eexists;
      reflexivity.
Qed.

Lemma get_weather_icons_result_witness :
  get_weather_icons
    (JDict [("next_6_hours",
             JDict [("summary",
                     JDict [("symbol_code", JLeaf (PyStr "rain"))])]);
            ("next_1_hours", JDict [("summary", JLeaf PyNone)])])
  = Raise (TypeError "object is not subscriptable").
Proof.
  apply (proj1 (proj2 (proj2 (get_weather_icons_result _)))).
  reflexivity.
Defined.

(** ** The temperature series: zones and errors *)

Lemma traverse_app {A B : Type} (f : A -> result B) (l1 l2 : list A) :
  traverse f (l1 ++ l2)
  = (b1 <- traverse f l1 ;; b2 <- traverse f l2 ;; Return (b1 ++ b2)%list).
Proof.
  induction l1 as [ | a l1 IH]; simpl.
  - destruct (traverse f l2); reflexivity.
  - destruct (f a); simpl; [ | reflexivity ].
    rewrite IH. destruct (traverse f l1); simpl; [ | reflexivity ].
    destruct (traverse f l2); reflexivity.
Qed.

(** X5. The requested zone only labels the index: when a series is returned
    for one zone, one is returned for every other zone that the database
    knows, with the same instants and the same values. *)
Theorem get_temperature_time_series_zone (held : series_dtype)
  (parse : datetime_parser) (db : tz_database) (weather_info : list json)
  (tz1 tz2 : string) (series1 : Series json) :
  get_temperature_time_series held parse db weather_info tz1
  = Return series1 ->
  db tz2 <> None ->
  exists series2,
    get_temperature_time_series held parse db weather_info tz2
    = Return series2
    /\ stamps (index series2) = stamps (index series1)
    /\ values series2 = values series1
    /\ zone (index series2) = tz2.
Proof.
  unfold get_temperature_time_series.
  destruct (traverse _ weather_info) as [time_info | ]; cbn [bind];
    [ | discriminate ].
  destruct (traverse instant_air_temperature weather_info)
    as [temp_info | ]; cbn [bind]; [ | discriminate ].
  destruct (to_datetime parse time_info) as [idx | ]; cbn [bind];
    [ | discriminate ].
  unfold tz_convert.
  destruct (db tz1); [ | discriminate ].
  destruct (zone idx); [ | discriminate ].
  cbn [bind]. intros [= <-] Hdb.
  destruct (db tz2); [ | congruence ].
  cbn [bind]. eexists. repeat split.
Qed.

Lemma get_temperature_time_series_zone_witness :
  exists series2,
    get_temperature_time_series held_as_given iso8601
      (fun name => if String.eqb name "Africa/Nairobi"
                   then Some (fun _ => 3 * hour_ns) else utc_only name)
      [forecast_entry "2021-05-01T12:00:00Z" (PyFloat 14.6);
       forecast_entry "2021-05-01T13:00:00Z" (PyFloat 15.1)] "Africa/Nairobi"
    = Return series2
    /\ stamps (index series2) = [1619870400000000000; 1619874000000000000]
    /\ values series2 = [JLeaf (PyFloat 14.6); JLeaf (PyFloat 15.1)]
    /\ zone (index series2) = "Africa/Nairobi".
Proof.
  apply (get_temperature_time_series_zone held_as_given iso8601 _ _ "UTC"
           "Africa/Nairobi"
           {| index := {| stamps := [1619870400000000000; 1619874000000000000];
                          zone := "UTC" |};
              values := [JLeaf (PyFloat 14.6); JLeaf (PyFloat 15.1)] |}).
  - vm_compute. reflexivity.
  - vm_compute. discriminate.
Defined.

(** X6. The entries are read in two passes, first every time label, then
    every temperature, and only then are the labels parsed.  So the first
    entry without a time label decides the error, whatever the other entries
    hold; with all labels there, the first entry without a temperature
    decides it; and with all entries complete, a label that the parser
    rejects raises [ValueError]. *)
Theorem get_temperature_time_series_errors (held : series_dtype)
  (parse : datetime_parser) (db : tz_database) (before after : list json)
  (entry : json) (timezone : string) :
  (forall e,
      Forall has_time before ->
      subscript entry "time" = Raise e ->
      get_temperature_time_series held parse db (before ++ entry :: after)
        timezone
      = Raise e)
  /\ (forall e,
        Forall has_time (before ++ entry :: after) ->
        Forall has_temperature before ->
        instant_air_temperature entry = Raise e ->
        get_temperature_time_series held parse db (before ++ entry :: after)
          timezone
        = Raise e)
  /\ (forall label,
        Forall has_time (before ++ entry :: after) ->
        Forall has_temperature (before ++ entry :: after) ->
        Forall (fun x => forall l, subscript x "time" = Return l ->
                                   parse l <> None) before ->
        subscript entry "time" = Return label ->
        parse label = None ->
        exists msg,
          get_temperature_time_series held parse db
            (before ++ entry :: after) timezone
          = Raise (ValueError msg)).
Proof.
  split; [ | split ].
  - intros e Hb He. unfold get_temperature_time_series.
    rewrite (traverse_first_error _ before after entry e Hb He).
    reflexivity.
  - intros e Hall Hb He. unfold get_temperature_time_series.
    destruct (traverse_total _ _ Hall) as [time_info ->]. cbn [bind].
    rewrite (traverse_first_error _ before after entry e Hb He).
    reflexivity.
  - intros label Htime Htemp Hparse Hlabel Hnone.
    unfold get_temperature_time_series.
    destruct (traverse_total _ _ Htemp) as [temp_info ->].
    rewrite traverse_app. cbn [traverse].
    apply Forall_app in Htime. destruct Htime as [Hb Hrest].
    inversion Hrest as [ | ? ? _ Ha]; subst.
    destruct (traverse_total _ _ Hb) as [labels1 Hl1].
    destruct (traverse_total _ _ Ha) as [labels2 Hl2].
    rewrite Hl1, Hlabel, Hl2. cbn [bind].
    unfold to_datetime. rewrite traverse_app. cbn [traverse].
    assert (Hp1 : Forall (fun l => exists p, parse_label parse l = Return p)
                    labels1).
    { eapply traverse_Forall; [ | exact Hl1 ].
      eapply Forall_impl; [ | exact Hparse ].
      intros x Hx l Hxl. unfold parse_label.
      specialize (Hx l Hxl). destruct (parse l); [ eauto | congruence ]. }
    destruct (traverse_total _ _ Hp1) as [ps1 ->]. cbn [bind].
    unfold parse_label at 1. rewrite Hnone. eexists. reflexivity.
Qed.

Lemma get_temperature_time_series_errors_witness :
  get_temperature_time_series held_as_given iso8601 utc_only
    [forecast_entry "2021-05-01T12:00:00Z" (PyFloat 14.6);
     JDict [("time", JLeaf (PyStr "2021-05-01T13:00:00Z"));
            ("data", JDict [("instant", JDict [])])];
     JDict [("data", JLeaf PyNone)]] "UTC"
  = Raise (KeyError "time").
Proof.
  apply (proj1 (get_temperature_time_series_errors held_as_given iso8601
                  utc_only
                  [forecast_entry "2021-05-01T12:00:00Z" (PyFloat 14.6);
                   JDict [("time", JLeaf (PyStr "2021-05-01T13:00:00Z"));
                          ("data", JDict [("instant", JDict [])])]]
                  [] (JDict [("data", JLeaf PyNone)]) "UTC")).
  - repeat constructor; eexists; reflexivity.
  - reflexivity.
Defined.

(** ** The weather information *)

Lemma get_current_weather_json_lookup_error (container_str : json -> string)
  (details : json) (e : exn) :
  get_current_weather_json container_str details = Raise e -> lookup_error e.
Proof.
  unfold get_current_weather_json.
  repeat match goal with
    | |- context [bind (subscript ?v ?k) _] =>
        let E := fresh "E" in
        destruct (subscript v k) eqn:E; cbn [bind];
        [ | intros [= <-]; eapply subscript_lookup_error; eassumption ]
    end.
  discriminate.
Qed.

Lemma get_current_weather_json_temperature
  (container_str : json -> string) (details : json)
  (current : dict string) :
  get_current_weather_json container_str details = Return current ->
  exists temp,
    subscript details "air_temperature" = Return temp
    /\ getitem current "Air temperature"
       = Return (format_json container_str temp ++ "°C").
Proof.
  unfold get_current_weather_json.
  destruct (subscript details "air_pressure_at_sea_level"); cbn [bind];
    [ | discriminate ].
  destruct (subscript details "air_temperature") as [temp | ]; cbn [bind];
    [ | discriminate ].
  destruct (subscript details "cloud_area_fraction"); cbn [bind];
    [ | discriminate ].
  destruct (subscript details "relative_humidity"); cbn [bind];
    [ | discriminate ].
  destruct (subscript details "wind_from_direction"); cbn [bind];
    [ | discriminate ].
  destruct (subscript details "wind_speed"); cbn [bind]; [ | discriminate ].
  intros [= <-]. exists temp. split; reflexivity.
Qed.

(** X9. [get_weather_info] reads [raw_data[0]] before anything else: for
    the empty time series it raises [IndexError], whatever the zone.  For a
    time series that is not empty, reading the current conditions and the
    icons of its first entry raises nothing but a [KeyError] or a
    [TypeError]; any other error of [get_weather_info] is the error of
    [get_temperature_time_series] on the same time series and zone. *)
Theorem get_weather_info_first_entry (held : series_dtype)
  (container_str : json -> string) (parse : datetime_parser)
  (db : tz_database) (raw_data : list json) (timezone : string) :
  (raw_data = [] ->
   get_weather_info held container_str parse db raw_data timezone
   = Raise IndexError)
  /\ (forall e,
         raw_data <> [] ->
         get_weather_info held container_str parse db raw_data timezone
         = Raise e ->
         lookup_error e
         \/ get_temperature_time_series held parse db raw_data timezone
            = Raise e).
Proof.
  split; [ intros ->; reflexivity | ].
  intros e Hne. destruct raw_data as [ | first rest]; [ congruence | ].
  unfold get_weather_info. cbn [first_entry bind].
  destruct (subscript first "data") as [data | ] eqn:E1; cbn [bind];
    [ | intros [= <-]; left; eapply subscript_lookup_error; eassumption ].
  destruct (subscript data "instant") as [instant | ] eqn:E2; cbn [bind];
    [ | intros [= <-]; left; eapply subscript_lookup_error; eassumption ].
  destruct (subscript instant "details") as [details | ] eqn:E3; cbn [bind];
    [ | intros [= <-]; left; eapply subscript_lookup_error; eassumption ].
  destruct (get_current_weather_json container_str details) eqn:E4;
    cbn [bind];
    [ | intros [= <-]; left;
        eapply get_current_weather_json_lookup_error; eassumption ].
  destruct (get_weather_icons data) eqn:E5; cbn [bind];
    [ | intros [= <-]; left;
        eapply get_weather_icons_lookup_error; eassumption ].
  destruct (get_temperature_time_series held parse db (first :: rest)
              timezone) eqn:E6; cbn [bind]; [ discriminate | ].
  intros [= <-]. right. reflexivity.
Qed.

Lemma get_weather_info_first_entry_witness :
  get_weather_info held_as_given (fun _ => "") iso8601 utc_only [] "UTC"
  = Raise IndexError.
Proof.
  apply (proj1 (get_weather_info_first_entry held_as_given (fun _ => "")
                  iso8601 utc_only [] "UTC")).
  reflexivity.
Defined.

Lemma traverse_cons_inv {A B : Type} (f : A -> result B) (a : A)
  (l : list A) (bs : list B) :
  traverse f (a :: l) = Return bs ->
  exists b bs', f a = Return b /\ traverse f l = Return bs' /\ bs = b :: bs'.
Proof.
  cbn [traverse]. destruct (f a) as [b | ]; cbn [bind]; [ | discriminate ].
  destruct (traverse f l) as [bs' | ]; cbn [bind]; [ | discriminate ].
  intros [= <-]. eauto.
Qed.

Lemma get_temperature_time_series_values (held : series_dtype)
  (parse : datetime_parser) (db : tz_database) (weather_info : list json)
  (timezone : string) (series : Series json) :
  get_temperature_time_series held parse db weather_info timezone
  = Return series ->
  exists readings,
    traverse instant_air_temperature weather_info = Return readings
    /\ values series = map (held readings) readings.
Proof.
  unfold get_temperature_time_series.
  destruct (traverse _ weather_info); cbn [bind]; [ | discriminate ].
  destruct (traverse instant_air_temperature weather_info) as [readings | ];
    cbn [bind]; [ | discriminate ].
  destruct (to_datetime parse _); cbn [bind]; [ | discriminate ].
  destruct (tz_convert db _ timezone); cbn [bind]; [ | discriminate ].
  intros [= <-]. exists readings. split; reflexivity.
Qed.

(** X10. In what [get_weather_info] returns, the air temperature of the
    current conditions is the reading of the first entry, formatted and
    followed by its unit, and the first value of the temperature series is
    what the series holds for that same reading; the series has one value
    for each entry of the response.  When the reading is a [float], which
    the series holds as it is, the temperature that
    [process_weather_forecast] reads back from the text is the first value
    of the series. *)
Theorem get_weather_info_consistent (held : series_dtype)
  (container_str : json -> string) (parse : datetime_parser)
  (db : tz_database) (raw_data : list json) (timezone : string)
  (info : weather_info) :
  get_weather_info held container_str parse db raw_data timezone
  = Return info ->
  exists temp temps,
    traverse instant_air_temperature raw_data = Return (temp :: temps)
    /\ values (temp_time_series info)
       = map (held (temp :: temps)) (temp :: temps)
    /\ List.length (values (temp_time_series info)) = List.length raw_data
    /\ getitem (current_weather info) "Air temperature"
       = Return (format_json container_str temp ++ "°C")
    /\ (keeps_floats held ->
        forall x : float,
          temp = JLeaf (PyFloat x) ->
          hd_error (values (temp_time_series info)) = Some (JLeaf (PyFloat x))
          /\ current_temp_C (current_weather info) = Return x).
Proof.
  unfold get_weather_info.
  destruct raw_data as [ | first rest]; [ discriminate | ].
  cbn [first_entry bind].
  destruct (subscript first "data") as [data | ] eqn:E1; cbn [bind];
    [ | discriminate ].
  destruct (subscript data "instant") as [instant | ] eqn:E2; cbn [bind];
    [ | discriminate ].
  destruct (subscript instant "details") as [details | ] eqn:E3; cbn [bind];
    [ | discriminate ].
  destruct (get_current_weather_json container_str details)
    as [current | ] eqn:E4; cbn [bind]; [ | discriminate ].
  destruct (get_weather_icons data) as [icons | ]; cbn [bind];
    [ | discriminate ].
  destruct (get_temperature_time_series held parse db (first :: rest)
              timezone) as [series | ] eqn:E6; cbn [bind]; [ | discriminate ].
  intros [= <-]. cbn [temp_time_series current_weather].
  destruct (get_temperature_time_series_values _ _ _ _ _ _ E6)
    as (readings & Hr & Hv).
  pose proof (traverse_length _ _ _ Hr) as Hlen.
  destruct (traverse_cons_inv _ _ _ _ Hr) as (temp & temps & Ht & _ & ->).
  destruct (get_current_weather_json_temperature _ _ _ E4)
    as (temp' & Ht' & Hget).
  assert (temp' = temp).
  { unfold instant_air_temperature in Ht.
    rewrite E1 in Ht; cbn [bind] in Ht. rewrite E2 in Ht; cbn [bind] in Ht.
    rewrite E3 in Ht; cbn [bind] in Ht. congruence. }
  subst temp'.
  exists temp, temps. split; [ exact Hr | ]. split; [ exact Hv | ].
  split; [ rewrite Hv, length_map; exact Hlen | ].
  split; [ exact Hget | ].
  intros Hk x ->. split.
  - rewrite Hv. cbn [map hd_error]. rewrite Hk. reflexivity.
  - unfold current_temp_C. rewrite Hget. cbn [bind format_json].
    apply float_round_trip.
Qed.

Lemma get_weather_info_consistent_witness :
  exists temp temps,
    traverse instant_air_temperature
      [forecast_hour "2021-05-01T13:00:00Z" (PyFloat 14.6);
       forecast_hour "2021-05-01T14:00:00Z" (PyFloat 15.1)]
    = Return (temp :: temps)
    /\ getitem
         [("Air pressure", "1013.2hPa"); ("Air temperature", "14.6°C");
          ("Cloud area fraction", "50%"); ("Relative humidity", "80.1%");
          ("Wind direction (from)", "270.0°"); ("Wind speed", "3.5m/s")]
         "Air temperature"
       = Return (format_json (fun _ => "") temp ++ "°C").
Proof.
  destruct (get_weather_info_consistent held_as_given (fun _ => "") iso8601
              utc_only
              [forecast_hour "2021-05-01T13:00:00Z" (PyFloat 14.6);
               forecast_hour "2021-05-01T14:00:00Z" (PyFloat 15.1)] "UTC"
              {| current_weather :=
                   [("Air pressure", "1013.2hPa");
                    ("Air temperature", "14.6°C");
                    ("Cloud area fraction", "50%");
                    ("Relative humidity", "80.1%");
                    ("Wind direction (from)", "270.0°");
                    ("Wind speed", "3.5m/s")];
                 weather_icons :=
                   [("1h", JLeaf (PyStr "cloudy"));
                    ("6h", JLeaf (PyStr "rain"));
                    ("12h", JLeaf (PyStr "fair_day"))];
                 temp_time_series :=
                   {| index := {| stamps := [1619874000000000000;
                                             1619877600000000000];
                                  zone := "UTC" |};
                      values := [JLeaf (PyFloat 14.6);
                                 JLeaf (PyFloat 15.1)] |} |})
    as (temp & temps & Hr & _ & _ & Hget & _).
  - vm_compute. reflexivity.
  - exists temp, temps. split; [ exact Hr | exact Hget ].
Defined.

(** ** An [int] temperature in the headline *)

Lemma rne_div_exact (a q : Z) : 0 < q -> rne_div (a * q) q = a.
Proof.
  intros Hq. apply rne_div_unique; [ exact Hq | ].
  replace (2 * (a * q) - 2 * a * q) with 0 by ring. simpl. exact Hq.
Qed.

Lemma int_to_float_small (n : Z) :
  Z.abs n <= 2 ^ 53 ->
  int_to_float n
  = Return (SF2Prim (with_sign (n <? 0) (round_dec (Z.abs n) 0)))
  /\ format_0f (SF2Prim (with_sign (n <? 0) (round_dec (Z.abs n) 0)))
     = int_str n.
Proof.
  intros Hn.
  destruct (Z.eq_dec n 0) as [-> | Hnz]; [ split; vm_compute; reflexivity | ].
  destruct (round_dec_exact (Z.abs n) ltac:(lia)) as (m & e & Hr & Hb & Hv).
  unfold int_to_float. rewrite Hr. cbn [with_sign]. split; [ reflexivity | ].
  unfold format_0f. rewrite Prim2SF_SF2Prim by exact Hb.
  rewrite int_str_sign. f_equal. f_equal. f_equal.
  rewrite bin_num_eq, bin_den_eq in Hv.
  destruct (Z.leb_spec 0 e) as [He | He].
  - rewrite Z.max_l in Hv by lia. rewrite (Z.max_r (- e) 0) in Hv by lia.
    rewrite Z.pow_0_r, Z.mul_1_r in Hv. exact Hv.
  - rewrite (Z.max_r e 0) in Hv by lia. rewrite Z.max_l in Hv by lia.
    rewrite Z.pow_0_r, Z.mul_1_r in Hv. rewrite Hv.
    apply rne_div_exact. apply Z.pow_pos_nonneg; lia.
Qed.

(** X11. When the air temperature of the details block is an [int] of
    magnitude at most [2 ^ 53], the headline shows that integer itself as
    the Celsius value, and its Fahrenheit value is the one that
    [convert_to_fahr] gives for the integer. *)
Theorem headline_int_temperature (location_info details : dict scalar)
  (current_weather : dict string) (n : Z)
  (city country lat lon timezone : scalar) :
  lookup "air_temperature" details = Some (PyInt n) ->
  Z.abs n <= 2 ^ 53 ->
  get_current_weather details = Return current_weather ->
  lookup "city" location_info = Some city ->
  lookup "country" location_info = Some country ->
  lookup "lat" location_info = Some lat ->
  lookup "lon" location_info = Some lon ->
  lookup "timezone" location_info = Some timezone ->
  exists temp_F,
    convert_to_fahr (Int n) = Return temp_F
    /\ process_weather_forecast location_info current_weather
       = Return ("It's " ++ int_str n ++ "°C (" ++ format_0f temp_F
                 ++ "°F) in " ++ format_value city ++ ", "
                 ++ format_value country ++ " right now.").
Proof.
  intros Ht Hn Hcw H1 H2 H3 H4 H5.
  destruct (get_current_weather_temperature _ _ Hcw) as (t & Ht' & Hget).
  rewrite Ht in Ht'. injection Ht' as <-.
  destruct (int_to_float_small n Hn) as [Hf Htext].
  set (y := SF2Prim (with_sign (n <? 0) (round_dec (Z.abs n) 0))) in *.
  exists (9 / 5 * y + 32)%float. split.
  - unfold convert_to_fahr, as_float. rewrite Hf. reflexivity.
  - unfold process_weather_forecast.
    rewrite (get_location_fields _ _ _ _ _ _ H1 H2 H3 H4 H5).
    unfold current_temp_C. rewrite Hget. cbn [bind].
    rewrite int_round_trip. fold y. cbn [bind].
    unfold convert_to_fahr, as_float. cbn [bind].
    unfold getitem. cbn [bind lookup].
    change (String.eqb "city" "city") with true.
    change (String.eqb "city" "country") with false.
    change (String.eqb "country" "country") with true.
    cbn iota beta. cbn [bind]. unfold headline. rewrite Htext. reflexivity.
Qed.

Lemma headline_int_temperature_witness :
  exists temp_F,
    convert_to_fahr (Int (-7)) = Return temp_F
    /\ process_weather_forecast
         [("city", PyStr "Oslo"); ("country", PyStr "Norway");
          ("lat", PyFloat 59.91); ("lon", PyFloat 10.75);
          ("timezone", PyStr "Europe/Oslo")]
         [("Air pressure", "1013hPa"); ("Air temperature", "-7°C");
          ("Cloud area fraction", "50%"); ("Relative humidity", "80%");
          ("Wind direction (from)", "270°"); ("Wind speed", "3m/s")]
       = Return ("It's " ++ int_str (-7) ++ "°C (" ++ format_0f temp_F
                 ++ "°F) in " ++ format_value (PyStr "Oslo") ++ ", "
                 ++ format_value (PyStr "Norway") ++ " right now.").
Proof.
  apply (headline_int_temperature
           [("city", PyStr "Oslo"); ("country", PyStr "Norway");
            ("lat", PyFloat 59.91); ("lon", PyFloat 10.75);
            ("timezone", PyStr "Europe/Oslo")]
           [("air_pressure_at_sea_level", PyInt 1013);
            ("air_temperature", PyInt (-7));
            ("cloud_area_fraction", PyInt 50);
            ("relative_humidity", PyInt 80);
            ("wind_from_direction", PyInt 270); ("wind_speed", PyInt 3)]
           _ (-7) (PyStr "Oslo") (PyStr "Norway") (PyFloat 59.91)
           (PyFloat 10.75) (PyStr "Europe/Oslo"));
    try (vm_compute; reflexivity).
  vm_compute. discriminate.
Defined.

(** ** [rstrip] takes a set of characters *)

Lemma drop_any_unit_shorter (l r : list ascii) :
  drop_any unit_chars l = Some r -> (List.length r < List.length l)%nat.
Proof.
  unfold unit_chars. cbn [drop_any drop_prefix].
  destruct l as [ | a l]; [ discriminate | ].
  destruct (Ascii.eqb "176" a).
  - destruct l as [ | b l].
    + destruct (Ascii.eqb "C" a); [ intros [= <-]; simpl; lia | discriminate ].
    + destruct (Ascii.eqb "194" b); [ intros [= <-]; simpl; lia | ].
      destruct (Ascii.eqb "C" a); [ intros [= <-]; simpl; lia | discriminate ].
  - destruct (Ascii.eqb "C" a); [ intros [= <-]; simpl; lia | discriminate ].
Qed.

Lemma lstrip_any_fuel (f1 f2 : nat) (l : list ascii) :
  (List.length l <= f1)%nat -> (List.length l <= f2)%nat ->
  lstrip_any f1 unit_chars l = lstrip_any f2 unit_chars l.
Proof.
  revert f2 l. induction f1 as [ | f1 IH]; intros f2 l H1 H2.
  - destruct l; [ | simpl in H1; lia ]. destruct f2; reflexivity.
  - destruct f2 as [ | f2].
    + destruct l; [ reflexivity | simpl in H2; lia ].
    + cbn [lstrip_any].
      destruct (drop_any unit_chars l) as [r | ] eqn:E; [ | reflexivity ].
      pose proof (drop_any_unit_shorter _ _ E).
      apply IH; lia.
Qed.

Lemma lstrip_any_unit_run (u : list bool) (fuel : nat) (r : list ascii) :
  lstrip_any (List.length u + fuel) unit_chars
    (rev (chars_of_str (unit_run u)) ++ r)%list
  = lstrip_any fuel unit_chars r.
Proof.
  revert fuel r. induction u as [ | b u IH]; intros fuel r; [ reflexivity | ].
  cbn [unit_run]. rewrite chars_of_str_app, rev_app_distr, <- app_assoc.
  cbn [List.length]. replace (S (List.length u) + fuel)%nat
    with (List.length u + S fuel)%nat by lia.
  rewrite IH. apply lstrip_any_step. destruct b; reflexivity.
Qed.

Lemma unit_run_length (u : list bool) :
  (List.length u <= List.length (chars_of_str (unit_run u)))%nat.
Proof.
  induction u as [ | b u IH]; [ simpl; lia | ].
  cbn [unit_run]. rewrite chars_of_str_app, length_app.
  destruct b; simpl in *; lia.
Qed.

Lemma rstrip_unit_run (s : string) (u : list bool) :
  rstrip (s ++ unit_run u) "°C" = rstrip s "°C".
Proof.
  unfold rstrip.
  change (map (@rev ascii) (code_points (chars_of_str "°C")))
    with unit_chars.
  rewrite chars_of_str_app, rev_app_distr, length_app.
  pose proof (unit_run_length u) as Hu.
  replace (List.length (chars_of_str s)
           + List.length (chars_of_str (unit_run u)))%nat
    with (List.length u
          + (List.length (chars_of_str s)
             + (List.length (chars_of_str (unit_run u)) - List.length u)))%nat
    by lia.
  rewrite lstrip_any_unit_run.
  rewrite (lstrip_any_fuel _ (List.length (chars_of_str s)));
    [ reflexivity | rewrite length_rev; lia | rewrite length_rev; lia ].
Qed.

(** X12. [rstrip("°C")] takes away every trailing [°] and [C], in any order
    and number, and not one unit suffix: a [float] temperature followed by
    any run of these characters is read back as the same [float]. *)
Theorem current_temp_C_unit_run :
  (forall (s : string) (u : list bool),
      rstrip (s ++ unit_run u) "°C" = rstrip s "°C")
  /\ (forall (x : float) (u : list bool),
         float_of_str (rstrip (format_value (PyFloat x) ++ unit_run u) "°C")
         = Return x)
  /\ (forall (current_weather : dict string) (x : float) (u : list bool),
         lookup "Air temperature" current_weather
         = Some (format_value (PyFloat x) ++ unit_run u) ->
         current_temp_C current_weather = Return x).
Proof.
  assert (H : forall (x : float) (u : list bool),
             float_of_str
               (rstrip (format_value (PyFloat x) ++ unit_run u) "°C")
             = Return x).
  { intros x u. rewrite rstrip_unit_run.
    rewrite <- (rstrip_unit_run _ [true; false]). apply float_round_trip. }
  split; [ exact rstrip_unit_run | ]. split; [ exact H | ].
  intros cw x u Hcw. unfold current_temp_C.
  rewrite (getitem_lookup _ _ _ Hcw). cbn [bind]. apply H.
Qed.

Lemma current_temp_C_unit_run_witness :
  current_temp_C [("Air temperature", "14.6C°°C")] = Return 14.6%float.
Proof.
  apply (proj2 (proj2 current_temp_C_unit_run)
           [("Air temperature", "14.6C°°C")] 14.6%float
           [false; true; true; false]).
  vm_compute. reflexivity.
Defined.

(** ** [convert_to_fahr] on an [int] *)

Lemma log2_ge_pow2 (k a : Z) : 0 <= k -> 2 ^ k <= a -> k <= Z.log2 a.
Proof.
  intros Hk Ha. rewrite <- (Z.log2_pow2 k Hk). apply Z.log2_le_mono. exact Ha.
Qed.

Lemma pow2_le_log2 (k a : Z) : 0 < a -> k <= Z.log2 a -> 2 ^ k <= a.
Proof.
  intros Ha Hk.
  apply Z.le_trans with (2 ^ Z.log2 a).
  - apply Z.pow_le_mono_r; [ lia | exact Hk ].
  - apply (Z.log2_spec a Ha).
Qed.

Lemma round_pos_shift (a : Z) :
  0 < a ->
  Z.max 0 (Z.log2 (Z.shiftl a 1074 / 1) - 52) = Z.log2 a + 1022
  \/ Z.log2 a + 1022 < 0.
Proof.
  intros Ha. rewrite Z.div_1_r, Z.shiftl_mul_pow2 by lia.
  rewrite Z.log2_mul_pow2 by lia.
  pose proof (Z.log2_nonneg a). left. lia.
Qed.

Lemma round_dec_int (a : Z) :
  0 < a ->
  exists mant : Z,
    round_dec a 0
    = let sh := Z.log2 a + 1022 in
      let sh' := if mant =? 2 ^ 53 then sh + 1 else sh in
      let mant' := if mant =? 2 ^ 53 then 2 ^ 52 else mant in
      if 2045 <? sh' then S754_infinity false
      else match mant' with
           | Z.pos m => S754_finite false m (sh' - 1074)
           | _ => S754_zero false
           end.
Proof.
  intros Ha. unfold round_dec.
  destruct (Z.eqb_spec a 0) as [ | _]; [ lia | ].
  unfold dec_num, dec_den. cbn [Z.max Z.opp Z.compare].
  change (Z.max 0 0) with 0. change (Z.max (- 0) 0) with 0.
  rewrite Z.pow_0_r, Z.mul_1_r.
  unfold round_pos.
  destruct (round_pos_shift a Ha) as [-> | H];
    [ | pose proof (Z.log2_nonneg a); lia ].
  eexists. reflexivity.
Qed.

(** X13. [convert_to_fahr] never raises on a [float].  On an [int] of
    magnitude at most [2 ^ 53] it computes [1.8 * c + 32] from the [float]
    [c] equal to the integer; on an [int] of magnitude [2 ^ 1024] or more it
    raises [OverflowError]; and it raises nothing else, and nothing on an
    [int] of magnitude below [2 ^ 1023]. *)
Theorem convert_to_fahr_int_range :
  (forall c : float, exists f, convert_to_fahr (Float c) = Return f)
  /\ (forall n : Z,
         Z.abs n <= 2 ^ 53 ->
         exists c,
           float_equals_int c n
           /\ convert_to_fahr (Int n) = Return (1.8 * c + 32)%float)
  /\ (forall n : Z,
         2 ^ 1024 <= Z.abs n ->
         convert_to_fahr (Int n) = Raise OverflowError)
  /\ (forall (temp_C : number) (e : exn),
         convert_to_fahr temp_C = Raise e ->
         e = OverflowError
         /\ exists n, temp_C = Int n /\ 2 ^ 1023 <= Z.abs n).
Proof.
  split; [ | split; [ | split ] ].
  - intros c. eexists. reflexivity.
  - intros n Hn.
    destruct (int_round_trip_exact n Hn) as (y & Hy & Heq).
    rewrite int_round_trip in Hy. injection Hy as <-.
    destruct (int_to_float_small n Hn) as [Hf _].
    eexists. split; [ exact Heq | ].
    unfold convert_to_fahr, as_float. rewrite Hf. reflexivity.
  - intros n Hn.
    assert (Ha : 0 < Z.abs n).
    { apply Z.lt_le_trans with (2 ^ 1024); [ | exact Hn ].
      apply Z.pow_pos_nonneg; lia. }
    pose proof (log2_ge_pow2 1024 _ ltac:(lia) Hn) as HL.
    destruct (round_dec_int _ Ha) as (mant & Hr).
    unfold convert_to_fahr, as_float, int_to_float. rewrite Hr.
    clear Hr Hn. cbv zeta.
    generalize dependent (Z.log2 (Z.abs n)). intros L HL.
    destruct (mant =? 2 ^ 53).
    + replace (2045 <? L + 1022 + 1) with true
        by (symmetry; apply Z.ltb_lt; lia).
      reflexivity.
    + replace (2045 <? L + 1022) with true
        by (symmetry; apply Z.ltb_lt; lia).
      reflexivity.
  - intros [n | x] e; [ | discriminate ].
    unfold convert_to_fahr, as_float, int_to_float.
    destruct (Z.eq_dec n 0) as [-> | Hnz]; [ discriminate | ].
    assert (Ha : 0 < Z.abs n) by lia.
    destruct (round_dec_int _ Ha) as (mant & Hr). rewrite Hr. clear Hr.
    cbv zeta. intros H.
    assert (HL : 1023 <= Z.log2 (Z.abs n)).
    { generalize dependent (Z.log2 (Z.abs n)). intros L H.
      destruct (mant =? 2 ^ 53).
      - destruct (Z.ltb_spec 2045 (L + 1022 + 1)); [ lia | ].
        discriminate H.
      - destruct (Z.ltb_spec 2045 (L + 1022)); [ lia | ].
        destruct mant; discriminate H. }
    split.
    + destruct (mant =? 2 ^ 53).
      * destruct (2045 <? Z.log2 (Z.abs n) + 1022 + 1); cbn in H;
          [ congruence | discriminate H ].
      * destruct (2045 <? Z.log2 (Z.abs n) + 1022); cbn in H;
          [ congruence | destruct mant; discriminate H ].
    + exists n. split; [ reflexivity | ].
      apply pow2_le_log2; assumption.
Qed.

Lemma convert_to_fahr_int_range_witness :
  (exists c,
      float_equals_int c 15
      /\ convert_to_fahr (Int 15) = Return (1.8 * c + 32)%float)
  /\ convert_to_fahr (Int (- 2 ^ 1024)) = Raise OverflowError.
Proof.
  split.
  - apply (proj1 (proj2 convert_to_fahr_int_range) 15).
    vm_compute. discriminate.
  - apply (proj1 (proj2 (proj2 convert_to_fahr_int_range)) (- 2 ^ 1024)).
    vm_compute. discriminate.
Defined.

(** ** The first chart *)

Lemma get_temperature_time_series_parts (held : series_dtype)
  (parse : datetime_parser) (db : tz_database) (weather_info : list json)
  (timezone : string) (series : Series json) :
  get_temperature_time_series held parse db weather_info timezone
  = Return series ->
  exists time_info ps readings,
    traverse (fun entry => subscript entry "time") weather_info
    = Return time_info
    /\ traverse (parse_label parse) time_info = Return ps
    /\ traverse instant_air_temperature weather_info = Return readings
    /\ values series = map (held readings) readings
    /\ index series = {| stamps := map fst ps; zone := timezone |}.
Proof.
  unfold get_temperature_time_series.
  destruct (traverse _ weather_info) as [time_info | ] eqn:Etime;
    cbn [bind]; [ | discriminate ].
  destruct (traverse instant_air_temperature weather_info)
    as [temp_info | ] eqn:Etemp; cbn [bind]; [ | discriminate ].
  unfold to_datetime.
  destruct (traverse (parse_label parse) time_info) as [ps | ] eqn:Eps;
    cbn [bind]; [ | discriminate ].
  destruct (same_offsets ps) eqn:Hsame; cbn [bind]; [ | discriminate ].
  unfold tz_convert. cbn [zone stamps].
  destruct (db timezone) eqn:Hdb; [ | discriminate ].
  destruct ps as [ | [t [o | ]] ps']; try discriminate.
  intros [= <-]. exists time_info, ((t, Some o) :: ps'), temp_info.
  repeat split; eauto.
Qed.

Lemma nth_error_combine {A B : Type} (l : list A) (l' : list B) (i : nat)
  (a : A) (b : B) :
  nth_error l i = Some a -> nth_error l' i = Some b ->
  nth_error (combine l l') i = Some (a, b).
Proof.
  revert l' i. induction l as [ | x l IH]; intros l' i Ha Hb;
    [ destruct i; discriminate | ].
  destruct l' as [ | y l']; [ destruct i; discriminate | ].
  destruct i as [ | i]; cbn in *.
  - injection Ha as ->. injection Hb as ->. reflexivity.
  - apply IH; assumption.
Qed.

(** X15. The first chart is drawn from the first 24 entries of the
    response, or from all of them when there are fewer: it has [min 24 n]
    points for [n] entries, and point [i] is the instant of the time label
    of entry [i] with what the series holds for the air temperature of
    entry [i]; no entry from the 25th on has a point. *)
Theorem temp24H_first_entries (held : series_dtype)
  (parse : datetime_parser) (db : tz_database) (weather_info : list json)
  (timezone : string) (series : Series json) :
  get_temperature_time_series held parse db weather_info timezone
  = Return series ->
  exists readings,
    traverse instant_air_temperature weather_info = Return readings
    /\ List.length (temp24H series) = Nat.min 24 (List.length weather_info)
    /\ (forall i entry,
           (i < 24)%nat ->
           nth_error weather_info i = Some entry ->
           exists label t off temp,
             subscript entry "time" = Return label
             /\ parse label = Some (t, off)
             /\ instant_air_temperature entry = Return temp
             /\ nth_error (temp24H series) i = Some (t, held readings temp))
    /\ (forall i, (24 <= i)%nat -> nth_error (temp24H series) i = None)
    /\ ((List.length weather_info <= 24)%nat ->
        temp24H series
        = combine (stamps (index series)) (values series)).
Proof.
  intros H.
  destruct (get_temperature_time_series_parts _ _ _ _ _ _ H)
    as (time_info & ps & readings & Etime & Eps & Etemp & Hv & Hidx).
  pose proof (traverse_length _ _ _ Etime) as Ltime.
  pose proof (traverse_length _ _ _ Eps) as Lps.
  pose proof (traverse_length _ _ _ Etemp) as Ltemp.
  exists readings. split; [ exact Etemp | ].
  unfold temp24H. rewrite Hidx, Hv. cbn [stamps].
  split; [ | split; [ | split ] ].
  - rewrite length_firstn, length_combine, !length_map. lia.
  - intros i entry Hi Hnth.
    destruct (traverse_nth _ _ _ _ _ Etemp Hnth) as (temp & Htemp & Hval).
    destruct (traverse_nth _ _ _ _ _ Etime Hnth) as (label & Hlabel & Hl).
    destruct (traverse_nth _ _ _ _ _ Eps Hl) as ([t off] & Hp & Hn).
    exists label, t, off, temp. repeat split; auto.
    + unfold parse_label in Hp. destruct (parse label); congruence.
    + rewrite nth_error_firstn.
      replace (i <? 24)%nat with true by (symmetry; apply Nat.ltb_lt; exact Hi).
      apply nth_error_combine.
      * rewrite nth_error_map, Hn. reflexivity.
      * rewrite nth_error_map, Hval. reflexivity.
  - intros i Hi. rewrite nth_error_firstn.
    replace (i <? 24)%nat with false by (symmetry; apply Nat.ltb_ge; exact Hi).
    reflexivity.
  - intros Hlen. apply firstn_all2.
    rewrite length_combine, !length_map. lia.
Qed.

Lemma temp24H_first_entries_witness :
  exists readings,
    traverse instant_air_temperature
      [forecast_entry "2021-05-01T12:00:00Z" (PyFloat 14.6);
       forecast_entry "2021-05-01T13:00:00Z" (PyFloat 15.1)]
    = Return readings
    /\ List.length
         (temp24H
            {| index := {| stamps := [1619870400000000000;
                                      1619874000000000000];
                           zone := "UTC" |};
               values := [JLeaf (PyFloat 14.6); JLeaf (PyFloat 15.1)] |})
       = Nat.min 24 2.
Proof.
  destruct (temp24H_first_entries held_as_given iso8601 utc_only
              [forecast_entry "2021-05-01T12:00:00Z" (PyFloat 14.6);
               forecast_entry "2021-05-01T13:00:00Z" (PyFloat 15.1)] "UTC"
              {| index := {| stamps := [1619870400000000000;
                                        1619874000000000000];
                             zone := "UTC" |};
                 values := [JLeaf (PyFloat 14.6); JLeaf (PyFloat 15.1)] |})
    as (readings & Hr & Hlen & _).
  - vm_compute. reflexivity.
  - exists readings. split; [ exact Hr | exact Hlen ].
Defined.

(** ** The rows of the second chart *)

Lemma fold_min_in (ds : list Z) (d : Z) : In (fold_left Z.min ds d) (d :: ds).
Proof.
  revert d. induction ds as [ | a ds IH]; intros d; [ left; reflexivity | ].
  cbn [fold_left]. destruct (IH (Z.min d a)) as [H | H].
  - rewrite <- H. destruct (Z.min_spec d a) as [[_ ->] | [_ ->]];
      [ left | right; left ]; reflexivity.
  - right; right; exact H.
Qed.

Lemma fold_max_in (ds : list Z) (d : Z) : In (fold_left Z.max ds d) (d :: ds).
Proof.
  revert d. induction ds as [ | a ds IH]; intros d; [ left; reflexivity | ].
  cbn [fold_left]. destruct (IH (Z.max d a)) as [H | H].
  - rewrite <- H. destruct (Z.max_spec d a) as [[_ ->] | [_ ->]];
      [ right; left | left ]; reflexivity.
  - right; right; exact H.
Qed.

Lemma on_day_none (off : Z -> Z) (day : Z) (points : list (Z * float)) :
  (forall t v, In (t, v) points -> local_day off t <> day) ->
  on_day off day points = [].
Proof.
  induction points as [ | [t v] points IH]; intros H; [ reflexivity | ].
  rewrite on_day_out.
  - apply IH. intros t' v' Hin. apply (H t' v'). right; exact Hin.
  - apply (H t v). left; reflexivity.
Qed.

Lemma days_between_succ (a b : Z) (i : nat) (x y : Z) :
  nth_error (days_between a b) i = Some x ->
  nth_error (days_between a b) (S i) = Some y ->
  y = x + 1.
Proof.
  unfold days_between. rewrite !nth_error_map.
  destruct (nth_error (seq 0 (Z.to_nat (b - a + 1))) i) as [j | ] eqn:Ei;
    [ | discriminate ].
  destruct (nth_error (seq 0 (Z.to_nat (b - a + 1))) (S i)) as [k | ] eqn:Ek;
    [ | discriminate ].
  cbn [option_map]. intros [= <-] [= <-].
  assert (Hi : (i < List.length (seq 0 (Z.to_nat (b - a + 1))))%nat)
    by (apply nth_error_Some; congruence).
  assert (Hk : (S i < List.length (seq 0 (Z.to_nat (b - a + 1))))%nat)
    by (apply nth_error_Some; congruence).
  rewrite length_seq in Hi, Hk.
  rewrite nth_error_nth' with (d := 0%nat) in Ei by (rewrite length_seq; lia).
  rewrite nth_error_nth' with (d := 0%nat) in Ek by (rewrite length_seq; lia).
  rewrite seq_nth in Ei, Ek by lia.
  injection Ei as <-. injection Ek as <-. lia.
Qed.

(** X16. The table behind the second chart has no row for an empty series
    and at least one otherwise.  Its rows are consecutive calendar days, each
    the day after the one before, none of them before the earliest or after
    the latest day of an entry; a day in between on which no entry falls has
    its row all the same, with NaN for the maximum and the minimum. *)
Theorem resample_1D_rows (off : Z -> Z) (points : list (Z * float)) :
  (resample_1D_max_min off points = [] <-> points = [])
  /\ (forall i day row day' row',
         nth_error (resample_1D_max_min off points) i = Some (day, row) ->
         nth_error (resample_1D_max_min off points) (S i)
         = Some (day', row') ->
         day' = day + 1)
  /\ (forall day row,
         In (day, row) (resample_1D_max_min off points) ->
         exists t1 v1 t2 v2,
           In (t1, v1) points /\ In (t2, v2) points
           /\ local_day off t1 <= day <= local_day off t2)
  /\ (forall day row,
         In (day, row) (resample_1D_max_min off points) ->
         (forall t v, In (t, v) points -> local_day off t <> day) ->
         row = (PrimFloat.nan, PrimFloat.nan)).
Proof.
  split; [ | split; [ | split ] ].
  - split; [ | intros ->; reflexivity ].
    destruct points as [ | p points]; [ reflexivity | ].
    unfold resample_1D_max_min. cbn [map].
    set (d := local_day off (fst p)).
    set (ds := map (fun p => local_day off (fst p)) points).
    pose proof (fold_min_init ds d). pose proof (fold_max_init ds d).
    unfold days_between.
    destruct (Z.to_nat (fold_left Z.max ds d - fold_left Z.min ds d + 1))
      eqn:E; [ lia | discriminate ].
  - intros i day row day' row'. unfold resample_1D_max_min.
    destruct (map _ points) as [ | d ds]; [ destruct i; discriminate | ].
    rewrite !nth_error_map.
    destruct (nth_error (days_between _ _) i) as [x | ] eqn:Ex;
      [ | discriminate ].
    destruct (nth_error (days_between _ _) (S i)) as [y | ] eqn:Ey;
      [ | discriminate ].
    cbn [option_map]. intros [= <- _] [= <- _].
    eapply days_between_succ; eassumption.
  - intros day row. unfold resample_1D_max_min.
    destruct (map _ points) as [ | d ds] eqn:Edays; [ intros [] | ].
    rewrite in_map_iff. intros (day' & [= <- _] & Hin).
    apply in_days_between in Hin.
    pose proof (fold_min_in ds d) as Hmin.
    pose proof (fold_max_in ds d) as Hmax.
    rewrite <- Edays in Hmin, Hmax.
    apply in_map_iff in Hmin. destruct Hmin as ([t1 v1] & H1 & Hin1).
    apply in_map_iff in Hmax. destruct Hmax as ([t2 v2] & H2 & Hin2).
    exists t1, v1, t2, v2. cbn [fst] in H1, H2. repeat split; try assumption.
    + rewrite H1. apply Hin.
    + rewrite H2. apply Hin.
  - intros day row Hin Hnone.
    unfold resample_1D_max_min in Hin.
    destruct (map _ points) as [ | d ds]; [ destruct Hin | ].
    apply in_map_iff in Hin. destruct Hin as (day' & [= <- <-] & _).
    rewrite (on_day_none _ _ _ Hnone). reflexivity.
Qed.

Lemma resample_1D_rows_witness :
  exists t1 v1 t2 v2,
    In (t1, v1) [(0, 14.6%float); (3 * day_ns, 10%float)]
    /\ In (t2, v2) [(0, 14.6%float); (3 * day_ns, 10%float)]
    /\ local_day (fun _ => 0) t1 <= 1 <= local_day (fun _ => 0) t2.
Proof.
  apply (proj1 (proj2 (proj2 (resample_1D_rows (fun _ => 0)
                                [(0, 14.6%float); (3 * day_ns, 10%float)])))
           1 (PrimFloat.nan, PrimFloat.nan)).
  vm_compute. right; left; reflexivity.
Defined.

(** ** A temperature that is not a number *)

(** X17. A temperature that is null or a boolean does not stop
    [get_current_weather], which formats it like any other value, as
    [None°C], [True°C] or [False°C]; with the location complete,
    [process_weather_forecast] then fails to read that text back as a
    number and raises [ValueError], and no headline is made.  A temperature
    that is a [str] holding the text of a [float] is read as that
    [float]. *)
Theorem process_weather_forecast_temperature_kinds
  (location_info details : dict scalar) (current_weather : dict string)
  (temperature : scalar) :
  get_current_weather details = Return current_weather ->
  lookup "air_temperature" details = Some temperature ->
  (forall location,
      get_location location_info = Return location ->
      temperature = PyNone \/ (exists b, temperature = PyBool b) ->
      exists msg,
        process_weather_forecast location_info current_weather
        = Raise (ValueError msg))
  /\ (forall x : float,
         temperature = PyStr (format_value (PyFloat x)) ->
         current_temp_C current_weather = Return x).
Proof.
  intros Hcw Ht.
  destruct (get_current_weather_temperature _ _ Hcw) as (t & Ht' & Hget).
  rewrite Ht in Ht'. injection Ht' as <-.
  split.
  - intros location Hloc Hkind.
    unfold process_weather_forecast. rewrite Hloc. cbn [bind].
    unfold current_temp_C. rewrite Hget. cbn [bind].
    destruct Hkind as [-> | [[ | ] ->]]; eexists; vm_compute; reflexivity.
  - intros x ->. unfold current_temp_C. rewrite Hget. cbn [bind].
    change (format_value (PyStr (format_value (PyFloat x))))
      with (format_value (PyFloat x)).
    apply float_round_trip.
Qed.

Lemma process_weather_forecast_temperature_kinds_witness :
  exists msg,
    process_weather_forecast
      [("city", PyStr "Oslo"); ("country", PyStr "Norway");
       ("lat", PyFloat 59.91); ("lon", PyFloat 10.75);
       ("timezone", PyStr "Europe/Oslo")]
      [("Air pressure", "1013hPa"); ("Air temperature", "None°C");
       ("Cloud area fraction", "50%"); ("Relative humidity", "80%");
       ("Wind direction (from)", "270°"); ("Wind speed", "3m/s")]
    = Raise (ValueError msg).
Proof.
  apply (proj1 (process_weather_forecast_temperature_kinds
                  [("city", PyStr "Oslo"); ("country", PyStr "Norway");
                   ("lat", PyFloat 59.91); ("lon", PyFloat 10.75);
                   ("timezone", PyStr "Europe/Oslo")]
                  [("air_pressure_at_sea_level", PyInt 1013);
                   ("air_temperature", PyNone);
                   ("cloud_area_fraction", PyInt 50);
                   ("relative_humidity", PyInt 80);
                   ("wind_from_direction", PyInt 270); ("wind_speed", PyInt 3)]
                  _ PyNone eq_refl eq_refl)
           [("city", PyStr "Oslo"); ("country", PyStr "Norway");
            ("lat", PyFloat 59.91); ("lon", PyFloat 10.75);
            ("timezone", PyStr "Europe/Oslo")]).
  - vm_compute. reflexivity.
  - left; reflexivity.
Defined.

(** ** The details block as a decoded value *)

Lemma lookup_leaves (key : string) (d : dict scalar) :
  lookup key (map (fun kv => (fst kv, JLeaf (snd kv))) d)
  = option_map JLeaf (lookup key d).
Proof.
  induction d as [ | [k v] d IH]; [ reflexivity | ].
  cbn [map lookup fst snd]. destruct (String.eqb k key); [ reflexivity | ].
  exact IH.
Qed.

Lemma subscript_leaves (key : string) (d : dict scalar) :
  subscript (leaves d) key = (v <- getitem d key ;; Return (JLeaf v)).
Proof.
  unfold leaves, subscript, getitem. rewrite lookup_leaves.
  destruct (lookup key d); reflexivity.
Qed.

(** X18. [get_weather_info] hands [get_current_weather] the details block
    as it was decoded.  For a block that is a dict of numbers, strings,
    booleans and nulls the outcome, result or error, is the one that
    [get_current_weather] has on that dict, however lists and dicts would be
    printed; a block that is not a dict raises [TypeError]; and whatever is
    raised is a [KeyError] or a [TypeError]. *)
Theorem get_current_weather_json_scalars (container_str : json -> string) :
  (forall details : dict scalar,
      get_current_weather_json container_str (leaves details)
      = get_current_weather details)
  /\ (forall details : json,
         match details with
         | JDict _ => True
         | _ => exists msg,
                  get_current_weather_json container_str details
                  = Raise (TypeError msg)
         end)
  /\ (forall (details : json) (e : exn),
         get_current_weather_json container_str details = Raise e ->
         lookup_error e).
Proof.
  split; [ | split ].
  - intros details. unfold get_current_weather_json, get_current_weather.
    rewrite !subscript_leaves.
    destruct (getitem details "air_pressure_at_sea_level"); cbn [bind];
      [ | reflexivity ].
    destruct (getitem details "air_temperature"); cbn [bind];
      [ | reflexivity ].
    destruct (getitem details "cloud_area_fraction"); cbn [bind];
      [ | reflexivity ].
    destruct (getitem details "relative_humidity"); cbn [bind];
      [ | reflexivity ].
    destruct (getitem details "wind_from_direction"); cbn [bind];
      [ | reflexivity ].
    destruct (getitem details "wind_speed"); cbn [bind]; reflexivity.
  - intros [[ | | | | ] | | d]; try exact I; eexists; reflexivity.
  - intros details e. apply get_current_weather_json_lookup_error.
Qed.

Lemma get_current_weather_json_scalars_witness :
  exists msg,
    get_current_weather_json (fun _ => "") (JList []) = Raise (TypeError msg).
Proof.
  exact (proj1 (proj2 (get_current_weather_json_scalars (fun _ => "")))
           (JList [])).
Defined.
